(** * Smart-contract packaging and dev-mode toggle of the Fabric VS Code extension

    A shallow embedding of

      - [client/src/commands/packageSmartContractCommand.ts]
      - [client/src/commands/toggleFabricRuntimeDevMode.ts]

    The TypeScript functions are [async] procedures that talk to the editor
    (notifications, prompts, commands), to the file system ([fs-extra],
    [glob]) and to a few pure Node helpers ([path.join], [JSON.parse]).
    They are embedded as computations in a state-and-exception monad: the
    state carries the file system and the log of observable calls, an
    exception is a thrown JavaScript value.  Everything the functions call
    but do not define is a field of the [Host] record. *)

From stdpp Require Import base strings list gmap pretty.
From Stdlib Require Import ZArith Ascii.

Local Open Scope Z_scope.
Local Open Scope nat_scope.

(** ** JavaScript values *)

(** The fragment of JavaScript values that flows through the two commands:
    primitives, arrays and plain objects (as produced by [JSON.parse]) and
    [Error] objects.  Numbers are restricted to integers. *)
#[warnings="-register-all"] Inductive value : Type :=
| VUndefined
| VNull
| VBool (b : bool)
| VNum (n : Z)
| VStr (s : string)
| VArr (elems : list value)
| VObj (props : list (string * value))
| VError (ename : string) (message : string) (code : option string).

(** Outcome of a call: a normal completion or a thrown value. *)
Inductive Result (A : Type) : Type :=
| Ok (a : A)
| Throw (e : value).
Arguments Ok {A} a.
Arguments Throw {A} e.

(** [!v] is [negb (truthy v)]. *)
Definition truthy (v : value) : bool :=
  match v with
  | VUndefined | VNull => false
  | VBool b => b
  | VNum n => negb (Z.eqb n 0)
  | VStr s => negb (String.eqb s "")
  | VArr _ | VObj _ | VError _ _ _ => true
  end.

(** [v === s] for a string literal [s]. *)
Definition strict_eq_str (v : value) (s : string) : bool :=
  match v with
  | VStr t => String.eqb t s
  | _ => false
  end.

(** [Error.prototype.toString]. *)
Definition error_toString (ename message : string) : string :=
  if String.eqb ename "" then message
  else if String.eqb message "" then ename
  else ename +:+ ": " +:+ message.

(** [String(v)], the conversion applied by [+] next to a string operand and
    by [new Error(v)]. *)
Fixpoint toString (v : value) : string :=
  match v with
  | VUndefined => "undefined"
  | VNull => "null"
  | VBool true => "true"
  | VBool false => "false"
  | VNum n => pretty n
  | VStr s => s
  | VArr elems =>
      String.concat ","
        (map (fun e => match e with
                       | VUndefined | VNull => ""
                       | _ => toString e
                       end) elems)
  | VObj _ => "[object Object]"
  | VError ename message _ => error_toString ename message
  end.

(** [a + b] when one operand is a string: string concatenation. *)
Definition js_concat (a b : value) : value :=
  VStr (toString a +:+ toString b).

(** [new Error(v)]. *)
Definition newError (v : value) : value :=
  VError "Error" (match v with VUndefined => "" | _ => toString v end) None.

Definition TypeError (message : string) : value :=
  VError "TypeError" message None.

Fixpoint assoc (k : string) (props : list (string * value)) : option value :=
  match props with
  | [] => None
  | (k', v) :: rest => if String.eqb k' k then Some v else assoc k rest
  end.

(** Property read [v.k].  Reading from [undefined] or [null] throws; a
    missing property reads as [undefined]. *)
Definition getProp (v : value) (k : string) : Result value :=
  match v with
  | VUndefined =>
      Throw (TypeError ("Cannot read property '" +:+ k +:+ "' of undefined"))
  | VNull =>
      Throw (TypeError ("Cannot read property '" +:+ k +:+ "' of null"))
  | VObj props => Ok (default VUndefined (assoc k props))
  | VError ename message code =>
      Ok (if String.eqb k "name" then VStr ename
          else if String.eqb k "message" then VStr message
          else if String.eqb k "code" then from_option VStr VUndefined code
          else VUndefined)
  | VStr s =>
      Ok (if String.eqb k "length" then VNum (Z.of_nat (String.length s))
          else VUndefined)
  | VArr elems =>
      Ok (if String.eqb k "length" then VNum (Z.of_nat (length elems))
          else VUndefined)
  | VBool _ | VNum _ => Ok VUndefined
  end.

(** [arr[i]] on a string array: [undefined] out of range. *)
Definition array_get (arr : list string) (i : nat) : value :=
  from_option VStr VUndefined (arr !! i).

(** [arr.includes(v)] on a string array. *)
Definition includes (arr : list string) (v : value) : bool :=
  existsb (strict_eq_str v) arr.

(** ** The host *)

Record GlobOptions : Type := { cwd : value; ignore : string }.

(** [fs.Stats], as far as the command looks at it. *)
Record Stats : Type := { isDirectory : bool }.

(** [vscode.WorkspaceFolder]. *)
Record WorkspaceFolder : Type :=
  { folder_name : string; folder_uri_path : string }.

(** What is observable from outside, in call order. *)
Inductive Event : Type :=
| Log (msg : string)
| ShowErrorMessage (arg : value)
| ShowInformationMessage (arg : value)
| ExecuteCommand (cmd : string)
| Mkdirp (dir : value)
| Copy (src dest : value).

(** Everything the command imports.  [FS] is the state of the file system;
    [fs_mkdirp] and [fs_copy] are the only calls that change it, and they
    may leave a changed file system behind even when they fail. *)
Record Host (FS : Type) : Type := {
  (* vscode.workspace.getConfiguration().get(key) *)
  getConfiguration : string -> value;
  (* vscode.workspace.workspaceFolders, undefined when no folder is open *)
  workspaceFolders : option (list WorkspaceFolder);
  (* CommandsUtil.getWorkspaceFolders() *)
  getWorkspaceFolders : Result (list string);
  (* CommandsUtil.showGolangQuickPickBox(prompt) *)
  showGolangQuickPickBox : string -> Result value;
  (* CommandsUtil.showInputBox(prompt) *)
  showInputBox : string -> Result value;
  (* vscode.commands.executeCommand(cmd) *)
  executeCommand : string -> Result unit;
  (* homeDir(subPath) *)
  homeDir : string -> Result string;
  (* path.join(...args) *)
  path_join : list value -> Result string;
  (* JSON.parse(text) *)
  JSON_parse : string -> Result value;
  (* Glob(pattern, options) *)
  Glob : FS -> string -> GlobOptions -> Result (list string);
  (* fs.readFile(file), decoded as utf8 *)
  fs_readFile : FS -> string -> Result string;
  (* fs.stat(path) *)
  fs_stat : FS -> string -> Result Stats;
  (* fs.mkdirp(dir) *)
  fs_mkdirp : FS -> value -> Result unit * FS;
  (* fs.copy(src, dest) *)
  fs_copy : FS -> value -> value -> Result unit * FS;
}.
Arguments getConfiguration {FS} _ _.
Arguments workspaceFolders {FS} _.
Arguments getWorkspaceFolders {FS} _.
Arguments showGolangQuickPickBox {FS} _ _.
Arguments showInputBox {FS} _ _.
Arguments executeCommand {FS} _ _.
Arguments homeDir {FS} _ _.
Arguments path_join {FS} _ _.
Arguments JSON_parse {FS} _ _.
Arguments Glob {FS} _ _ _ _.
Arguments fs_readFile {FS} _ _ _.
Arguments fs_stat {FS} _ _ _.
Arguments fs_mkdirp {FS} _ _ _.
Arguments fs_copy {FS} _ _ _ _.

Record World (FS : Type) : Type := { fs : FS; events : list Event }.
Arguments fs {FS} _.
Arguments events {FS} _.
Arguments Build_World {FS} _ _.

(** ** The monad of commands *)

(** A command runs on a state [S] and either completes with a result or
    throws; the state it leaves behind is kept in both cases. *)
Definition M (S A : Type) : Type := S -> Result A * S.

Definition ret {S A} (a : A) : M S A := fun w => (Ok a, w).

Definition throw {S A} (e : value) : M S A := fun w => (Throw e, w).

Definition bind {S A B} (m : M S A) (k : A -> M S B) : M S B :=
  fun w =>
    match m w with
    | (Ok a, w') => k a w'
    | (Throw e, w') => (Throw e, w')
    end.

(** [try { body } catch (err) { handler }]. *)
Definition try_catch {S A} (body : M S A) (handler : value -> M S A)
  : M S A :=
  fun w =>
    match body w with
    | (Ok a, w') => (Ok a, w')
    | (Throw e, w') => handler e w'
    end.

(** Awaiting a host call that neither reads nor changes the state. *)
Definition await {S A} (r : Result A) : M S A := fun w => (r, w).

(** Awaiting a host call that reads the file system. *)
Definition await_fs {FS A} (f : FS -> Result A) : M (World FS) A :=
  fun w => (f (fs w), w).

Definition emit {FS} (ev : Event) : M (World FS) unit :=
  fun w => (Ok tt, {| fs := fs w; events := events w ++ [ev] |}).

(** Awaiting a host call that changes the file system; the call is logged. *)
Definition mutate {FS} (ev : Event) (f : FS -> Result unit * FS)
  : M (World FS) unit :=
  fun w =>
    let '(r, fs') := f (fs w) in
    (r, {| fs := fs'; events := events w ++ [ev] |}).

Declare Scope cmd_scope.
Delimit Scope cmd_scope with cmd.
Notation "x <- m ; k" := (bind m (fun x => k))
  (at level 100, m at next level, right associativity) : cmd_scope.
Notation "m ;; k" := (bind m (fun _ => k))
  (at level 100, right associativity) : cmd_scope.
Notation "'try' body 'catch' handler" := (try_catch body handler)
  (at level 100, body at next level) : cmd_scope.
Local Open Scope cmd_scope.

(** ** packageSmartContractCommand.ts *)

Section PackageSmartContract.

Context {FS : Type} (host : Host FS).

Local Abbreviation Cmd A := (M (World FS) A).

Definition showErrorMessage (arg : value) : Cmd unit :=
  emit (ShowErrorMessage arg).

Definition showInformationMessage (arg : value) : Cmd unit :=
  emit (ShowInformationMessage arg).

(** [packageDir.replace('~', '')] for a string that starts with the tilde. *)
Definition drop_tilde (s : string) : string :=
  match s with
  | String _ rest => rest
  | EmptyString => EmptyString
  end.

Definition getBasePackageDir (packageDir : value) : Cmd value :=
  match packageDir with
  | VStr s =>
      if String.prefix "~" s then
        (home <- await (homeDir host (drop_tilde s));
         ret (VStr home))
      else ret packageDir
  | VUndefined | VNull => await (getProp packageDir "startsWith")
  | _ => throw (TypeError "packageDir.startsWith is not a function")
  end.

Definition chooseWorkspace : Cmd value :=
  let workspace := workspaceFolders host in
  emit (Log "Getting workspace folders...");;
  workspaceFolderOptions <-
    (try await (getWorkspaceFolders host)
     catch (fun error =>
       let message := "Issue determining available workspace folder options" in
       showErrorMessage (VStr message);;
       throw (newError (VStr message))));
  workspaceFolder <-
    (if bool_decide (1 < length workspaceFolderOptions) then
       await (showGolangQuickPickBox host "Choose a workspace folder to package")
     else ret (array_get workspaceFolderOptions 0));
  if negb (includes workspaceFolderOptions workspaceFolder) then
    (* User has cancelled the QuickPick box *)
    ret VUndefined
  else
    match workspace with
    | None => throw (TypeError "workspace is not iterable")
    | Some folders =>
        match find (fun folder =>
                      strict_eq_str workspaceFolder (folder_name folder))
                   folders with
        | Some folder => ret (VStr (folder_uri_path folder))
        | None => ret VUndefined
        end
    end.

Definition getLanguage (workspaceDir : value) : Cmd value :=
  jsFiles <- await_fs (fun s => Glob host s "**/*.js"
               {| cwd := workspaceDir; ignore := "**/node_modules/**" |});
  tsFiles <- await_fs (fun s => Glob host s "**/*.ts"
               {| cwd := workspaceDir; ignore := "**/node_modules/**" |});
  goFiles <- await_fs (fun s => Glob host s "**/*.go"
               {| cwd := workspaceDir; ignore := "**/node_modules/**" |});
  if bool_decide (0 < length jsFiles) && bool_decide (0 < length tsFiles) then
    ret (VStr "/typescript/")
  else if bool_decide (0 < length tsFiles)
          && bool_decide (length jsFiles = 0) then
    let message :=
      "Please ensure you have compiled your typescript files into javascript." in
    showErrorMessage (VStr message);;
    throw (newError (VStr message))
  else if bool_decide (0 < length goFiles) then
    ret (VStr "/go/src/")
  else if bool_decide (0 < length jsFiles) then
    ret (VStr "/javascript/")
  else ret VUndefined.

Definition packageJsonNameAndVersion (workspaceDir : value) : Cmd value :=
  workspacePackage <-
    await (path_join host [workspaceDir; VStr "/package.json"]);
  workspacePackageContents <-
    await_fs (fun s => fs_readFile host s workspacePackage);
  workspacePackageObj <- await (JSON_parse host workspacePackageContents);
  workspacePackageName <- await (getProp workspacePackageObj "name");
  workspacePackageVersion <- await (getProp workspacePackageObj "version");
  if negb (truthy workspacePackageName)
     || negb (truthy workspacePackageVersion) then
    let message :=
      "Please enter a package name and/or package version into your package.json" in
    showErrorMessage (VStr message);;
    throw (newError (VStr message))
  else
    ret (VObj [("workspacePackageName", workspacePackageName);
               ("workspacePackageVersion", workspacePackageVersion)]).

Definition golangPackageAndVersion : Cmd value :=
  workspacePackageName <-
    await (showInputBox host "Enter a name for your go package");
  if negb (truthy workspacePackageName) then
    (* User has cancelled the input box *)
    ret VUndefined
  else
    workspacePackageVersion <-
      await (showInputBox host "Enter a version for your go package");
    if truthy workspacePackageVersion then
      (* User has cancelled the input box *)
      ret VUndefined
    else if strict_eq_str workspacePackageName ""
            || strict_eq_str workspacePackageVersion "" then
      let message :=
        "Could not create package directory, please input a name or version for your go project." in
      showErrorMessage (VStr message);;
      throw (newError (VStr message))
    else
      ret (VObj [("workspacePackageName", workspacePackageName);
                 ("workspacePackageVersion", workspacePackageVersion)]).

Definition getFinalDirectory (packageDir workspaceDir : value) : Cmd value :=
  language <- getLanguage workspaceDir;
  if negb (truthy language) then
    let message :=
      "Failed to determine workspace language type, please ensure your project contains a chaincode file in the correct format (**/*.js, **/.ts, **/*.go)!" in
    showErrorMessage (VStr message);;
    throw (newError (VStr message))
  else
    properties <-
      (if strict_eq_str language "/go/src/" then golangPackageAndVersion
       else packageJsonNameAndVersion workspaceDir);
    workspacePackageName <- await (getProp properties "workspacePackageName");
    workspacePackageVersion <-
      await (getProp properties "workspacePackageVersion");
    dir <- await (path_join host
             [packageDir; language;
              js_concat (js_concat workspacePackageName (VStr "@v"))
                        workspacePackageVersion]);
    (* nothing follows the try statement: leaving it normally is the
       implicit [return undefined] *)
    try
      (* Checking to see if there is an existing package with the same
         name and version *)
      (stat <- await_fs (fun s => fs_stat host s dir);
       if isDirectory stat then
         let message :=
           if strict_eq_str language "/go/src/" then
             "Could not create package directory, please input a different name or version for your go project."
           else
             "Please change the name and/or the version of the project in your package.json file." in
         showErrorMessage (VStr message);;
         throw (newError (VStr message))
       else ret VUndefined)
    catch (fun err =>
      code <- await (getProp err "code");
      if strict_eq_str code "ENOENT" then
        (* If the directory does not exist, it will create and package
           the Smart Contract *)
        ret (VStr dir)
      else
        showErrorMessage err;;
        throw (newError err)).

Definition createAndPackage (dir workspaceDir : value) : Cmd value :=
  try
    (mutate (Mkdirp dir) (fun s => fs_mkdirp host s dir);;
     mutate (Copy workspaceDir dir) (fun s => fs_copy host s workspaceDir dir);;
     showInformationMessage (js_concat (VStr "Smart Contract packaged: ") dir);;
     ret VUndefined)
  catch (fun err =>
    showErrorMessage err;;
    throw (newError err)).

Definition createPackageDir (packageDir : value) : Cmd value :=
  workspaceDir <- chooseWorkspace;
  dir <- getFinalDirectory packageDir workspaceDir;
  createAndPackage dir workspaceDir.

Definition refreshEntry : string := "blockchainAPackageExplorer.refreshEntry".

Definition packageSmartContract : Cmd unit :=
  let packageDir := getConfiguration host "fabric.package.directory" in
  try
    (packageDir <- getBasePackageDir packageDir;
     createPackageDir packageDir;;
     emit (ExecuteCommand refreshEntry);;
     await (executeCommand host refreshEntry))
  catch (fun err => showErrorMessage err).

End PackageSmartContract.


(** ** toggleFabricRuntimeDevMode.ts *)

(** The methods of [FabricRuntime] the command calls; the command is
    written against this interface. *)
Class FabricRuntimeOps (R : Type) : Type := {
  isDevelopmentMode : R -> bool;
  setDevelopmentMode : bool -> R -> Result unit * R;
  isRunning : R -> Result bool;
  restart : R -> Result unit * R;
}.

(** The development-mode flag is an attribute of the runtime: the setter
    stores what the getter reads. *)
Class FabricRuntimeLaws (R : Type) `{FabricRuntimeOps R} : Prop := {
  get_set_developmentMode b r r' :
    setDevelopmentMode b r = (Ok tt, r') -> isDevelopmentMode r' = b;
}.

(** Calls made on a runtime, with the name it is registered under. *)
Inductive RuntimeEvent : Type :=
| SetDevelopmentMode (runtimeName : string) (mode : bool)
| IsRunning (runtimeName : string)
| ReportProgress (message : string)
| Restart (runtimeName : string).

(** [RuntimeTreeItem], as far as the command looks at it. *)
Record RuntimeTreeItem : Type := { getName : string }.

(** [FabricRuntimeManager.instance()]: the runtimes by name, shared by every
    caller, and the log of the calls made on them. *)
Record Runtimes (R : Type) : Type := {
  runtimes : gmap string R;
  calls : list RuntimeEvent;
}.
Arguments runtimes {R} _.
Arguments calls {R} _.
Arguments Build_Runtimes {R} _ _.

Section ToggleFabricRuntimeDevMode.

Context {R : Type} `{FabricRuntimeOps R}.

(** [CommandsUtil.showRuntimeQuickPickBox(prompt)]. *)
Variable showRuntimeQuickPickBox : string -> Result value.

(** [runtimeManager.get(runtimeName)]: a reference to the registered object
    (its key in the shared registry), or [undefined]. *)
Definition runtimeManager_get (runtimeName : value)
  : M (Runtimes R) (option string) :=
  fun st =>
    (Ok (match runtimeName with
         | VStr n => if runtimes st !! n is Some _ then Some n else None
         | _ => None
         end), st).

(** [runtime.method()] for a method that only reads the object. *)
Definition read_runtime {A} (runtime : option string) (method : string)
    (f : R -> A) : M (Runtimes R) A :=
  fun st =>
    match runtime ≫= (fun n => runtimes st !! n) with
    | Some r => (Ok (f r), st)
    | None =>
        (Throw (TypeError
           ("Cannot read property '" +:+ method +:+ "' of undefined")), st)
    end.

(** [await runtime.method(...)]: the call is logged and the object is
    updated in place, in the shared registry, whether the call succeeds or
    not. *)
Definition call_runtime {A} (runtime : option string) (method : string)
    (ev : string -> RuntimeEvent) (f : R -> Result A * R)
  : M (Runtimes R) A :=
  fun st =>
    match runtime ≫= (fun n => pair n <$> runtimes st !! n) with
    | Some (n, r) =>
        let '(res, r') := f r in
        (res, {| runtimes := <[n := r']> (runtimes st);
                 calls := calls st ++ [ev n] |})
    | None =>
        (Throw (TypeError
           ("Cannot read property '" +:+ method +:+ "' of undefined")), st)
    end.

Definition report (message : string) : M (Runtimes R) unit :=
  fun st =>
    (Ok tt, {| runtimes := runtimes st;
               calls := calls st ++ [ReportProgress message] |}).

Definition toggleFabricRuntimeDevMode
    (runtimeTreeItem : option RuntimeTreeItem) : M (Runtimes R) unit :=
  runtimeName <-
    match runtimeTreeItem with
    | None =>
        await (showRuntimeQuickPickBox
                 "Select the Fabric runtime to toggle development mode")
    | Some item => ret (VStr (getName item))
    end;
  runtime <- runtimeManager_get runtimeName;
  oldDevelopmentMode <-
    read_runtime runtime "isDevelopmentMode" isDevelopmentMode;
  let newDevelopmentMode := negb oldDevelopmentMode in
  call_runtime runtime "setDevelopmentMode"
    (fun n => SetDevelopmentMode n newDevelopmentMode)
    (setDevelopmentMode newDevelopmentMode);;
  running <-
    call_runtime runtime "isRunning" IsRunning (fun r => (isRunning r, r));
  if negb running then ret tt
  else
    (* vscode.window.withProgress(..., async (progress, token) => ...) *)
    report ("Restarting Fabric runtime " +:+ toString runtimeName);;
    call_runtime runtime "restart" Restart restart.

End ToggleFabricRuntimeDevMode.

(** ** A reference host

    An in-memory host on which the commands can be run: POSIX [path.join],
    a file system kept as a list of entries, and scripted answers for the
    prompts.  The theorems below hold for every host; this one provides the
    concrete runs. *)

Module MemHost.

(** *** POSIX paths *)

Fixpoint split_slash (s : string) : list string :=
  match s with
  | EmptyString => [EmptyString]
  | String c rest =>
      if Ascii.eqb c "/"%char then EmptyString :: split_slash rest
      else match split_slash rest with
           | seg :: segs => String c seg :: segs
           | [] => [String c EmptyString]
           end
  end.

(** [normalizeString]: drop empty and [.] segments, let [..] cancel the
    segment before it.  [acc] is the output so far, last segment first. *)
Fixpoint normalize_segments (allowAboveRoot : bool) (acc segs : list string)
  : list string :=
  match segs with
  | [] => rev acc
  | seg :: rest =>
      if String.eqb seg "" || String.eqb seg "." then
        normalize_segments allowAboveRoot acc rest
      else if String.eqb seg ".." then
        match acc with
        | prev :: acc' =>
            if String.eqb prev ".." then
              normalize_segments allowAboveRoot (seg :: acc) rest
            else normalize_segments allowAboveRoot acc' rest
        | [] =>
            if allowAboveRoot then
              normalize_segments allowAboveRoot [seg] rest
            else normalize_segments allowAboveRoot [] rest
        end
      else normalize_segments allowAboveRoot (seg :: acc) rest
  end.

Definition ends_with (suffix s : string) : bool :=
  String.prefix (String.rev suffix) (String.rev s).

(** [path.posix.normalize]. *)
Definition normalize (p : string) : string :=
  if String.eqb p "" then "."
  else
    let isAbsolute := String.prefix "/" p in
    let trailingSeparator := ends_with "/" p in
    let body :=
      String.concat "/"
        (normalize_segments (negb isAbsolute) [] (split_slash p)) in
    let body :=
      if String.eqb body "" && negb isAbsolute then "." else body in
    let body :=
      if negb (String.eqb body "") && trailingSeparator then body +:+ "/"
      else body in
    if isAbsolute then "/" +:+ body else body.

(** [path.posix.join]: every argument must be a string; the non-empty ones
    are glued with a slash and the result is normalised. *)
Fixpoint join_args (args : list value) (joined : option string)
  : Result string :=
  match args with
  | [] => Ok (from_option normalize "." joined)
  | VStr arg :: rest =>
      if String.eqb arg "" then join_args rest joined
      else
        join_args rest
          (Some (match joined with
                 | None => arg
                 | Some j => j +:+ "/" +:+ arg
                 end))
  | v :: _ =>
      Throw (TypeError ("Path must be a string. Received " +:+ toString v))
  end.

Definition join (args : list value) : Result string := join_args args None.

(** [path.resolve] with the root as working directory, as segments. *)
Definition resolve (p : string) : list string :=
  normalize_segments false [] (split_slash p).

(** *** The file system *)

Inductive node : Type :=
| Dir
| File (content : string).

(** Entries by absolute path, given as segments. *)
Definition memfs : Type := list (list string * node).

Fixpoint lookup_path (p : list string) (t : memfs) : option node :=
  match t with
  | [] => None
  | (q, n) :: rest =>
      if bool_decide (q = p) then Some n else lookup_path p rest
  end.

(** Replace the entry at [p], or add it at the end. *)
Fixpoint write (p : list string) (n : node) (t : memfs) : memfs :=
  match t with
  | [] => [(p, n)]
  | (q, m) :: rest =>
      if bool_decide (q = p) then (p, n) :: rest
      else (q, m) :: write p n rest
  end.

(** [strip root p] is the path of [p] relative to [root], when [p] lies
    at or under [root]. *)
Fixpoint strip (root p : list string) : option (list string) :=
  match root, p with
  | [], _ => Some p
  | r :: root', s :: p' => if String.eqb r s then strip root' p' else None
  | _ :: _, [] => None
  end.

Definition fs_error (code syscall path : string) : value :=
  VError "Error" (code +:+ ": " +:+ syscall +:+ " '" +:+ path +:+ "'")
         (Some code).

Definition stat (t : memfs) (p : string) : Result Stats :=
  match resolve p, lookup_path (resolve p) t with
  | [], _ | _, Some Dir => Ok {| isDirectory := true |}
  | _, Some (File _) => Ok {| isDirectory := false |}
  | _, None => Throw (fs_error "ENOENT" "no such file or directory, stat" p)
  end.

Definition readFile (t : memfs) (p : string) : Result string :=
  match resolve p, lookup_path (resolve p) t with
  | _ :: _, Some (File content) => Ok content
  | [], _ | _, Some Dir =>
      Throw (fs_error "EISDIR" "illegal operation on a directory, read" p)
  | _, None => Throw (fs_error "ENOENT" "no such file or directory, open" p)
  end.

(** [**/*ext], with glob's default of not matching names that start with
    a dot. *)
Definition matches_ext (ext : string) (rel : list string) : bool :=
  forallb (fun seg => negb (String.prefix "." seg)) rel
  && match last rel with
     | Some name =>
         ends_with ext name
         && bool_decide (String.length ext < String.length name)
     | None => false
     end.

(** [**/dir/**]. *)
Definition ignored (pattern : string) (rel : list string) : bool :=
  match split_slash pattern with
  | ["**"; dir; "**"] => existsb (String.eqb dir) rel
  | _ => false
  end.

(** The patterns of the form [**/*ext], relative to [cwd]. *)
Definition glob (t : memfs) (pattern : string) (options : GlobOptions)
  : Result (list string) :=
  match cwd options with
  | VStr dir =>
      Ok (match split_slash pattern with
          | ["**"; String "*"%char ext] =>
              omap (fun '(p, _) =>
                      match strip (resolve dir) p with
                      | Some rel =>
                          if matches_ext ext rel
                             && negb (ignored (ignore options) rel)
                          then Some (String.concat "/" rel)
                          else None
                      | None => None
                      end) t
          | _ => []
          end)
  | v => Throw (TypeError ("Path must be a string. Received " +:+ toString v))
  end.

(** [mkdir -p]: create every missing directory on the way to [p];
    [done] is the part of the path already walked. *)
Fixpoint mkdirs (done todo : list string) (t : memfs) : Result unit * memfs :=
  match todo with
  | [] => (Ok tt, t)
  | seg :: rest =>
      let here := done ++ [seg] in
      match lookup_path here t with
      | Some (File _) =>
          (Throw (fs_error "EEXIST" "file already exists, mkdir"
                    ("/" +:+ String.concat "/" here)), t)
      | Some Dir => mkdirs here rest t
      | None => mkdirs here rest (write here Dir t)
      end
  end.

Definition mkdirp (t : memfs) (dir : value) : Result unit * memfs :=
  match dir with
  | VStr p => mkdirs [] (resolve p) t
  | v =>
      (Throw (TypeError ("Path must be a string. Received " +:+ toString v)),
       t)
  end.

(** Write every entry at or under [src] to the same relative place
    under [dest]; the entries are read from the tree as it was before
    the copy. *)
Definition copy_entry (src dest : list string)
    (entry : list string * node) (acc : memfs) : memfs :=
  match strip src entry.1 with
  | Some rel => write (dest ++ rel) entry.2 acc
  | None => acc
  end.

Definition copy_tree (src dest : list string) (t : memfs) : memfs :=
  foldr (copy_entry src dest) t t.

Definition copy (t : memfs) (src dest : value) : Result unit * memfs :=
  match src, dest with
  | VStr s, VStr d =>
      match resolve s, lookup_path (resolve s) t with
      | _ :: _, None =>
          (Throw (fs_error "ENOENT" "no such file or directory, lstat" s), t)
      | _ :: _, Some (File content) =>
          match resolve d, lookup_path (resolve d) t with
          | [], _ | _, Some Dir =>
              (Throw (VError "Error"
                 ("Cannot overwrite directory '" +:+ d
                  +:+ "' with non-directory '" +:+ s +:+ "'.") None), t)
          | _, _ => (Ok tt, write (resolve d) (File content) t)
          end
      | _, _ =>
          match strip (resolve s) (resolve d) with
          | Some [] =>
              (Throw (VError "Error"
                 "Source and destination must not be the same." None), t)
          | Some (_ :: _) =>
              (Throw (VError "Error"
                 ("Cannot copy '" +:+ s +:+ "' to a subdirectory of itself, '"
                  +:+ d +:+ "'.") None), t)
          | None => (Ok tt, copy_tree (resolve s) (resolve d) t)
          end
      end
  | VStr _, v | v, _ =>
      (Throw (TypeError ("Path must be a string. Received " +:+ toString v)),
       t)
  end.

(** *** The editor *)

(** What the editor and the user answer during one run. *)
Record Script : Type := {
  configuredPackageDir : value;
  openFolders : option (list WorkspaceFolder);
  folderOptions : Result (list string);
  pickedFolder : value;
  enteredName : value;
  enteredVersion : value;
  manifest : string -> Result value;
}.

Definition host (sc : Script) : Host memfs := {|
  getConfiguration key :=
    if String.eqb key "fabric.package.directory" then configuredPackageDir sc
    else VUndefined;
  workspaceFolders := openFolders sc;
  getWorkspaceFolders := folderOptions sc;
  showGolangQuickPickBox _ := Ok (pickedFolder sc);
  showInputBox prompt :=
    Ok (if String.eqb prompt "Enter a name for your go package"
        then enteredName sc else enteredVersion sc);
  executeCommand _ := Ok tt;
  homeDir subPath := join [VStr "/home/user"; VStr subPath];
  path_join := join;
  JSON_parse := manifest sc;
  Glob := glob;
  fs_readFile := readFile;
  fs_stat := stat;
  fs_mkdirp := mkdirp;
  fs_copy := copy;
|}.

End MemHost.


(** ** BlockchainPackageExplorerProvider

    The tree-view provider that lists the packages under the package
    directory, the one the command's refresh is addressed to. *)

(** [new PackageTreeItem(provider, name)]. *)
Record PackageTreeItem : Type := { packageTitle : string }.

(** An argument of [console.log]. *)
Inductive LogArg : Type :=
| LogText (text : string)
| LogValue (v : value)
| LogNames (names : list string)
| LogItem (item : PackageTreeItem).

(** The provider object and what it acts on: its fields, the file system
    with the log of notifications and of calls that change it, the
    console, and how often the change event was fired. *)
Record Provider (FS : Type) : Type := {
  world : World FS;
  console : list (list LogArg);
  tree : list PackageTreeItem;
  packageLanguageArray : list string;
  packageDir : value;
  changesFired : nat;
}.
Arguments world {FS} _.
Arguments console {FS} _.
Arguments tree {FS} _.
Arguments packageLanguageArray {FS} _.
Arguments packageDir {FS} _.
Arguments changesFired {FS} _.
Arguments Build_Provider {FS} _ _ _ _ _ _.

(** [haystack.includes(needle)] on strings. *)
Fixpoint string_includes (needle haystack : string) : bool :=
  String.prefix needle haystack
  || match haystack with
     | EmptyString => false
     | String _ rest => string_includes needle rest
     end.

(** [v.includes(needle)] for a string [needle]: a substring test on a
    string, a membership test on an array, a [TypeError] otherwise. *)
Definition js_includes (expr : string) (v : value) (needle : string)
  : Result bool :=
  match v with
  | VStr s => Ok (string_includes needle s)
  | VArr elems => Ok (existsb (fun e => strict_eq_str e needle) elems)
  | VUndefined =>
      Throw (TypeError "Cannot read property 'includes' of undefined")
  | VNull => Throw (TypeError "Cannot read property 'includes' of null")
  | _ => Throw (TypeError (expr +:+ ".includes is not a function"))
  end.

Section BlockchainPackageExplorerProvider.

Context {FS : Type} (host : Host FS).

(** [fs.readdir(path)]. *)
Variable fs_readdir : FS -> string -> Result (list string).

Local Abbreviation P A := (M (Provider FS) A).

(** A command on the world, run on the provider's. *)
Definition on_world {A} (m : M (World FS) A) : P A :=
  fun st =>
    let '(r, w') := m (world st) in
    (r, {| world := w'; console := console st; tree := tree st;
           packageLanguageArray := packageLanguageArray st;
           packageDir := packageDir st; changesFired := changesFired st |}).

Definition console_log (args : list LogArg) : P unit :=
  fun st =>
    (Ok tt, {| world := world st; console := console st ++ [args];
               tree := tree st;
               packageLanguageArray := packageLanguageArray st;
               packageDir := packageDir st;
               changesFired := changesFired st |}).

Definition get_packageDir : P value := fun st => (Ok (packageDir st), st).

Definition set_packageDir (dir : value) : P unit :=
  fun st =>
    (Ok tt, {| world := world st; console := console st; tree := tree st;
               packageLanguageArray := packageLanguageArray st;
               packageDir := dir; changesFired := changesFired st |}).

Definition get_packageLanguageArray : P (list string) :=
  fun st => (Ok (packageLanguageArray st), st).

Definition set_packageLanguageArray (names : list string) : P unit :=
  fun st =>
    (Ok tt, {| world := world st; console := console st; tree := tree st;
               packageLanguageArray := names;
               packageDir := packageDir st;
               changesFired := changesFired st |}).

Definition set_tree (items : list PackageTreeItem) : P unit :=
  fun st =>
    (Ok tt, {| world := world st; console := console st; tree := items;
               packageLanguageArray := packageLanguageArray st;
               packageDir := packageDir st;
               changesFired := changesFired st |}).

Definition getTreeItem (element : PackageTreeItem) : P PackageTreeItem :=
  console_log [LogText "BlockchainPackageExplorer: getTreeItem";
               LogItem element];;
  ret element.

Definition getPackageDir : P value :=
  console_log [LogText "getPackageDir"];;
  ret (getConfiguration host "fabric.package.directory").

Definition refresh : P unit :=
  console_log [LogText "BlockchainPackageExplorer: refresh"];;
  (* this._onDidChangeTreeData.fire() *)
  fun st =>
    (Ok tt, {| world := world st; console := console st; tree := tree st;
               packageLanguageArray := packageLanguageArray st;
               packageDir := packageDir st;
               changesFired := S (changesFired st) |}).

(** The first loop of [createPackageTree]: the names found under every
    language directory, added to [packageTitleArray]. *)
Fixpoint listPackages (languages : list string)
    (packageTitleArray : list string) : P (list string) :=
  match languages with
  | [] => ret packageTitleArray
  | packageLanguage :: rest =>
      console_log [LogText "printing packageLanguage";
                   LogValue (VStr packageLanguage)];;
      if String.prefix "." packageLanguage then
        listPackages rest packageTitleArray
      else
        dir <- get_packageDir;
        packageSubDirectory <-
          (if String.eqb packageLanguage "go" then
             (* Handle go directory structure: ../package_dir/go/src/ *)
             await (path_join host [dir; VStr packageLanguage; VStr "/src"])
           else await (path_join host [dir; VStr packageLanguage]));
        listed <-
          (try
             (* create array of smart contract packages *)
             (packageArray <-
                on_world (await_fs (fun s => fs_readdir s packageSubDirectory));
              ret (Some packageArray))
           catch (fun error =>
             message <- await (getProp error "message");
             console_log
               [LogText "Error reading smart contract package folder:";
                LogValue message];;
             on_world (showInformationMessage
               (VStr ("Issue listing smart contract packages in:"
                      +:+ packageSubDirectory)));;
             (* continue to next packageLanguage *)
             ret None));
        match listed with
        | Some packageArray =>
            (* push package name to array of packages *)
            listPackages rest (packageTitleArray ++ packageArray)
        | None => listPackages rest packageTitleArray
        end
  end.

Definition createPackageTree (packageLanguageArrayArg : list string)
  : P (list PackageTreeItem) :=
  console_log
    [LogText "createPackageTree from contents of packageLanguageArray";
     LogNames packageLanguageArrayArg];;
  (* foreach of the languages found in the smartContractPackagesDir *)
  languages <- get_packageLanguageArray;
  packageTitleArray <- listPackages languages [];
  ret (map Build_PackageTreeItem
         (filter (fun packageTitle => String.prefix "." packageTitle = false)
                 packageTitleArray)).

(** The first lines of [getChildren]: a leading tilde of the configured
    directory is replaced by the home directory. *)
Definition expandPackageDir (configured : value) : P string :=
  match configured with
  | VStr s =>
      if String.prefix "~" s then
        (* Remove tilda and replace with home dir *)
        (home <- await (homeDir host (drop_tilde s));
         set_packageDir (VStr home);;
         ret home)
      else ret s
  | _ =>
      await (getProp configured "startsWith");;
      throw (TypeError "this.packageDir.startsWith is not a function")
  end.

(** The inner [try] of [getChildren]: create the missing directory.
    It answers whether [getChildren] goes on; [false] stands for its
    [return]. *)
Definition createMissingDir (dir : string) : P bool :=
  try
    (console_log
       [LogText "creating smart contract package directory:";
        LogValue (VStr dir)];;
     on_world (mutate (Mkdirp (VStr dir))
                 (fun s => fs_mkdirp host s (VStr dir)));;
     ret true)
  catch (fun error =>
    message <- await (getProp error "message");
    console_log
      [LogText "Issue creating smart contract package folder:";
       LogValue message];;
    on_world (showErrorMessage
      (VStr ("Issue creating smart contract package folder:" +:+ dir)));;
    ret false).

(** The outer [try] of [getChildren]: list the package directory. *)
Definition readPackageDir (dir : string) : P bool :=
  try
    (names <- on_world (await_fs (fun s => fs_readdir s dir));
     set_packageLanguageArray names;;
     ret true)
  catch (fun error =>
    message <- await (getProp error "message");
    missing <-
      await (js_includes "error.message" message "no such file or directory");
    if missing then
      set_packageLanguageArray [];;
      createMissingDir dir
    else
      console_log
        [LogText "Error reading smart contract package folder:";
         LogValue message];;
      on_world (showErrorMessage
        (VStr ("Issue reading smart contract package folder:" +:+ dir)));;
      ret false).

(** [getChildren] returns the tree, or [undefined] after an error it has
    reported. *)
Definition getChildren : P (option (list PackageTreeItem)) :=
  configured <- getPackageDir;
  set_packageDir configured;;
  console_log [LogText "packageDir is:"; LogValue configured];;
  console_log [LogText "BlockchainPackageExplorer: getChildren"];;
  dir <- expandPackageDir configured;
  proceed <- readPackageDir dir;
  if proceed then
    languages <- get_packageLanguageArray;
    items <- createPackageTree languages;
    set_tree items;;
    ret (Some items)
  else ret None.

End BlockchainPackageExplorerProvider.
(** * Properties *)

(** ** The specification's vocabulary *)

(** [DetectedLanguage] of the data model. *)
Inductive DetectedLanguage : Type :=
| JavaScript
| TypeScript
| Go
| Unknown.

(** What the Language Detector may answer. *)
Inductive Detection : Type :=
| Detected (language : DetectedLanguage)
| UncompiledSourceError.

(** The five classification rules, in their order, from which kinds of
    files exist. *)
Definition classify (hasJs hasTs hasGo : bool) : Detection :=
  if hasTs && hasJs then Detected TypeScript
  else if hasTs && negb hasJs then UncompiledSourceError
  else if hasGo then Detected Go
  else if hasJs then Detected JavaScript
  else Detected Unknown.

(** The language segment of each language; none for [Unknown]. *)
Definition languageSegment (language : DetectedLanguage) : value :=
  match language with
  | JavaScript => VStr "/javascript/"
  | TypeScript => VStr "/typescript/"
  | Go => VStr "/go/src/"
  | Unknown => VUndefined
  end.

(** [join(configuredPackageRoot, languageSegment, name + "@v" + version)]. *)
Definition destinationPath (join : list value -> Result string)
    (configuredPackageRoot : value) (language : DetectedLanguage)
    (name version : string) : Result string :=
  join [configuredPackageRoot; languageSegment language;
        VStr (name +:+ "@v" +:+ version)].

Definition uncompiledMessage : string :=
  "Please ensure you have compiled your typescript files into javascript.".

Definition languageDetectionMessage : string :=
  "Failed to determine workspace language type, please ensure your project contains a chaincode file in the correct format (**/*.js, **/.ts, **/*.go)!".

Definition manifestMessage : string :=
  "Please enter a package name and/or package version into your package.json".

Definition goMetadataMessage : string :=
  "Could not create package directory, please input a name or version for your go project.".

Definition workspaceDiscoveryMessage : string :=
  "Issue determining available workspace folder options".

(** The options of the three scans. *)
Definition scan (workspaceDir : value) : GlobOptions :=
  {| cwd := workspaceDir; ignore := "**/node_modules/**" |}.

(** The world after one more observable call. *)
Definition after {FS} (w : World FS) (evs : list Event) : World FS :=
  {| fs := fs w; events := events w ++ evs |}.

Definition is_mutation (ev : Event) : bool :=
  match ev with
  | Mkdirp _ | Copy _ _ => true
  | _ => false
  end.

(** The outcome of [getLanguage] for each answer of the specification. *)
Definition detection_outcome {FS} (d : Detection) (w : World FS)
  : Result value * World FS :=
  match d with
  | Detected language => (Ok (languageSegment language), w)
  | UncompiledSourceError =>
      (Throw (newError (VStr uncompiledMessage)),
       after w [ShowErrorMessage (VStr uncompiledMessage)])
  end.


(** A command that leaves the file system alone: it returns the file
    system it was given, and logs no call that changes one. *)
Definition read_only {FS A} (m : M (World FS) A) : Prop :=
  forall w r w',
    m w = (r, w') ->
    fs w' = fs w /\
    exists evs, events w' = events w ++ evs /\
                forallb (fun ev => negb (is_mutation ev)) evs = true.

(** The Metadata Resolver variant selected by a language segment. *)
Definition metadataResolver {FS} (host : Host FS)
    (language workspaceDir : value) : M (World FS) value :=
  if strict_eq_str language "/go/src/" then golangPackageAndVersion host
  else packageJsonNameAndVersion host workspaceDir.

(** The pipeline reaches the Destination Planner's path computation with
    language segment [language] and metadata [name], [version], in
    world [w1]. *)
Definition resolves {FS} (host : Host FS) (workspaceDir : value)
    (w : World FS) (language name version : value) (w1 : World FS) : Prop :=
  exists w0 properties,
    getLanguage host workspaceDir w = (Ok language, w0) /\
    truthy language = true /\
    metadataResolver host language workspaceDir w0 = (Ok properties, w1) /\
    getProp properties "workspacePackageName" = Ok name /\
    getProp properties "workspacePackageVersion" = Ok version.

Definition goExistsMessage : string :=
  "Could not create package directory, please input a different name or version for your go project.".

Definition manifestExistsMessage : string :=
  "Please change the name and/or the version of the project in your package.json file.".

Definition gettingFoldersMessage : string := "Getting workspace folders...".

Definition namePrompt : string := "Enter a name for your go package".

Definition versionPrompt : string := "Enter a version for your go package".

(** What reading [workspacePackageName] from [undefined] throws. *)
Definition noPropertiesError : value :=
  TypeError "Cannot read property 'workspacePackageName' of undefined".

(** The message of the collision error, by language family. *)
Definition existsMessage (language : value) : string :=
  if strict_eq_str language "/go/src/" then goExistsMessage
  else manifestExistsMessage.

(** The argument list of the planner's [path.join]. *)
Definition joinArguments (packageDir language name version : value)
  : list value :=
  [packageDir; language;
   VStr ((toString name +:+ "@v") +:+ toString version)].

(** ** Sample runs on the reference host *)

Module Samples.

Import MemHost.

Definition contractFolder : WorkspaceFolder :=
  {| folder_name := "contract"; folder_uri_path := "/ws/contract" |}.

(** One open folder, [/ws/contract], holding [files]; packages go
    to [/pkgs]. *)
Definition workspace (files : list (list string * node)) : memfs :=
  [(["ws"], Dir); (["ws"; "contract"], Dir)]
  ++ map (fun '(p, n) => (["ws"; "contract"] ++ p, n)) files
  ++ [(["pkgs"], Dir)].

Definition world (files : list (list string * node)) : World memfs :=
  {| fs := workspace files; events := [] |}.

(** The answers of one run: what the user types for a Go package and
    what the manifest parses to. *)
Definition script (name version : value) (parsed : Result value) : Script :=
  {| configuredPackageDir := VStr "/pkgs";
     openFolders := Some [contractFolder];
     folderOptions := Ok ["contract"];
     pickedFolder := VUndefined;
     enteredName := name;
     enteredVersion := version;
     manifest := fun _ => parsed |}.

Definition manifestOf (name version : string) : value :=
  VObj [("name", VStr name); ("version", VStr version);
        ("description", VStr "My Smart Contract")].

(** A JavaScript project. *)
Definition javascriptProject : list (list string * node) :=
  [(["package.json"], File "foo 1.2.3");
   (["index.js"], File "");
   (["node_modules"], Dir);
   (["node_modules"; "dep.ts"], File "")].

(** TypeScript sources with their compiled output, next to a Go file. *)
Definition mixedProject : list (list string * node) :=
  [(["package.json"], File "foo 1.2.3");
   (["chaincode.ts"], File "");
   (["chaincode.js"], File "");
   (["chaincode.go"], File "")].

(** TypeScript sources that were not compiled, next to a Go file. *)
Definition uncompiledProject : list (list string * node) :=
  [(["package.json"], File "foo 1.2.3");
   (["chaincode.ts"], File "");
   (["chaincode.go"], File "")].

Definition goProject : list (list string * node) :=
  [(["chaincode.go"], File "")].

Definition textProject : list (list string * node) :=
  [(["text.txt"], File "hello")].

Definition fooHost : Host memfs :=
  host (script VUndefined VUndefined (Ok (manifestOf "foo" "1.2.3"))).

(** The manifest of the specification's example with an empty name. *)
Definition namelessHost : Host memfs :=
  host (script VUndefined VUndefined (Ok (manifestOf "" "0.0.1"))).

(** A Go package: what the user answers to the name and to the version
    prompt; [undefined] is a cancelled prompt. *)
Definition goHost (name version : value) : Host memfs :=
  host (script name version (Throw (VError "SyntaxError"
                                      "Unexpected end of JSON input" None))).

(** Two folders are open and the quick pick is cancelled. *)
Definition cancelledPickHost : Host memfs :=
  host {| configuredPackageDir := VStr "/pkgs";
          openFolders :=
            Some [contractFolder;
                  {| folder_name := "other";
                     folder_uri_path := "/ws/other" |}];
          folderOptions := Ok ["contract"; "other"];
          pickedFolder := VUndefined;
          enteredName := VUndefined;
          enteredVersion := VUndefined;
          manifest := fun _ => Ok (manifestOf "foo" "1.2.3") |}.

(** No folder is open. *)
Definition noFolderHost : Host memfs :=
  host {| configuredPackageDir := VStr "/pkgs";
          openFolders := Some [];
          folderOptions := Ok [];
          pickedFolder := VUndefined;
          enteredName := VUndefined;
          enteredVersion := VUndefined;
          manifest := fun _ => Ok (manifestOf "foo" "1.2.3") |}.

(** The folders cannot be listed. *)
Definition brokenFoldersHost : Host memfs :=
  host {| configuredPackageDir := VStr "/pkgs";
          openFolders := None;
          folderOptions := Throw (TypeError "workspace is not iterable");
          pickedFolder := VUndefined;
          enteredName := VUndefined;
          enteredVersion := VUndefined;
          manifest := fun _ => Ok (manifestOf "foo" "1.2.3") |}.

Definition javascriptWorld : World memfs := world javascriptProject.
Definition mixedWorld : World memfs := world mixedProject.
Definition uncompiledWorld : World memfs := world uncompiledProject.
Definition goWorld : World memfs := world goProject.
Definition textWorld : World memfs := world textProject.

(** The JavaScript project with the destination chain created. *)
Definition chainTree : memfs :=
  workspace javascriptProject
  ++ [(["pkgs"; "javascript"], Dir);
      (["pkgs"; "javascript"; "foo@v1.2.3"], Dir)].

(** ... and with the project copied into it. *)
Definition packagedTree : memfs :=
  chainTree
  ++ [(["pkgs"; "javascript"; "foo@v1.2.3"; "node_modules"; "dep.ts"],
       File "");
      (["pkgs"; "javascript"; "foo@v1.2.3"; "node_modules"], Dir);
      (["pkgs"; "javascript"; "foo@v1.2.3"; "index.js"], File "");
      (["pkgs"; "javascript"; "foo@v1.2.3"; "package.json"],
       File "foo 1.2.3")].

(** The JavaScript project after it was packaged once. *)
Definition packagedWorld : World memfs :=
  (packageSmartContract fooHost javascriptWorld).2.

(** The JavaScript project, with a regular file where its package
    would go. *)
Definition blockedWorld : World memfs :=
  {| fs := workspace javascriptProject
           ++ [(["pkgs"; "javascript"], Dir);
               (["pkgs"; "javascript"; "foo@v1.2.3"], File "")];
     events := [] |}.

End Samples.

(** ** A sample runtime *)

(** A runtime whose calls always succeed: the flag, whether it runs, and
    how often it was restarted. *)
Record LocalRuntime : Type := {
  developmentMode : bool;
  running : bool;
  restarts : nat;
}.

#[global] Instance LocalRuntime_ops : FabricRuntimeOps LocalRuntime := {|
  isDevelopmentMode r := developmentMode r;
  setDevelopmentMode b r :=
    (Ok tt, {| developmentMode := b; running := running r;
               restarts := restarts r |});
  isRunning r := Ok (running r);
  restart r :=
    (Ok tt, {| developmentMode := developmentMode r; running := running r;
               restarts := S (restarts r) |});
|}.

Definition toggleDevModePrompt : string :=
  "Select the Fabric runtime to toggle development mode".

(** [local_fabric], stopped or running, with development mode off. *)
Definition localFabric (isRunning : bool) : Runtimes LocalRuntime :=
  {| runtimes :=
       {[ "local_fabric" :=
            {| developmentMode := false; running := isRunning;
               restarts := 0 |} ]};
     calls := [] |}.

(** ** More sample runs *)

Module MoreSamples.

Import MemHost Samples.

Definition otherFolder : WorkspaceFolder :=
  {| folder_name := "other"; folder_uri_path := "/ws/other" |}.

(** Two folders are open and the user picks [pick]. *)
Definition pickHost (pick : value) : Host memfs :=
  host {| configuredPackageDir := VStr "/pkgs";
          openFolders := Some [contractFolder; otherFolder];
          folderOptions := Ok ["contract"; "other"];
          pickedFolder := pick;
          enteredName := VUndefined;
          enteredVersion := VUndefined;
          manifest := fun _ => Ok (manifestOf "foo" "1.2.3") |}.

End MoreSamples.

(** A command all of whose logged calls satisfy [P]. *)
Definition emits_only {FS A} (P : Event -> bool) (m : M (World FS) A)
  : Prop :=
  forall w r w',
    m w = (r, w') ->
    exists evs, events w' = events w ++ evs /\ forallb P evs = true.

Definition is_refresh (ev : Event) : bool :=
  match ev with
  | ExecuteCommand _ => true
  | _ => false
  end.

Definition is_notification (ev : Event) : bool :=
  match ev with
  | ShowErrorMessage _ | ShowInformationMessage _ => true
  | _ => false
  end.

Definition is_error (ev : Event) : bool :=
  match ev with
  | ShowErrorMessage _ => true
  | _ => false
  end.

Definition packageDirectoryKey : string := "fabric.package.directory".

Module CommandSamples.

Import MemHost Samples.

(** The package directory is not configured. *)
Definition unsetHost : Host memfs :=
  host {| configuredPackageDir := VUndefined;
          openFolders := Some [contractFolder];
          folderOptions := Ok ["contract"];
          pickedFolder := VUndefined;
          enteredName := VUndefined;
          enteredVersion := VUndefined;
          manifest := fun _ => Ok (manifestOf "foo" "1.2.3") |}.

(** The package directory is given from the home directory. *)
Definition tildeHost : Host memfs :=
  host {| configuredPackageDir := VStr "~/.fabric-vscode/packages";
          openFolders := Some [contractFolder];
          folderOptions := Ok ["contract"];
          pickedFolder := VUndefined;
          enteredName := VUndefined;
          enteredVersion := VUndefined;
          manifest := fun _ => Ok (manifestOf "foo" "1.2.3") |}.

(** The package directory is taken by a regular file. *)
Definition blockedRootWorld : World memfs :=
  {| fs := [(["ws"], Dir); (["ws"; "contract"], Dir);
            (["ws"; "contract"; "index.js"], File EmptyString);
            (["pkgs"], File EmptyString)];
     events := [] |}.

(** The manifest cannot be parsed. *)
Definition emptyManifestHost : Host memfs :=
  host (script VUndefined VUndefined
          (Throw (VError "SyntaxError" "Unexpected end of JSON input" None))).

End CommandSamples.

(** What reading a method from no runtime throws. *)
Definition noRuntimeError : value :=
  TypeError "Cannot read property 'isDevelopmentMode' of undefined".

(** The name the command toggles: the tree item's, or the quick pick's
    answer. *)
Definition toggledName (showRuntimeQuickPickBox : string -> Result value)
    (runtimeTreeItem : option RuntimeTreeItem) : Result value :=
  match runtimeTreeItem with
  | Some item => Ok (VStr (getName item))
  | None => showRuntimeQuickPickBox toggleDevModePrompt
  end.

(** A runtime whose settings cannot be written. *)
Record FrozenRuntime : Type := { frozenMode : bool }.

Definition settingsError : value :=
  VError "Error" "EACCES: permission denied" (Some "EACCES").

#[global] Instance FrozenRuntime_ops : FabricRuntimeOps FrozenRuntime := {|
  isDevelopmentMode r := frozenMode r;
  setDevelopmentMode _ r := (Throw settingsError, r);
  isRunning _ := Ok true;
  restart r := (Ok tt, r);
|}.

Definition frozenFabric : Runtimes FrozenRuntime :=
  {| runtimes := {[ "local_fabric" := {| frozenMode := false |} ]};
     calls := [] |}.

(** [local_fabric] and a second runtime. *)
Definition twoRuntimes : Runtimes LocalRuntime :=
  {| runtimes :=
       {[ "local_fabric" :=
            {| developmentMode := false; running := true; restarts := 0 |};
          "remote_fabric" :=
            {| developmentMode := true; running := false; restarts := 3 |} ]};
     calls := [] |}.

(** ** The package explorer: vocabulary and samples *)

(** A name the explorer shows. *)
Definition visible (name : string) : bool := negb (String.prefix "." name).

(** The arguments of the [path.join] that locates the packages of a
    language. *)
Definition subDirectoryArguments (dir : value) (language : string)
  : list value :=
  if String.eqb language "go" then [dir; VStr language; VStr "/src"]
  else [dir; VStr language].

Section ExplorerVocabulary.

Context {FS : Type} (host : Host FS).
Variable fs_readdir : FS -> string -> Result (list string).
Variables (t : FS) (dir : value).

(** The packages listed for a language directory: none for a hidden one,
    none when its directory cannot be listed. *)
Definition packagesOf (language : string) : list string :=
  if visible language then
    match path_join host (subDirectoryArguments dir language) with
    | Ok sub =>
        match fs_readdir t sub with
        | Ok names => names
        | Throw _ => []
        end
    | Throw _ => []
    end
  else [].

(** The message shown for a language directory that cannot be listed. *)
Definition listingIssue (language : string) : list Event :=
  if visible language then
    match path_join host (subDirectoryArguments dir language) with
    | Ok sub =>
        match fs_readdir t sub with
        | Ok _ => []
        | Throw _ =>
            [ShowInformationMessage
               (VStr ("Issue listing smart contract packages in:" +:+ sub))]
        end
    | Throw _ => []
    end
  else [].

(** A language directory whose path can be joined and whose listing, if it
    fails, fails with something that has a readable [message]. *)
Definition listable (language : string) : Prop :=
  visible language = true ->
  exists sub,
    path_join host (subDirectoryArguments dir language) = Ok sub /\
    forall e, fs_readdir t sub = Throw e ->
              exists message, getProp e "message" = Ok message.

(** The tree for the language directories [languages]. *)
Definition treeOf (languages : list string) : list PackageTreeItem :=
  map Build_PackageTreeItem
    (filter (fun title => String.prefix "." title = false)
       (concat (map packagesOf languages))).

End ExplorerVocabulary.

(** The package directory with a leading tilde expanded. *)
Definition expandedDir {FS} (host : Host FS) (configured : string)
  : Result string :=
  if String.prefix "~" configured then homeDir host (drop_tilde configured)
  else Ok configured.

Module ExplorerSamples.

Import MemHost.

(** [fs.readdir] on the reference file system: the names directly under a
    directory. *)
Definition readdir (t : memfs) (p : string) : Result (list string) :=
  match resolve p, lookup_path (resolve p) t with
  | _ :: _, None =>
      Throw (fs_error "ENOENT" "no such file or directory, scandir" p)
  | _ :: _, Some (File _) =>
      Throw (fs_error "ENOTDIR" "not a directory, scandir" p)
  | here, _ =>
      Ok (omap (fun entry =>
                  match strip here entry.1 with
                  | Some [name] => Some name
                  | _ => None
                  end) t)
  end.

(** A package directory with JavaScript and Go packages, a hidden file, a
    hidden package, and a regular file where the TypeScript packages
    would be. *)
Definition packagesTree : memfs :=
  [(["pkgs"], Dir);
   (["pkgs"; ".DS_Store"], File EmptyString);
   (["pkgs"; "javascript"], Dir);
   (["pkgs"; "javascript"; "foo@v1.2.3"], Dir);
   (["pkgs"; "javascript"; "foo@v1.2.3"; "index.js"], File EmptyString);
   (["pkgs"; "javascript"; ".hidden@v1"], Dir);
   (["pkgs"; "typescript"], File EmptyString);
   (["pkgs"; "go"], Dir);
   (["pkgs"; "go"; "src"], Dir);
   (["pkgs"; "go"; "src"; "mycc@vundefined"], Dir)].

Definition provider (t : memfs) : Provider memfs :=
  {| world := {| fs := t; events := [] |};
     console := [];
     tree := [];
     packageLanguageArray := [];
     packageDir := VUndefined;
     changesFired := 0 |}.

(** The package directory is taken by a regular file. *)
Definition blockedTree : memfs := [(["pkgs"], File EmptyString)].

Definition readOnlyError : value :=
  VError "Error" "EROFS: read-only file system, mkdir '/pkgs'" (Some "EROFS").

(** The reference host on a disk that cannot be written. *)
Definition readOnlyDiskHost : Host memfs :=
  {| getConfiguration := getConfiguration Samples.fooHost;
     workspaceFolders := workspaceFolders Samples.fooHost;
     getWorkspaceFolders := getWorkspaceFolders Samples.fooHost;
     showGolangQuickPickBox := showGolangQuickPickBox Samples.fooHost;
     showInputBox := showInputBox Samples.fooHost;
     executeCommand := executeCommand Samples.fooHost;
     homeDir := homeDir Samples.fooHost;
     path_join := join;
     JSON_parse := JSON_parse Samples.fooHost;
     Glob := glob;
     fs_readFile := readFile;
     fs_stat := stat;
     fs_mkdirp := fun t _ => (Throw readOnlyError, t);
     fs_copy := fun t _ _ => (Throw readOnlyError, t) |}.

(** The provider after it has listed the package directory. *)
Definition listedProvider : Provider memfs :=
  {| world := {| fs := packagesTree; events := [] |};
     console := [];
     tree := [];
     packageLanguageArray := [".DS_Store"; "javascript"; "typescript"; "go"];
     packageDir := VStr "/pkgs";
     changesFired := 0 |}.

End ExplorerSamples.
(** ** Running commands *)

Ltac unfold_cmd :=
  unfold showErrorMessage, showInformationMessage in *;
  unfold bind, ret, throw, try_catch, await, await_fs, emit, mutate,
    after in *.

Lemma after_after {FS} (w : World FS) evs1 evs2 :
  after (after w evs1) evs2 = after w (evs1 ++ evs2).
Proof. unfold after; simpl; by rewrite app_assoc. Qed.

Section LanguageDetector.

Context {FS : Type} (host : Host FS).

Lemma getLanguage_classify (workspaceDir : value) (w : World FS)
    (jsFiles tsFiles goFiles : list string) :
  Glob host (fs w) "**/*.js" (scan workspaceDir) = Ok jsFiles ->
  Glob host (fs w) "**/*.ts" (scan workspaceDir) = Ok tsFiles ->
  Glob host (fs w) "**/*.go" (scan workspaceDir) = Ok goFiles ->
  getLanguage host workspaceDir w =
    detection_outcome
      (classify (bool_decide (jsFiles ≠ [])) (bool_decide (tsFiles ≠ []))
                (bool_decide (goFiles ≠ []))) w.
Proof.
  intros Hjs Hts Hgo. unfold getLanguage, scan in *. unfold_cmd.
  rewrite Hjs, Hts, Hgo.
  destruct jsFiles, tsFiles, goFiles; reflexivity.
Qed.

(** A successful detection leaves the world as it was and answers with one
    of the three segments or [undefined]. *)
Lemma getLanguage_ok (workspaceDir language : value) (w w' : World FS) :
  getLanguage host workspaceDir w = (Ok language, w') ->
  w' = w /\
  (language = VStr "/typescript/" \/ language = VStr "/go/src/" \/
   language = VStr "/javascript/" \/ language = VUndefined).
Proof.
  unfold getLanguage. unfold_cmd.
  destruct (Glob host (fs w) "**/*.js" _) as [js|]; [|discriminate].
  destruct (Glob host (fs w) "**/*.ts" _) as [ts|]; [|discriminate].
  destruct (Glob host (fs w) "**/*.go" _) as [go|]; [|discriminate].
  repeat case_bool_decide; simpl; intros [= <- <-]; auto.
Qed.

End LanguageDetector.

(** ** Commands that leave the file system alone *)

Section ReadOnly.

Context {FS : Type}.

Lemma read_only_ret {A} (a : A) : read_only (FS := FS) (ret a).
Proof.
  intros w r w' [= <- <-]. split; [done|].
  exists []. by rewrite app_nil_r.
Qed.

Lemma read_only_throw {A} e : read_only (FS := FS) (A := A) (throw e).
Proof.
  intros w r w' [= <- <-]. split; [done|].
  exists []. by rewrite app_nil_r.
Qed.

Lemma read_only_await {A} (res : Result A) : read_only (FS := FS) (await res).
Proof.
  intros w r w' [= <- <-]. split; [done|].
  exists []. by rewrite app_nil_r.
Qed.

Lemma read_only_await_fs {A} (f : FS -> Result A) : read_only (await_fs f).
Proof.
  intros w r w' [= <- <-]. split; [done|].
  exists []. by rewrite app_nil_r.
Qed.

Lemma read_only_emit ev :
  is_mutation ev = false -> read_only (FS := FS) (emit ev).
Proof.
  intros Hev w r w' [= <- <-]. split; [done|].
  exists [ev]. simpl. by rewrite Hev.
Qed.

Lemma read_only_bind {A B} (m : M (World FS) A) (k : A -> M (World FS) B) :
  read_only m -> (forall a, read_only (k a)) -> read_only (bind m k).
Proof.
  intros Hm Hk w r w'. unfold bind.
  destruct (m w) as [[a|e] w1] eqn:Em; intros Hrun.
  - destruct (Hm _ _ _ Em) as (Hfs1 & evs1 & Hev1 & Hok1).
    destruct (Hk a _ _ _ Hrun) as (Hfs2 & evs2 & Hev2 & Hok2).
    split; [congruence|].
    exists (evs1 ++ evs2). rewrite Hev2, Hev1, app_assoc. split; [done|].
    rewrite forallb_app. by rewrite Hok1, Hok2.
  - injection Hrun as <- <-. exact (Hm _ _ _ Em).
Qed.

Lemma read_only_try_catch {A} (body : M (World FS) A)
    (handler : value -> M (World FS) A) :
  read_only body -> (forall e, read_only (handler e)) ->
  read_only (try_catch body handler).
Proof.
  intros Hm Hk w r w'. unfold try_catch.
  destruct (body w) as [[a|e] w1] eqn:Em; intros Hrun.
  - injection Hrun as <- <-. exact (Hm _ _ _ Em).
  - destruct (Hm _ _ _ Em) as (Hfs1 & evs1 & Hev1 & Hok1).
    destruct (Hk e _ _ _ Hrun) as (Hfs2 & evs2 & Hev2 & Hok2).
    split; [congruence|].
    exists (evs1 ++ evs2). rewrite Hev2, Hev1, app_assoc. split; [done|].
    rewrite forallb_app. by rewrite Hok1, Hok2.
Qed.

End ReadOnly.

Ltac read_only_step :=
  lazymatch goal with
  | |- read_only (bind _ _) => apply read_only_bind; [|intros ?]
  | |- read_only (try_catch _ _) => apply read_only_try_catch; [|intros ?]
  | |- read_only (ret _) => apply read_only_ret
  | |- read_only (throw _) => apply read_only_throw
  | |- read_only (await _) => apply read_only_await
  | |- read_only (await_fs _) => apply read_only_await_fs
  | |- read_only (emit _) => apply read_only_emit; reflexivity
  | |- read_only (showErrorMessage _) => apply read_only_emit; reflexivity
  | |- read_only (if ?b then _ else _) => destruct b
  | |- read_only (match ?x with _ => _ end) => destruct x
  end.

Ltac solve_read_only := cbv zeta; repeat (read_only_step; cbv zeta).

Section Stages.

Context {FS : Type} (host : Host FS).

Lemma chooseWorkspace_read_only : read_only (chooseWorkspace host).
Proof. unfold chooseWorkspace. solve_read_only. Qed.

Lemma getLanguage_read_only workspaceDir :
  read_only (getLanguage host workspaceDir).
Proof. unfold getLanguage. solve_read_only. Qed.

Lemma packageJsonNameAndVersion_read_only workspaceDir :
  read_only (packageJsonNameAndVersion host workspaceDir).
Proof. unfold packageJsonNameAndVersion. solve_read_only. Qed.

Lemma golangPackageAndVersion_read_only :
  read_only (golangPackageAndVersion host).
Proof. unfold golangPackageAndVersion. solve_read_only. Qed.

(** The Destination Planner never changes the file system, whatever it
    answers. *)
Lemma getFinalDirectory_read_only packageDir workspaceDir :
  read_only (getFinalDirectory host packageDir workspaceDir).
Proof.
  unfold getFinalDirectory.
  apply read_only_bind; [apply getLanguage_read_only|intros language].
  destruct (negb (truthy language)); [solve_read_only|].
  apply read_only_bind.
  { destruct (strict_eq_str language "/go/src/").
    - apply golangPackageAndVersion_read_only.
    - apply packageJsonNameAndVersion_read_only. }
  intros properties. solve_read_only.
Qed.

End Stages.

(** ** The Destination Planner, once language and metadata are known *)

Section Planner.

Context {FS : Type} (host : Host FS).
Variables (packageDir workspaceDir language name version : value).
Variables (w w1 : World FS).

Hypothesis Hresolves :
  resolves host workspaceDir w language name version w1.

Ltac planner_start :=
  destruct Hresolves as (w0 & properties & Hl & Ht & Hm & Hn & Hv);
  unfold getFinalDirectory, metadataResolver, joinArguments in *;
  unfold_cmd; rewrite Hl; cbn beta iota; rewrite Ht; cbn [negb];
  cbn beta iota; rewrite Hm; cbn beta iota; rewrite Hn, Hv;
  unfold js_concat; cbn [toString].

(** Nothing was changed on the way to the planner. *)
Lemma resolves_read_only :
  fs w1 = fs w /\
  exists evs, events w1 = events w ++ evs /\
              forallb (fun ev => negb (is_mutation ev)) evs = true.
Proof.
  destruct Hresolves as (w0 & properties & Hl & Ht & Hm & Hn & Hv).
  destruct (getLanguage_ok _ _ _ _ _ Hl) as [-> _].
  unfold metadataResolver in Hm.
  destruct (strict_eq_str language "/go/src/").
  - exact (golangPackageAndVersion_read_only host _ _ _ Hm).
  - exact (packageJsonNameAndVersion_read_only host _ _ _ _ Hm).
Qed.

Lemma planner_join_fails e :
  path_join host (joinArguments packageDir language name version) = Throw e ->
  getFinalDirectory host packageDir workspaceDir w = (Throw e, w1).
Proof. intros Hj. planner_start. by rewrite Hj. Qed.

Lemma planner_enoent dir e :
  path_join host (joinArguments packageDir language name version) = Ok dir ->
  fs_stat host (fs w1) dir = Throw e ->
  getProp e "code" = Ok (VStr "ENOENT") ->
  getFinalDirectory host packageDir workspaceDir w = (Ok (VStr dir), w1).
Proof. intros Hj Hs Hc. planner_start. by rewrite Hj, Hs, Hc. Qed.

Lemma planner_probe_fails dir e code :
  path_join host (joinArguments packageDir language name version) = Ok dir ->
  fs_stat host (fs w1) dir = Throw e ->
  getProp e "code" = Ok code ->
  strict_eq_str code "ENOENT" = false ->
  getFinalDirectory host packageDir workspaceDir w =
    (Throw (newError e), after w1 [ShowErrorMessage e]).
Proof. intros Hj Hs Hc Hne. planner_start. by rewrite Hj, Hs, Hc, Hne. Qed.

Lemma planner_probe_unreadable dir e e' :
  path_join host (joinArguments packageDir language name version) = Ok dir ->
  fs_stat host (fs w1) dir = Throw e ->
  getProp e "code" = Throw e' ->
  getFinalDirectory host packageDir workspaceDir w = (Throw e', w1).
Proof. intros Hj Hs Hc. planner_start. by rewrite Hj, Hs, Hc. Qed.

Lemma planner_exists dir :
  path_join host (joinArguments packageDir language name version) = Ok dir ->
  fs_stat host (fs w1) dir = Ok {| isDirectory := true |} ->
  getFinalDirectory host packageDir workspaceDir w =
    (Throw (newError (newError (VStr (existsMessage language)))),
     after w1 [ShowErrorMessage (VStr (existsMessage language));
               ShowErrorMessage (newError (VStr (existsMessage language)))]).
Proof.
  intros Hj Hs. planner_start. rewrite Hj, Hs. simpl.
  by rewrite <- app_assoc.
Qed.

Lemma planner_not_directory dir :
  path_join host (joinArguments packageDir language name version) = Ok dir ->
  fs_stat host (fs w1) dir = Ok {| isDirectory := false |} ->
  getFinalDirectory host packageDir workspaceDir w = (Ok VUndefined, w1).
Proof. intros Hj Hs. planner_start. by rewrite Hj, Hs. Qed.

(** When the planner answers with a path, it is the joined one. *)
Lemma planner_returns dir w' :
  getFinalDirectory host packageDir workspaceDir w = (Ok (VStr dir), w') ->
  path_join host (joinArguments packageDir language name version) = Ok dir.
Proof.
  planner_start.
  destruct (path_join host _) as [d|]; [|discriminate].
  destruct (fs_stat host (fs w1) d) as [[[]]|e]; simpl; try discriminate.
  destruct (getProp e "code") as [code|]; [|discriminate].
  destruct (strict_eq_str code "ENOENT"); [|discriminate].
  by intros [= -> _].
Qed.

End Planner.

(** ** Language Detector *)

(** [C1] The three scans exclude [node_modules]; from which of them find
    files, [getLanguage] answers by the specification's precedence:
    [.ts] with [.js] is TypeScript, [.ts] without [.js] fails with the
    uncompiled-sources error, else [.go] is Go, else [.js] is JavaScript,
    else there is no language and the caller fails with the
    language-detection error.  The first two rules apply whatever the
    [.go] scan finds. *)
Theorem language_detector_precedence {FS} (host : Host FS)
    (packageDir workspaceDir : value) (w : World FS)
    (jsFiles tsFiles goFiles : list string) :
  Glob host (fs w) "**/*.js"
    {| cwd := workspaceDir; ignore := "**/node_modules/**" |} = Ok jsFiles ->
  Glob host (fs w) "**/*.ts"
    {| cwd := workspaceDir; ignore := "**/node_modules/**" |} = Ok tsFiles ->
  Glob host (fs w) "**/*.go"
    {| cwd := workspaceDir; ignore := "**/node_modules/**" |} = Ok goFiles ->
  getLanguage host workspaceDir w =
    detection_outcome
      (classify (bool_decide (jsFiles ≠ [])) (bool_decide (tsFiles ≠ []))
                (bool_decide (goFiles ≠ []))) w
  /\ (jsFiles = [] -> tsFiles = [] -> goFiles = [] ->
      getFinalDirectory host packageDir workspaceDir w =
        (Throw (newError (VStr languageDetectionMessage)),
         after w [ShowErrorMessage (VStr languageDetectionMessage)]))
  /\ (jsFiles ≠ [] -> tsFiles ≠ [] ->
      getLanguage host workspaceDir w = (Ok (VStr "/typescript/"), w))
  /\ (jsFiles = [] -> tsFiles ≠ [] ->
      getLanguage host workspaceDir w =
        (Throw (newError (VStr uncompiledMessage)),
         after w [ShowErrorMessage (VStr uncompiledMessage)])).
Proof.
  intros Hjs Hts Hgo.
  pose proof (getLanguage_classify host _ _ _ _ _ Hjs Hts Hgo) as Hrun.
  split; [exact Hrun|]. split; [|split].
  - intros -> -> ->. unfold getFinalDirectory, bind. by rewrite Hrun.
  - intros Hj Ht. rewrite Hrun. destruct jsFiles, tsFiles; done.
  - intros -> Ht. rewrite Hrun. destruct tsFiles; done.
Qed.

(** A project with [.ts], [.js] and [.go] files is TypeScript; without the
    [.js] file it is rejected, not classified as Go. *)
Lemma language_detector_precedence_witness :
  Glob Samples.fooHost (fs Samples.mixedWorld) "**/*.js"
    (scan (VStr "/ws/contract")) = Ok ["chaincode.js"] /\
  Glob Samples.fooHost (fs Samples.mixedWorld) "**/*.ts"
    (scan (VStr "/ws/contract")) = Ok ["chaincode.ts"] /\
  Glob Samples.fooHost (fs Samples.mixedWorld) "**/*.go"
    (scan (VStr "/ws/contract")) = Ok ["chaincode.go"] /\
  getLanguage Samples.fooHost (VStr "/ws/contract") Samples.mixedWorld
    = (Ok (VStr "/typescript/"), Samples.mixedWorld).
Proof.
  do 3 (split; [reflexivity|]).
  refine (proj1 (proj2 (proj2
    (language_detector_precedence Samples.fooHost VUndefined
       (VStr "/ws/contract") Samples.mixedWorld ["chaincode.js"]
       ["chaincode.ts"] ["chaincode.go"] _ _ _))) _ _);
    (reflexivity || discriminate).
Defined.

(** The [.ts] file under [node_modules] does not count. *)
Example detect_javascript :
  getLanguage Samples.fooHost (VStr "/ws/contract") Samples.javascriptWorld
    = (Ok (VStr "/javascript/"), Samples.javascriptWorld).
Proof. reflexivity. Qed.

(** [.ts] and [.go] without [.js]: rejected, not classified as Go. *)
Example detect_uncompiled :
  getLanguage Samples.fooHost (VStr "/ws/contract") Samples.uncompiledWorld
    = (Throw (newError (VStr uncompiledMessage)),
       after Samples.uncompiledWorld
         [ShowErrorMessage (VStr uncompiledMessage)]).
Proof. reflexivity. Qed.

Example detect_go :
  getLanguage Samples.fooHost (VStr "/ws/contract") Samples.goWorld
    = (Ok (VStr "/go/src/"), Samples.goWorld).
Proof. reflexivity. Qed.

Example detect_nothing :
  getFinalDirectory Samples.fooHost (VStr "/pkgs") (VStr "/ws/contract")
    Samples.textWorld
    = (Throw (newError (VStr languageDetectionMessage)),
       after Samples.textWorld
         [ShowErrorMessage (VStr languageDetectionMessage)]).
Proof. reflexivity. Qed.

(** ** Destination Planner *)

Lemma append_assoc (s1 s2 s3 : string) :
  (s1 +:+ s2) +:+ s3 = s1 +:+ s2 +:+ s3.
Proof.
  induction s1 as [|c s1 IH]; [done|].
  change (String c ((s1 +:+ s2) +:+ s3) = String c (s1 +:+ s2 +:+ s3)).
  by f_equal.
Qed.

Lemma joinArguments_destinationPath (join : list value -> Result string)
    (packageDir : value) (language : DetectedLanguage) (name version : value) :
  join (joinArguments packageDir (languageSegment language) name version) =
  destinationPath join packageDir language (toString name) (toString version).
Proof. unfold joinArguments, destinationPath. by rewrite append_assoc. Qed.

(** [C2] With language [language] detected and name and version resolved,
    the path the planner computes is
    [join(packageDir, segment, name + "@v" + version)], with the segment
    of the language: it is the path probed and, when the probe finds
    nothing there, the path returned.  Whenever the planner returns a path
    it is this one, so two invocations that agree on the package root, the
    language, the name and the version return the same path, whatever else
    differs between them. *)
Theorem destination_path_formula {FS} (host : Host FS)
    (packageDir workspaceDir name version : value)
    (language : DetectedLanguage) (w w1 : World FS) :
  resolves host workspaceDir w (languageSegment language) name version w1 ->
  In (languageSegment language)
     [VStr "/javascript/"; VStr "/typescript/"; VStr "/go/src/"]
  /\ (forall dir e,
        destinationPath (path_join host) packageDir language
          (toString name) (toString version) = Ok dir ->
        fs_stat host (fs w1) dir = Throw e ->
        getProp e "code" = Ok (VStr "ENOENT") ->
        getFinalDirectory host packageDir workspaceDir w =
          (Ok (VStr dir), w1))
  /\ (forall dir w',
        getFinalDirectory host packageDir workspaceDir w =
          (Ok (VStr dir), w') ->
        destinationPath (path_join host) packageDir language
          (toString name) (toString version) = Ok dir)
  /\ (forall FS' (host' : Host FS') workspaceDir' (v v1 v' : World FS')
             dir dir' w',
        path_join host' = path_join host ->
        resolves host' workspaceDir' v (languageSegment language)
          name version v1 ->
        getFinalDirectory host packageDir workspaceDir w =
          (Ok (VStr dir), w') ->
        getFinalDirectory host' packageDir workspaceDir' v =
          (Ok (VStr dir'), v') ->
        dir = dir').
Proof.
  intros Hres.
  assert (Hret : forall FS' (host' : Host FS') workspaceDir' v v1 dir v',
    resolves host' workspaceDir' v (languageSegment language)
      name version v1 ->
    getFinalDirectory host' packageDir workspaceDir' v = (Ok (VStr dir), v') ->
    destinationPath (path_join host') packageDir language
      (toString name) (toString version) = Ok dir).
  { intros FS' host' ws' v v1 dir v' Hres' Hrun.
    rewrite <- joinArguments_destinationPath.
    exact (planner_returns host' _ _ _ _ _ _ _ Hres' _ _ Hrun). }
  split; [|split; [|split]].
  - destruct Hres as (w0 & properties & _ & Ht & _).
    destruct language; simpl in *; auto; discriminate.
  - intros dir e Hjoin Hstat Hcode.
    rewrite <- joinArguments_destinationPath in Hjoin.
    exact (planner_enoent host _ _ _ _ _ _ _ Hres _ _ Hjoin Hstat Hcode).
  - intros dir w' Hrun. exact (Hret _ _ _ _ _ _ _ Hres Hrun).
  - intros FS' host' ws' v v1 v' dir dir' w' Hjoin Hres' Hrun Hrun'.
    pose proof (Hret _ _ _ _ _ _ _ Hres Hrun) as H1.
    pose proof (Hret _ _ _ _ _ _ _ Hres' Hrun') as H2.
    rewrite Hjoin in H2. congruence.
Qed.

(** The example of the specification: [foo], [1.2.3], packaged
    under [/pkgs]. *)
Lemma destination_path_formula_witness :
  resolves Samples.fooHost (VStr "/ws/contract") Samples.javascriptWorld
    (languageSegment JavaScript) (VStr "foo") (VStr "1.2.3")
    Samples.javascriptWorld /\
  getFinalDirectory Samples.fooHost (VStr "/pkgs") (VStr "/ws/contract")
    Samples.javascriptWorld =
    (Ok (VStr "/pkgs/javascript/foo@v1.2.3"), Samples.javascriptWorld).
Proof.
  assert (Hres : resolves Samples.fooHost (VStr "/ws/contract")
            Samples.javascriptWorld (languageSegment JavaScript)
            (VStr "foo") (VStr "1.2.3") Samples.javascriptWorld).
  { eexists _, _. repeat split; reflexivity. }
  split; [exact Hres|].
  refine (proj1 (proj2
    (destination_path_formula Samples.fooHost (VStr "/pkgs")
       (VStr "/ws/contract") (VStr "foo") (VStr "1.2.3") JavaScript
       Samples.javascriptWorld Samples.javascriptWorld Hres))
    "/pkgs/javascript/foo@v1.2.3"
    (MemHost.fs_error "ENOENT" "no such file or directory, stat"
       "/pkgs/javascript/foo@v1.2.3") _ _ _); reflexivity.
Defined.

(** [C7] The probe of the computed path decides the planner's answer.  A
    directory there: the collision error, with the Go message for Go and
    the manifest message otherwise, shown and thrown.  Nothing there (the
    probe fails with code [ENOENT]): the path is returned.  Any other
    probe failure is shown and thrown, wrapped in an [Error]; one whose
    code cannot be read makes the planner throw what reading it throws.
    In no case is the file system changed. *)
Theorem destination_probe_outcomes {FS} (host : Host FS)
    (packageDir workspaceDir language name version : value)
    (w w1 : World FS) (dir : string) :
  resolves host workspaceDir w language name version w1 ->
  path_join host (joinArguments packageDir language name version) = Ok dir ->
  (fs_stat host (fs w1) dir = Ok {| isDirectory := true |} ->
   let message :=
     if strict_eq_str language "/go/src/" then goExistsMessage
     else manifestExistsMessage in
   getFinalDirectory host packageDir workspaceDir w =
     (Throw (newError (newError (VStr message))),
      after w1 [ShowErrorMessage (VStr message);
                ShowErrorMessage (newError (VStr message))]))
  /\ (forall e,
        fs_stat host (fs w1) dir = Throw e ->
        getProp e "code" = Ok (VStr "ENOENT") ->
        getFinalDirectory host packageDir workspaceDir w =
          (Ok (VStr dir), w1))
  /\ (forall e code,
        fs_stat host (fs w1) dir = Throw e ->
        getProp e "code" = Ok code ->
        strict_eq_str code "ENOENT" = false ->
        getFinalDirectory host packageDir workspaceDir w =
          (Throw (newError e), after w1 [ShowErrorMessage e]))
  /\ (forall e e',
        fs_stat host (fs w1) dir = Throw e ->
        getProp e "code" = Throw e' ->
        getFinalDirectory host packageDir workspaceDir w = (Throw e', w1))
  /\ (forall r w',
        getFinalDirectory host packageDir workspaceDir w = (r, w') ->
        fs w' = fs w /\
        exists evs, events w' = events w ++ evs /\
                    forallb (fun ev => negb (is_mutation ev)) evs = true).
Proof.
  intros Hres Hjoin. split; [|split; [|split; [|split]]].
  - intros Hstat message.
    exact (planner_exists host _ _ _ _ _ _ _ Hres _ Hjoin Hstat).
  - intros e Hstat Hcode.
    exact (planner_enoent host _ _ _ _ _ _ _ Hres _ _ Hjoin Hstat Hcode).
  - intros e code Hstat Hcode Hne.
    exact (planner_probe_fails host _ _ _ _ _ _ _ Hres _ _ _
             Hjoin Hstat Hcode Hne).
  - intros e e' Hstat Hcode.
    exact (planner_probe_unreadable host _ _ _ _ _ _ _ Hres _ _ _
             Hjoin Hstat Hcode).
  - intros r w'. apply getFinalDirectory_read_only.
Qed.

(** Packaging the same project a second time. *)
Lemma destination_probe_outcomes_witness :
  resolves Samples.fooHost (VStr "/ws/contract") Samples.packagedWorld
    (VStr "/javascript/") (VStr "foo") (VStr "1.2.3") Samples.packagedWorld /\
  path_join Samples.fooHost
    (joinArguments (VStr "/pkgs") (VStr "/javascript/") (VStr "foo")
       (VStr "1.2.3")) = Ok "/pkgs/javascript/foo@v1.2.3" /\
  fs_stat Samples.fooHost (fs Samples.packagedWorld)
    "/pkgs/javascript/foo@v1.2.3" = Ok {| isDirectory := true |} /\
  getFinalDirectory Samples.fooHost (VStr "/pkgs") (VStr "/ws/contract")
    Samples.packagedWorld =
    (Throw (newError (newError (VStr manifestExistsMessage))),
     after Samples.packagedWorld
       [ShowErrorMessage (VStr manifestExistsMessage);
        ShowErrorMessage (newError (VStr manifestExistsMessage))]).
Proof.
  assert (Hres : resolves Samples.fooHost (VStr "/ws/contract")
            Samples.packagedWorld (VStr "/javascript/")
            (VStr "foo") (VStr "1.2.3") Samples.packagedWorld).
  { eexists _, _. repeat split; reflexivity. }
  split; [exact Hres|]. do 2 (split; [reflexivity|]).
  exact (proj1
    (destination_probe_outcomes Samples.fooHost (VStr "/pkgs")
       (VStr "/ws/contract") (VStr "/javascript/") (VStr "foo")
       (VStr "1.2.3") Samples.packagedWorld Samples.packagedWorld
       "/pkgs/javascript/foo@v1.2.3" Hres eq_refl) eq_refl).
Defined.

(** [C9] The collision check looks for a directory only.  When the probe
    succeeds on something that is not a directory, the planner shows and
    throws nothing and returns [undefined], and the create-and-copy stage
    is run with [undefined] as its destination: its first call is
    [mkdirp(undefined)]. *)
Theorem collision_check_directory_only {FS} (host : Host FS)
    (packageDir workspaceDir language name version : value)
    (v w w1 : World FS) (dir : string) :
  chooseWorkspace host v = (Ok workspaceDir, w) ->
  resolves host workspaceDir w language name version w1 ->
  path_join host (joinArguments packageDir language name version) = Ok dir ->
  fs_stat host (fs w1) dir = Ok {| isDirectory := false |} ->
  getFinalDirectory host packageDir workspaceDir w = (Ok VUndefined, w1)
  /\ createPackageDir host packageDir v =
       createAndPackage host VUndefined workspaceDir w1
  /\ exists r w' evs,
       createPackageDir host packageDir v = (r, w') /\
       events w' = events w1 ++ Mkdirp VUndefined :: evs.
Proof.
  intros Hws Hres Hjoin Hstat.
  pose proof (planner_not_directory host _ _ _ _ _ _ _ Hres _ Hjoin Hstat)
    as Hplan.
  assert (Hrun : createPackageDir host packageDir v =
                 createAndPackage host VUndefined workspaceDir w1).
  { unfold createPackageDir, bind. by rewrite Hws, Hplan. }
  split; [exact Hplan|]. split; [exact Hrun|].
  rewrite Hrun. unfold createAndPackage. unfold_cmd.
  destruct (fs_mkdirp host (fs w1) VUndefined) as [[[]|e] fs1]; simpl.
  - destruct (fs_copy host fs1 workspaceDir VUndefined) as [[[]|e] fs2];
      simpl; eexists _, _, _; (split; [reflexivity|]); simpl;
      rewrite <- ?app_assoc; reflexivity.
  - eexists _, _, _. split; [reflexivity|]. simpl.
    rewrite <- ?app_assoc. reflexivity.
Qed.

(** A regular file sits where the package would go. *)
Lemma collision_check_directory_only_witness :
  chooseWorkspace Samples.fooHost Samples.blockedWorld =
    (Ok (VStr "/ws/contract"),
     after Samples.blockedWorld [Log gettingFoldersMessage]) /\
  resolves Samples.fooHost (VStr "/ws/contract")
    (after Samples.blockedWorld [Log gettingFoldersMessage])
    (VStr "/javascript/") (VStr "foo") (VStr "1.2.3")
    (after Samples.blockedWorld [Log gettingFoldersMessage]) /\
  fs_stat Samples.fooHost (fs Samples.blockedWorld)
    "/pkgs/javascript/foo@v1.2.3" = Ok {| isDirectory := false |} /\
  getFinalDirectory Samples.fooHost (VStr "/pkgs") (VStr "/ws/contract")
    (after Samples.blockedWorld [Log gettingFoldersMessage]) =
    (Ok VUndefined, after Samples.blockedWorld [Log gettingFoldersMessage]).
Proof.
  assert (Hres : resolves Samples.fooHost (VStr "/ws/contract")
            (after Samples.blockedWorld [Log gettingFoldersMessage])
            (VStr "/javascript/") (VStr "foo") (VStr "1.2.3")
            (after Samples.blockedWorld [Log gettingFoldersMessage])).
  { eexists _, _. repeat split; reflexivity. }
  split; [reflexivity|]. split; [exact Hres|]. split; [reflexivity|].
  exact (proj1
    (collision_check_directory_only Samples.fooHost (VStr "/pkgs")
       (VStr "/ws/contract") (VStr "/javascript/") (VStr "foo")
       (VStr "1.2.3") Samples.blockedWorld
       (after Samples.blockedWorld [Log gettingFoldersMessage])
       (after Samples.blockedWorld [Log gettingFoldersMessage])
       "/pkgs/javascript/foo@v1.2.3" eq_refl Hres eq_refl eq_refl)).
Defined.

(** ** Workspace Selector and Metadata Resolver *)

Section Selector.

Context {FS : Type} (host : Host FS).

(** When the selector returns, all it did was log its first line. *)
Lemma chooseWorkspace_ok workspaceDir (w w' : World FS) :
  chooseWorkspace host w = (Ok workspaceDir, w') ->
  w' = after w [Log gettingFoldersMessage].
Proof.
  unfold chooseWorkspace. unfold_cmd. cbn beta iota.
  destruct (getWorkspaceFolders host) as [options|]; [|discriminate].
  cbn beta iota.
  destruct (bool_decide (1 < length options)).
  - destruct (showGolangQuickPickBox host _) as [picked|]; [|discriminate].
    destruct (negb (includes options picked)); [by intros [= _ <-]|].
    destruct (workspaceFolders host) as [folders|]; [|discriminate].
    destruct (find _ folders); by intros [= _ <-].
  - destruct (negb (includes options (array_get options 0)));
      [by intros [= _ <-]|].
    destruct (workspaceFolders host) as [folders|]; [|discriminate].
    destruct (find _ folders); by intros [= _ <-].
Qed.

Lemma chooseWorkspace_retrieval_fails e (w : World FS) :
  getWorkspaceFolders host = Throw e ->
  chooseWorkspace host w =
    (Throw (newError (VStr workspaceDiscoveryMessage)),
     after w [Log gettingFoldersMessage;
              ShowErrorMessage (VStr workspaceDiscoveryMessage)]).
Proof.
  intros He. unfold chooseWorkspace. unfold_cmd. cbn beta iota.
  rewrite He. cbn. by rewrite <- app_assoc.
Qed.

Lemma chooseWorkspace_empty (w : World FS) :
  getWorkspaceFolders host = Ok [] ->
  chooseWorkspace host w = (Ok VUndefined, after w [Log gettingFoldersMessage]).
Proof.
  intros He. unfold chooseWorkspace. unfold_cmd. cbn beta iota.
  by rewrite He.
Qed.

(** Once the folder list is retrieved, the selector shows nothing,
    whatever the list holds and however the selector ends. *)
Lemma chooseWorkspace_retrieved options (w : World FS) :
  getWorkspaceFolders host = Ok options ->
  (chooseWorkspace host w).2 = after w [Log gettingFoldersMessage].
Proof.
  intros He. unfold chooseWorkspace. unfold_cmd. cbn beta iota.
  rewrite He. cbn beta iota.
  destruct (bool_decide (1 < length options)).
  - destruct (showGolangQuickPickBox host _) as [picked|]; [|reflexivity].
    destruct (negb (includes options picked)); [reflexivity|].
    destruct (workspaceFolders host) as [folders|]; [|reflexivity].
    by destruct (find _ folders).
  - destruct (negb (includes options (array_get options 0)));
      [reflexivity|].
    destruct (workspaceFolders host) as [folders|]; [|reflexivity].
    by destruct (find _ folders).
Qed.

(** [getBasePackageDir] touches nothing. *)
Lemma getBasePackageDir_world packageDir r (w w' : World FS) :
  getBasePackageDir host packageDir w = (r, w') -> w' = w.
Proof.
  unfold getBasePackageDir. unfold_cmd.
  destruct packageDir as [| | | |s| | |]; try by intros [= _ <-].
  destruct (String.prefix "~" s); [|by intros [= _ <-]].
  destruct (homeDir host _); by intros [= _ <-].
Qed.

(** The manifest variant rejects a falsy name or version. *)
Lemma packageJsonNameAndVersion_rejects workspaceDir manifestPath contents
    manifestObj name version (w : World FS) :
  path_join host [workspaceDir; VStr "/package.json"] = Ok manifestPath ->
  fs_readFile host (fs w) manifestPath = Ok contents ->
  JSON_parse host contents = Ok manifestObj ->
  getProp manifestObj "name" = Ok name ->
  getProp manifestObj "version" = Ok version ->
  truthy name && truthy version = false ->
  packageJsonNameAndVersion host workspaceDir w =
    (Throw (newError (VStr manifestMessage)),
     after w [ShowErrorMessage (VStr manifestMessage)]).
Proof.
  intros Hj Hr Hp Hn Hv Hfalsy.
  unfold packageJsonNameAndVersion. unfold_cmd.
  rewrite Hj, Hr, Hp, Hn, Hv.
  destruct (truthy name), (truthy version); done.
Qed.

End Selector.

(** [C6] A JavaScript or TypeScript project whose manifest has no, or an
    empty, [name] or [version]: the pipeline shows and throws the
    missing-field error right after the selector's log line, with the file
    system untouched and no [mkdirp] or [copy] call made; the command then
    shows the error and does not refresh the package explorer. *)
Theorem missing_manifest_field {FS} (host : Host FS)
    (packageDir workspaceDir language : value) (w w0 w1 : World FS)
    (manifestPath contents : string) (props : list (string * value)) :
  chooseWorkspace host w = (Ok workspaceDir, w0) ->
  getLanguage host workspaceDir w0 = (Ok language, w1) ->
  language = VStr "/javascript/" \/ language = VStr "/typescript/" ->
  path_join host [workspaceDir; VStr "/package.json"] = Ok manifestPath ->
  fs_readFile host (fs w) manifestPath = Ok contents ->
  JSON_parse host contents = Ok (VObj props) ->
  assoc "name" props = None \/ assoc "name" props = Some (VStr "") \/
  assoc "version" props = None \/ assoc "version" props = Some (VStr "") ->
  createPackageDir host packageDir w =
    (Throw (newError (VStr manifestMessage)),
     {| fs := fs w;
        events := events w ++ [Log gettingFoldersMessage;
                               ShowErrorMessage (VStr manifestMessage)] |})
  /\ (getBasePackageDir host
        (getConfiguration host "fabric.package.directory") w
        = (Ok packageDir, w) ->
      packageSmartContract host w =
        (Ok tt,
         {| fs := fs w;
            events := events w ++
              [Log gettingFoldersMessage;
               ShowErrorMessage (VStr manifestMessage);
               ShowErrorMessage (newError (VStr manifestMessage))] |})).
Proof.
  intros Hws Hlang Hjsts Hjoin Hread Hparse Hmissing.
  pose proof (chooseWorkspace_ok host _ _ _ Hws) as ->.
  destruct (getLanguage_ok host _ _ _ _ Hlang) as [-> _].
  assert (Hmeta :
    packageJsonNameAndVersion host workspaceDir
      (after w [Log gettingFoldersMessage]) =
    (Throw (newError (VStr manifestMessage)),
     after (after w [Log gettingFoldersMessage])
       [ShowErrorMessage (VStr manifestMessage)])).
  { eapply packageJsonNameAndVersion_rejects; eauto; try reflexivity.
    simpl. destruct Hmissing as [-> | [-> | [-> | ->]]]; simpl;
      rewrite ?andb_false_r; reflexivity. }
  assert (Hrun :
    createPackageDir host packageDir w =
    (Throw (newError (VStr manifestMessage)),
     {| fs := fs w;
        events := events w ++ [Log gettingFoldersMessage;
                               ShowErrorMessage (VStr manifestMessage)] |})).
  { unfold createPackageDir, getFinalDirectory, bind at 1 2 3.
    rewrite Hws. unfold bind at 1. rewrite Hlang.
    assert (Hgo : strict_eq_str language "/go/src/" = false)
      by (destruct Hjsts as [-> | ->]; reflexivity).
    assert (Ht : truthy language = true)
      by (destruct Hjsts as [-> | ->]; reflexivity).
    rewrite Ht, Hgo. cbn [negb]. cbn beta iota. unfold bind at 1.
    rewrite Hmeta. rewrite after_after. reflexivity. }
  split; [exact Hrun|].
  intros Hbase. unfold packageSmartContract, try_catch, bind at 1.
  rewrite Hbase. unfold bind at 1. rewrite Hrun.
  unfold showErrorMessage, emit. simpl. by rewrite <- app_assoc.
Qed.

(** The manifest [{name: "", version: "0.0.1"}]. *)
Lemma missing_manifest_field_witness :
  chooseWorkspace Samples.namelessHost Samples.javascriptWorld =
    (Ok (VStr "/ws/contract"),
     after Samples.javascriptWorld [Log gettingFoldersMessage]) /\
  getLanguage Samples.namelessHost (VStr "/ws/contract")
    (after Samples.javascriptWorld [Log gettingFoldersMessage]) =
    (Ok (VStr "/javascript/"),
     after Samples.javascriptWorld [Log gettingFoldersMessage]) /\
  path_join Samples.namelessHost [VStr "/ws/contract"; VStr "/package.json"]
    = Ok "/ws/contract/package.json" /\
  fs_readFile Samples.namelessHost (fs Samples.javascriptWorld)
    "/ws/contract/package.json" = Ok "foo 1.2.3" /\
  JSON_parse Samples.namelessHost "foo 1.2.3" =
    Ok (VObj [("name", VStr ""); ("version", VStr "0.0.1");
              ("description", VStr "My Smart Contract")]) /\
  createPackageDir Samples.namelessHost (VStr "/pkgs") Samples.javascriptWorld
    = (Throw (newError (VStr manifestMessage)),
       {| fs := fs Samples.javascriptWorld;
          events := [Log gettingFoldersMessage;
                     ShowErrorMessage (VStr manifestMessage)] |}).
Proof.
  do 5 (split; [reflexivity|]).
  exact (proj1
    (missing_manifest_field Samples.namelessHost (VStr "/pkgs")
       (VStr "/ws/contract") (VStr "/javascript/") Samples.javascriptWorld
       (after Samples.javascriptWorld [Log gettingFoldersMessage])
       (after Samples.javascriptWorld [Log gettingFoldersMessage])
       "/ws/contract/package.json" "foo 1.2.3"
       [("name", VStr ""); ("version", VStr "0.0.1");
        ("description", VStr "My Smart Contract")]
       eq_refl eq_refl (or_introl eq_refl) eq_refl eq_refl eq_refl
       (or_intror (or_introl eq_refl)))).
Defined.

(** No folder is open: the command ends with the error of the scan that
    follows the selector, run without a directory. *)
Example no_folder_open :
  packageSmartContract Samples.noFolderHost Samples.javascriptWorld =
    (Ok tt,
     after Samples.javascriptWorld
       [Log gettingFoldersMessage;
        ShowErrorMessage
          (TypeError "Path must be a string. Received undefined")]).
Proof. reflexivity. Qed.

(** [C5] An empty set of open folders is not rejected.  When the folder
    list is retrieved and empty, the selector shows and throws nothing:
    it returns [undefined] through the branch written for a cancelled
    pick, and the pipeline runs the planner without a workspace
    directory.  The selector has no check of its own on the list:
    whenever the retrieval returns, whatever it returns, the selector
    shows nothing.  The workspace-discovery error is shown and thrown
    when the retrieval fails; the pipeline stops there and the command
    shows the error, with the file system untouched. *)
Theorem empty_workspace_set_not_rejected {FS} (host : Host FS)
    (packageDir : value) (w : World FS) :
  (getWorkspaceFolders host = Ok [] ->
   chooseWorkspace host w =
     (Ok VUndefined, after w [Log gettingFoldersMessage])
   /\ createPackageDir host packageDir w =
        bind (getFinalDirectory host packageDir VUndefined)
             (fun dir => createAndPackage host dir VUndefined)
             (after w [Log gettingFoldersMessage]))
  /\ (forall options,
        getWorkspaceFolders host = Ok options ->
        (chooseWorkspace host w).2 = after w [Log gettingFoldersMessage])
  /\ (forall e,
        getWorkspaceFolders host = Throw e ->
        chooseWorkspace host w =
          (Throw (newError (VStr workspaceDiscoveryMessage)),
           after w [Log gettingFoldersMessage;
                    ShowErrorMessage (VStr workspaceDiscoveryMessage)])
        /\ createPackageDir host packageDir w =
             (Throw (newError (VStr workspaceDiscoveryMessage)),
              after w [Log gettingFoldersMessage;
                       ShowErrorMessage (VStr workspaceDiscoveryMessage)])
        /\ (getBasePackageDir host
              (getConfiguration host "fabric.package.directory") w
              = (Ok packageDir, w) ->
            packageSmartContract host w =
              (Ok tt,
               after w
                 [Log gettingFoldersMessage;
                  ShowErrorMessage (VStr workspaceDiscoveryMessage);
                  ShowErrorMessage
                    (newError (VStr workspaceDiscoveryMessage))]))).
Proof.
  split; [|split].
  - intros He. pose proof (chooseWorkspace_empty host w He) as Hsel.
    split; [exact Hsel|].
    unfold createPackageDir. unfold bind at 1. by rewrite Hsel.
  - intros options Hopts. exact (chooseWorkspace_retrieved host options w Hopts).
  - intros e He.
    pose proof (chooseWorkspace_retrieval_fails host e w He) as Hsel.
    assert (Hrun : createPackageDir host packageDir w =
      (Throw (newError (VStr workspaceDiscoveryMessage)),
       after w [Log gettingFoldersMessage;
                ShowErrorMessage (VStr workspaceDiscoveryMessage)])).
    { unfold createPackageDir, bind at 1. by rewrite Hsel. }
    split; [exact Hsel|]. split; [exact Hrun|].
    intros Hbase. unfold packageSmartContract, try_catch, bind at 1.
    rewrite Hbase. unfold bind at 1. rewrite Hrun.
    unfold showErrorMessage, emit, after. simpl. by rewrite <- app_assoc.
Qed.

(** No folder is open, and the folders cannot be listed. *)
Lemma empty_workspace_set_not_rejected_witness :
  getWorkspaceFolders Samples.noFolderHost = Ok [] /\
  chooseWorkspace Samples.noFolderHost Samples.javascriptWorld =
    (Ok VUndefined,
     after Samples.javascriptWorld [Log gettingFoldersMessage]) /\
  (chooseWorkspace Samples.noFolderHost Samples.javascriptWorld).2 =
    after Samples.javascriptWorld [Log gettingFoldersMessage] /\
  getWorkspaceFolders Samples.brokenFoldersHost =
    Throw (TypeError "workspace is not iterable") /\
  packageSmartContract Samples.brokenFoldersHost Samples.javascriptWorld =
    (Ok tt,
     after Samples.javascriptWorld
       [Log gettingFoldersMessage;
        ShowErrorMessage (VStr workspaceDiscoveryMessage);
        ShowErrorMessage (newError (VStr workspaceDiscoveryMessage))]).
Proof.
  split; [reflexivity|].
  split;
    [exact (proj1
       (proj1 (empty_workspace_set_not_rejected Samples.noFolderHost
                 (VStr "/pkgs") Samples.javascriptWorld) eq_refl))|].
  split;
    [exact (proj1 (proj2
       (empty_workspace_set_not_rejected Samples.noFolderHost
          (VStr "/pkgs") Samples.javascriptWorld)) [] eq_refl)|].
  split; [reflexivity|].
  exact (proj2 (proj2
    (proj2 (proj2
       (empty_workspace_set_not_rejected Samples.brokenFoldersHost
          (VStr "/pkgs") Samples.javascriptWorld))
       (TypeError "workspace is not iterable") eq_refl)) eq_refl).
Defined.

(** ** Materializer *)

(** *** What [mkdirp] and [copy] do on the reference file system *)

Section MemHostFacts.

Import MemHost.

Lemma lookup_write p q n (t : memfs) :
  lookup_path p (write q n t) =
  if bool_decide (q = p) then Some n else lookup_path p t.
Proof.
  induction t as [|[r m] t IH]; simpl; [done|].
  destruct (bool_decide_reflect (r = q)) as [->|Hrq]; simpl.
  - by destruct (bool_decide_reflect (q = p)).
  - rewrite IH.
    destruct (bool_decide_reflect (r = p)) as [->|Hrp]; [|done].
    destruct (bool_decide_reflect (q = p)) as [->|Hqp]; done.
Qed.

Lemma strip_app root rel : strip root (root ++ rel) = Some rel.
Proof.
  induction root as [|s root IH]; simpl; [done|].
  by rewrite String.eqb_refl.
Qed.

Lemma strip_Some root p rel : strip root p = Some rel -> p = root ++ rel.
Proof.
  revert p. induction root as [|s root IH]; intros [|s' p]; simpl;
    try congruence.
  destruct (String.eqb_spec s s') as [->|]; [|done].
  intros Hs. by rewrite (IH _ Hs).
Qed.

(** [mkdirs] never replaces an entry. *)
Lemma mkdirs_preserves todo : forall done t r t' p n,
  mkdirs done todo t = (r, t') ->
  lookup_path p t = Some n -> lookup_path p t' = Some n.
Proof.
  induction todo as [|seg todo IH]; intros done t r t' p n; simpl.
  - by intros [= _ <-].
  - destruct (lookup_path (done ++ [seg]) t) as [[|content]|] eqn:Ehere.
    + apply IH.
    + by intros [= _ <-].
    + intros Hrun Hp. eapply IH; [exact Hrun|].
      rewrite lookup_write.
      destruct (bool_decide_reflect (done ++ [seg] = p)) as [<-|]; [|done].
      congruence.
Qed.

(** After [mkdirs], every directory of the chain exists. *)
Lemma mkdirs_chain todo : forall done t t' k,
  mkdirs done todo t = (Ok tt, t') ->
  0 < k <= length todo ->
  lookup_path (done ++ take k todo) t' = Some Dir.
Proof.
  induction todo as [|seg todo IH]; intros done t t' k; simpl; [lia|].
  intros Hrun Hk.
  assert (Hnext : exists t0,
    mkdirs (done ++ [seg]) todo t0 = (Ok tt, t') /\
    lookup_path (done ++ [seg]) t0 = Some Dir).
  { destruct (lookup_path (done ++ [seg]) t) as [[|content]|] eqn:Ehere.
    - by exists t.
    - discriminate.
    - exists (write (done ++ [seg]) Dir t). split; [done|].
      rewrite lookup_write. by rewrite bool_decide_eq_true_2. }
  destruct Hnext as (t0 & Hrun0 & Hhere).
  destruct k as [|k]; [lia|]. simpl.
  destruct k as [|k].
  - rewrite take_0. eapply mkdirs_preserves; eauto.
  - rewrite (cons_middle seg), app_assoc.
    eapply IH; [exact Hrun0|]. lia.
Qed.

(** The entry at [src ++ rel] lands at [dest ++ rel]. *)
Lemma copy_fold_lookup src dest (l acc : memfs) rel n :
  lookup_path (src ++ rel) l = Some n ->
  lookup_path (dest ++ rel) (foldr (copy_entry src dest) acc l) = Some n.
Proof.
  induction l as [|[p m] l IH]; unfold copy_entry in *; simpl; [done|].
  destruct (bool_decide_reflect (p = src ++ rel)) as [->|Hne].
  - intros [= ->]. rewrite strip_app, lookup_write.
    by rewrite bool_decide_eq_true_2.
  - intros Hl. destruct (strip src p) as [rel0|] eqn:Estrip; [|by apply IH].
    rewrite lookup_write.
    destruct (bool_decide_reflect (dest ++ rel0 = dest ++ rel)) as [Heq|];
      [|by apply IH].
    apply app_inv_head in Heq as ->.
    by apply strip_Some in Estrip.
Qed.

(** Nothing is written outside [dest]. *)
Lemma copy_fold_other src dest (l acc : memfs) q :
  (forall rel, q <> dest ++ rel) ->
  lookup_path q (foldr (copy_entry src dest) acc l) = lookup_path q acc.
Proof.
  intros Hq.
  induction l as [|[p m] l IH]; unfold copy_entry in *; simpl; [done|].
  destruct (strip src p) as [rel0|]; [|done].
  rewrite lookup_write.
  destruct (bool_decide_reflect (dest ++ rel0 = q)) as [<-|]; [|done].
  by destruct (Hq rel0).
Qed.

Lemma copy_tree_lookup src dest (t : memfs) rel n :
  lookup_path (src ++ rel) t = Some n ->
  lookup_path (dest ++ rel) (copy_tree src dest t) = Some n.
Proof. apply copy_fold_lookup. Qed.

Lemma copy_tree_other src dest (t : memfs) q :
  (forall rel, q <> dest ++ rel) ->
  lookup_path q (copy_tree src dest t) = lookup_path q t.
Proof. apply copy_fold_other. Qed.

(** On the reference file system, [mkdirp(dir)] followed by
    [copy(workspaceDir, dir)] leaves every directory on the way to [dir]
    in place, and every entry of the workspace tree at the same relative
    path under [dir]. *)
Lemma memfs_materialize (t t1 t2 : memfs) (dir workspaceDir : string) :
  mkdirp t (VStr dir) = (Ok tt, t1) ->
  copy t1 (VStr workspaceDir) (VStr dir) = (Ok tt, t2) ->
  (forall k, 0 < k <= length (resolve dir) ->
             lookup_path (take k (resolve dir)) t2 = Some Dir)
  /\ (forall rel n,
        lookup_path (resolve workspaceDir ++ rel) t = Some n ->
        lookup_path (resolve dir ++ rel) t2 = Some n).
Proof.
  unfold mkdirp, copy. intros Hmk Hcp.
  pose proof (fun k => mkdirs_chain _ [] _ _ k Hmk) as Hchain.
  simpl in Hchain.
  assert (Hsrc : lookup_path (resolve workspaceDir) t1 = Some Dir /\
                 t2 = copy_tree (resolve workspaceDir) (resolve dir) t1).
  { destruct (resolve workspaceDir) as [|s0 src] eqn:Esrc.
    - simpl in Hcp. by destruct (resolve dir).
    - destruct (lookup_path (s0 :: src) t1) as [[|content]|];
        [|exfalso|discriminate].
      + destruct (strip (s0 :: src) (resolve dir)) as [[|]|];
          try discriminate.
        by injection Hcp as <-.
      + destruct (resolve dir) as [|d0 dest] eqn:Edest; [discriminate|].
        rewrite <- (take_ge (d0 :: dest) (length (d0 :: dest))) in Hcp
          by done.
        rewrite Hchain in Hcp by (simpl; lia). discriminate. }
  destruct Hsrc as [Hsrc ->]. split.
  - intros k Hk. destruct (decide (k = length (resolve dir))) as [->|Hlt].
    + rewrite take_ge by done.
      rewrite <- (app_nil_r (resolve dir)) at 1.
      apply copy_tree_lookup. by rewrite app_nil_r.
    + rewrite copy_tree_other; [apply Hchain; lia|].
      intros rel Heq. apply (f_equal length) in Heq.
      rewrite length_take, length_app in Heq. lia.
  - intros rel n Hl. apply copy_tree_lookup.
    eapply mkdirs_preserves; eauto.
Qed.

End MemHostFacts.

(** [C8] Given a destination and a workspace root, the Materializer calls
    [mkdirp] on the destination, which creates the whole chain, then
    [copy] from the workspace root to the destination, with no filter, so
    that the whole tree is copied, then shows
    ["Smart Contract packaged: "] followed by the destination.  When the
    pipeline got there from the command, the command then fires the
    refresh of the package explorer. *)
Theorem materializer_packages {FS} (host : Host FS)
    (dir workspaceDir : string) (w : World FS) (fs1 fs2 : FS) :
  fs_mkdirp host (fs w) (VStr dir) = (Ok tt, fs1) ->
  fs_copy host fs1 (VStr workspaceDir) (VStr dir) = (Ok tt, fs2) ->
  createAndPackage host (VStr dir) (VStr workspaceDir) w =
    (Ok VUndefined,
     {| fs := fs2;
        events := events w ++
          [Mkdirp (VStr dir);
           Copy (VStr workspaceDir) (VStr dir);
           ShowInformationMessage
             (VStr ("Smart Contract packaged: " +:+ dir))] |})
  /\ (forall (v w0 : World FS) (packageDir : value),
        getBasePackageDir host
          (getConfiguration host "fabric.package.directory") v
          = (Ok packageDir, v) ->
        chooseWorkspace host v = (Ok (VStr workspaceDir), w0) ->
        getFinalDirectory host packageDir (VStr workspaceDir) w0
          = (Ok (VStr dir), w) ->
        packageSmartContract host v =
          (Ok tt,
           {| fs := fs2;
              events := events w ++
                [Mkdirp (VStr dir);
                 Copy (VStr workspaceDir) (VStr dir);
                 ShowInformationMessage
                   (VStr ("Smart Contract packaged: " +:+ dir));
                 ExecuteCommand refreshEntry]
                ++ match executeCommand host refreshEntry with
                   | Ok _ => []
                   | Throw e => [ShowErrorMessage e]
                   end |})).
Proof.
  intros Hmk Hcp.
  assert (Hrun : createAndPackage host (VStr dir) (VStr workspaceDir) w =
    (Ok VUndefined,
     {| fs := fs2;
        events := events w ++
          [Mkdirp (VStr dir);
           Copy (VStr workspaceDir) (VStr dir);
           ShowInformationMessage
             (VStr ("Smart Contract packaged: " +:+ dir))] |})).
  { unfold createAndPackage. unfold_cmd. rewrite Hmk. simpl.
    rewrite Hcp. simpl. by rewrite <- !app_assoc. }
  split; [exact Hrun|].
  intros v w0 packageDir Hbase Hws Hplan.
  unfold packageSmartContract, try_catch, bind at 1. rewrite Hbase.
  unfold createPackageDir, bind at 1 2 3. rewrite Hws.
  unfold bind at 1. rewrite Hplan, Hrun.
  unfold showErrorMessage. unfold bind, emit, await. simpl.
  destruct (executeCommand host refreshEntry) as [[]|e]; simpl;
    rewrite <- ?app_assoc; reflexivity.
Qed.

(** Packaging [foo] 1.2.3: the chain [/pkgs/javascript/foo@v1.2.3] is
    created and every entry of [/ws/contract] is copied, the
    [node_modules] directory included. *)
Lemma materializer_packages_witness :
  fs_mkdirp Samples.fooHost (fs Samples.javascriptWorld)
    (VStr "/pkgs/javascript/foo@v1.2.3") = (Ok tt, Samples.chainTree) /\
  fs_copy Samples.fooHost Samples.chainTree (VStr "/ws/contract")
    (VStr "/pkgs/javascript/foo@v1.2.3") = (Ok tt, Samples.packagedTree) /\
  createAndPackage Samples.fooHost (VStr "/pkgs/javascript/foo@v1.2.3")
    (VStr "/ws/contract") Samples.javascriptWorld =
    (Ok VUndefined,
     {| fs := Samples.packagedTree;
        events :=
          [Mkdirp (VStr "/pkgs/javascript/foo@v1.2.3");
           Copy (VStr "/ws/contract") (VStr "/pkgs/javascript/foo@v1.2.3");
           ShowInformationMessage
             (VStr "Smart Contract packaged: /pkgs/javascript/foo@v1.2.3")]
     |}).
Proof.
  do 2 (split; [reflexivity|]).
  exact (proj1
    (materializer_packages Samples.fooHost "/pkgs/javascript/foo@v1.2.3"
       "/ws/contract" Samples.javascriptWorld Samples.chainTree
       Samples.packagedTree eq_refl eq_refl)).
Defined.

(** The whole command on the example of the specification. *)
Example packageSmartContract_foo :
  packageSmartContract Samples.fooHost Samples.javascriptWorld =
    (Ok tt,
     {| fs := Samples.packagedTree;
        events :=
          [Log gettingFoldersMessage;
           Mkdirp (VStr "/pkgs/javascript/foo@v1.2.3");
           Copy (VStr "/ws/contract") (VStr "/pkgs/javascript/foo@v1.2.3");
           ShowInformationMessage
             (VStr "Smart Contract packaged: /pkgs/javascript/foo@v1.2.3");
           ExecuteCommand refreshEntry] |}).
Proof. reflexivity. Qed.

(** ** Development-mode toggle *)

#[global] Instance LocalRuntime_laws : FabricRuntimeLaws LocalRuntime.
Proof. split. intros b r r' [= <-]. reflexivity. Qed.

(** [C10] With the runtime resolved, by the tree item or by the quick
    pick, the command first sets the development-mode flag to the negation
    of what it was, and only then asks whether the runtime is running.
    If it is not, the command returns: the runtime keeps the new flag and
    is not restarted.  If it is, the command restarts it.  A restart is
    called exactly when the runtime answers that it is running. *)
Theorem toggle_negates_then_restarts_if_running
    {R : Type} `{FabricRuntimeLaws R}
    (showRuntimeQuickPickBox : string -> Result value)
    (runtimeTreeItem : option RuntimeTreeItem)
    (st : Runtimes R) (runtimeName : string) (runtime runtime1 : R) :
  match runtimeTreeItem with
  | Some item => getName item = runtimeName
  | None => showRuntimeQuickPickBox toggleDevModePrompt = Ok (VStr runtimeName)
  end ->
  runtimes st !! runtimeName = Some runtime ->
  setDevelopmentMode (negb (isDevelopmentMode runtime)) runtime
    = (Ok tt, runtime1) ->
  isDevelopmentMode runtime1 = negb (isDevelopmentMode runtime)
  /\ toggleFabricRuntimeDevMode showRuntimeQuickPickBox runtimeTreeItem st =
     match isRunning runtime1 with
     | Ok false =>
         (Ok tt,
          {| runtimes := <[runtimeName := runtime1]> (runtimes st);
             calls := calls st ++
               [SetDevelopmentMode runtimeName
                  (negb (isDevelopmentMode runtime));
                IsRunning runtimeName] |})
     | Ok true =>
         ((restart runtime1).1,
          {| runtimes := <[runtimeName := (restart runtime1).2]> (runtimes st);
             calls := calls st ++
               [SetDevelopmentMode runtimeName
                  (negb (isDevelopmentMode runtime));
                IsRunning runtimeName;
                ReportProgress ("Restarting Fabric runtime " +:+ runtimeName);
                Restart runtimeName] |})
     | Throw e =>
         (Throw e,
          {| runtimes := <[runtimeName := runtime1]> (runtimes st);
             calls := calls st ++
               [SetDevelopmentMode runtimeName
                  (negb (isDevelopmentMode runtime));
                IsRunning runtimeName] |})
     end.
Proof.
  intros Hresolved Hget Hset.
  split; [by apply get_set_developmentMode with runtime|].
  assert (Hname :
    match runtimeTreeItem with
    | Some item => ret (S := Runtimes R) (VStr (getName item))
    | None => await (showRuntimeQuickPickBox toggleDevModePrompt)
    end st = (Ok (VStr runtimeName), st)).
  { destruct runtimeTreeItem as [item|]; [by rewrite Hresolved|].
    unfold await. by rewrite Hresolved. }
  unfold toggleFabricRuntimeDevMode, toggleDevModePrompt in *.
  unfold bind at 1. rewrite Hname.
  unfold bind at 1, runtimeManager_get. rewrite Hget.
  unfold bind at 1, read_runtime. simpl. rewrite Hget.
  unfold bind at 1, call_runtime at 1. simpl. rewrite Hget. simpl.
  rewrite Hset.
  unfold bind at 1, call_runtime at 1. simpl.
  rewrite lookup_insert_eq. simpl. rewrite insert_insert_eq.
  destruct (isRunning runtime1) as [[|]|e]; simpl.
  - unfold bind, report, call_runtime. simpl.
    rewrite lookup_insert_eq. simpl.
    destruct (restart runtime1) as [res runtime2]. simpl.
    rewrite insert_insert_eq, <- !app_assoc. reflexivity.
  - unfold ret. by rewrite <- !app_assoc.
  - by rewrite <- !app_assoc.
Qed.

(** Toggling a stopped [local_fabric] from its tree item: development
    mode is switched on and nothing is restarted. *)
Lemma toggle_negates_then_restarts_if_running_witness :
  runtimes (localFabric false) !! "local_fabric" =
    Some {| developmentMode := false; running := false; restarts := 0 |} /\
  toggleFabricRuntimeDevMode (fun _ => Ok VUndefined)
    (Some {| getName := "local_fabric" |}) (localFabric false) =
    (Ok tt,
     {| runtimes :=
          <["local_fabric" :=
              {| developmentMode := true; running := false; restarts := 0 |}]>
            (runtimes (localFabric false));
        calls := [SetDevelopmentMode "local_fabric" true;
                  IsRunning "local_fabric"] |}).
Proof.
  split; [reflexivity|].
  exact (proj2
    (toggle_negates_then_restarts_if_running (fun _ => Ok VUndefined)
       (Some {| getName := "local_fabric" |}) (localFabric false)
       "local_fabric"
       {| developmentMode := false; running := false; restarts := 0 |}
       {| developmentMode := true; running := false; restarts := 0 |}
       eq_refl eq_refl eq_refl)).
Defined.

(** The same on a running [local_fabric], picked from the quick pick: it
    is restarted once. *)
Example toggle_running_local_fabric :
  toggleFabricRuntimeDevMode (fun _ => Ok (VStr "local_fabric")) None
    (localFabric true) =
    (Ok tt,
     {| runtimes :=
          <["local_fabric" :=
              {| developmentMode := true; running := true; restarts := 1 |}]>
            (runtimes (localFabric true));
        calls := [SetDevelopmentMode "local_fabric" true;
                  IsRunning "local_fabric";
                  ReportProgress "Restarting Fabric runtime local_fabric";
                  Restart "local_fabric"] |}).
Proof. reflexivity. Qed.

(** ** Interactive metadata for Go *)

Section GoMetadata.

Context {FS : Type} (host : Host FS).

(** A falsy answer to the name prompt, cancelled or empty, makes the
    resolver return [undefined]; the planner then fails reading the name
    from it. *)
Lemma golang_falsy_name packageDir workspaceDir name (w : World FS) :
  getLanguage host workspaceDir w = (Ok (VStr "/go/src/"), w) ->
  showInputBox host namePrompt = Ok name ->
  truthy name = false ->
  golangPackageAndVersion host w = (Ok VUndefined, w)
  /\ getFinalDirectory host packageDir workspaceDir w
     = (Throw noPropertiesError, w).
Proof.
  intros Hl Hn Ht.
  assert (Hgo : golangPackageAndVersion host w = (Ok VUndefined, w)).
  { unfold golangPackageAndVersion, namePrompt in *. unfold_cmd.
    by rewrite Hn, Ht. }
  split; [exact Hgo|].
  unfold getFinalDirectory. unfold bind at 1. rewrite Hl. simpl.
  unfold bind at 1. by rewrite Hgo.
Qed.

(** So does a truthy answer to the version prompt. *)
Lemma golang_truthy_version packageDir workspaceDir name version
    (w : World FS) :
  getLanguage host workspaceDir w = (Ok (VStr "/go/src/"), w) ->
  showInputBox host namePrompt = Ok name ->
  truthy name = true ->
  showInputBox host versionPrompt = Ok version ->
  truthy version = true ->
  getFinalDirectory host packageDir workspaceDir w
    = (Throw noPropertiesError, w).
Proof.
  intros Hl Hn Ht Hv Htv.
  unfold getFinalDirectory. unfold bind at 1. rewrite Hl. simpl.
  unfold bind at 1.
  unfold golangPackageAndVersion, namePrompt, versionPrompt in *.
  unfold_cmd. by rewrite Hn, Ht, Hv, Htv.
Qed.

(** An empty version, after a name, is rejected with the metadata error. *)
Lemma golang_empty_version name (w : World FS) :
  showInputBox host namePrompt = Ok name ->
  truthy name = true ->
  showInputBox host versionPrompt = Ok (VStr "") ->
  golangPackageAndVersion host w =
    (Throw (newError (VStr goMetadataMessage)),
     after w [ShowErrorMessage (VStr goMetadataMessage)]).
Proof.
  intros Hn Ht Hv.
  unfold golangPackageAndVersion, namePrompt, versionPrompt in *.
  unfold_cmd. rewrite Hn, Ht, Hv. simpl.
  by rewrite orb_true_r.
Qed.

(** A cancelled version prompt, after a name, is taken as the version. *)
Lemma golang_cancelled_version name (w : World FS) :
  showInputBox host namePrompt = Ok name ->
  truthy name = true ->
  showInputBox host versionPrompt = Ok VUndefined ->
  golangPackageAndVersion host w =
    (Ok (VObj [("workspacePackageName", name);
               ("workspacePackageVersion", VUndefined)]), w).
Proof.
  intros Hn Ht Hv.
  unfold golangPackageAndVersion, namePrompt, versionPrompt in *.
  unfold_cmd. rewrite Hn, Ht, Hv. simpl.
  destruct name; try discriminate; try reflexivity.
  simpl in Ht. simpl. destruct (String.eqb s ""); [discriminate|reflexivity].
Qed.

End GoMetadata.

(** [C3] Cancelling a prompt does not end the command silently.  With the
    name prompt cancelled the command shows an error, the [TypeError] of
    reading the name from the [undefined] that the resolver returned.
    With the version prompt cancelled it packages the project, under the
    version [undefined].  With the folder pick cancelled it goes on
    without a workspace directory and shows the error this leads to. *)
Theorem cancelled_prompts_are_not_silent :
  packageSmartContract (Samples.goHost VUndefined VUndefined) Samples.goWorld
    = (Ok tt,
       after Samples.goWorld
         [Log gettingFoldersMessage; ShowErrorMessage noPropertiesError])
  /\ (packageSmartContract (Samples.goHost (VStr "mycc") VUndefined)
        Samples.goWorld).1 = Ok tt
  /\ events (packageSmartContract (Samples.goHost (VStr "mycc") VUndefined)
               Samples.goWorld).2
     = [Log gettingFoldersMessage;
        Mkdirp (VStr "/pkgs/go/src/mycc@vundefined");
        Copy (VStr "/ws/contract") (VStr "/pkgs/go/src/mycc@vundefined");
        ShowInformationMessage
          (VStr "Smart Contract packaged: /pkgs/go/src/mycc@vundefined");
        ExecuteCommand refreshEntry]
  /\ chooseWorkspace Samples.cancelledPickHost Samples.javascriptWorld
     = (Ok VUndefined,
        after Samples.javascriptWorld [Log gettingFoldersMessage])
  /\ packageSmartContract Samples.cancelledPickHost Samples.javascriptWorld
     = (Ok tt,
        after Samples.javascriptWorld
          [Log gettingFoldersMessage;
           ShowErrorMessage
             (TypeError "Path must be a string. Received undefined")]).
Proof. repeat split; reflexivity. Qed.

(** [C4] An empty package name is not rejected with the metadata error:
    the resolver returns [undefined] for it, as for a cancelled prompt,
    and the command shows the [TypeError] of reading the name from that.
    An empty version, after a name, is rejected with the metadata
    error. *)
Theorem empty_go_name_is_not_rejected :
  golangPackageAndVersion (Samples.goHost (VStr "") (VStr "0.0.1"))
    Samples.goWorld = (Ok VUndefined, Samples.goWorld)
  /\ packageSmartContract (Samples.goHost (VStr "") (VStr "0.0.1"))
       Samples.goWorld
     = (Ok tt,
        after Samples.goWorld
          [Log gettingFoldersMessage; ShowErrorMessage noPropertiesError])
  /\ packageSmartContract (Samples.goHost (VStr "mycc") (VStr ""))
       Samples.goWorld
     = (Ok tt,
        after Samples.goWorld
          [Log gettingFoldersMessage;
           ShowErrorMessage (VStr goMetadataMessage);
           ShowErrorMessage (newError (VStr goMetadataMessage))]).
Proof. repeat split; reflexivity. Qed.

(** A Go package with a name and a version: the resolver takes the
    version for a cancelled prompt. *)
Example go_package_with_version :
  packageSmartContract (Samples.goHost (VStr "mycc") (VStr "0.0.1"))
    Samples.goWorld
  = (Ok tt,
     after Samples.goWorld
       [Log gettingFoldersMessage; ShowErrorMessage noPropertiesError]).
Proof. reflexivity. Qed.

(** * Further properties of the commands *)

(** ** Workspace Selector *)

Section SelectorFacts.

Context {FS : Type} (host : Host FS).

Lemma includes_str (options : list string) (name : string) :
  includes options (VStr name) = true <-> name ∈ options.
Proof.
  unfold includes. rewrite existsb_exists. split.
  - intros (o & Hin & Heq). simpl in Heq.
    apply String.eqb_eq in Heq as ->. by apply list_elem_of_In.
  - intros Hin. exists name. split; [by apply list_elem_of_In|].
    simpl. apply String.eqb_refl.
Qed.

(** The selector once the options are known and the choice is made. *)
Lemma chooseWorkspace_chosen options choice (w : World FS) :
  getWorkspaceFolders host = Ok options ->
  (if bool_decide (1 < length options)
   then showGolangQuickPickBox host "Choose a workspace folder to package"
   else Ok (array_get options 0)) = Ok choice ->
  chooseWorkspace host w =
    (if negb (includes options choice) then Ok VUndefined
     else match workspaceFolders host with
          | None => Throw (TypeError "workspace is not iterable")
          | Some folders =>
              Ok (match find (fun folder =>
                                strict_eq_str choice (folder_name folder))
                             folders with
                  | Some folder => VStr (folder_uri_path folder)
                  | None => VUndefined
                  end)
          end,
     after w [Log gettingFoldersMessage]).
Proof.
  intros Hopts Hchoice. unfold chooseWorkspace. unfold_cmd. cbn beta iota.
  rewrite Hopts. cbn beta iota.
  destruct (bool_decide (1 < length options)).
  - rewrite Hchoice. destruct (negb (includes options choice)); [done|].
    destruct (workspaceFolders host) as [folders|]; [|done].
    by destruct (find _ folders).
  - injection Hchoice as <-.
    destruct (negb (includes options (array_get options 0))); [done|].
    destruct (workspaceFolders host) as [folders|]; [|done].
    by destruct (find _ folders).
Qed.

End SelectorFacts.

(** [X1] With exactly one folder on offer the selector does not ask:
    whatever the quick pick would answer, it returns the path of the
    first open folder of that name, having logged its first line and
    nothing else. *)
Theorem single_folder_is_selected_without_prompt {FS} (host : Host FS)
    (w : World FS) (only : string) (folders : list WorkspaceFolder)
    (folder : WorkspaceFolder) :
  getWorkspaceFolders host = Ok [only] ->
  workspaceFolders host = Some folders ->
  find (fun f => String.eqb only (folder_name f)) folders = Some folder ->
  chooseWorkspace host w =
    (Ok (VStr (folder_uri_path folder)), after w [Log gettingFoldersMessage]).
Proof.
  intros Hopts Hfolders Hfind.
  rewrite (chooseWorkspace_chosen host [only] (VStr only) w Hopts eq_refl).
  simpl. rewrite String.eqb_refl. simpl. by rewrite Hfolders, Hfind.
Qed.

Lemma single_folder_is_selected_without_prompt_witness :
  getWorkspaceFolders Samples.fooHost = Ok ["contract"] /\
  workspaceFolders Samples.fooHost = Some [Samples.contractFolder] /\
  chooseWorkspace Samples.fooHost Samples.javascriptWorld =
    (Ok (VStr "/ws/contract"),
     after Samples.javascriptWorld [Log gettingFoldersMessage]).
Proof.
  do 2 (split; [reflexivity|]).
  exact (single_folder_is_selected_without_prompt Samples.fooHost
           Samples.javascriptWorld "contract" [Samples.contractFolder]
           Samples.contractFolder eq_refl eq_refl eq_refl).
Defined.

(** [X2] Whatever the selector returns is [undefined] or the path of an
    open folder whose name is one of the options on offer; and it
    returns having logged its first line only. *)
Theorem selector_returns_an_offered_open_folder {FS} (host : Host FS)
    (w w' : World FS) (result : value) :
  chooseWorkspace host w = (Ok result, w') ->
  w' = after w [Log gettingFoldersMessage] /\
  (result = VUndefined \/
   exists options folders folder,
     getWorkspaceFolders host = Ok options /\
     workspaceFolders host = Some folders /\
     folder ∈ folders /\
     folder_name folder ∈ options /\
     result = VStr (folder_uri_path folder)).
Proof.
  intros Hrun. split; [by eapply chooseWorkspace_ok|].
  destruct (getWorkspaceFolders host) as [options|e] eqn:Hopts.
  2:{ rewrite (chooseWorkspace_retrieval_fails host e w Hopts) in Hrun.
      discriminate. }
  destruct (if bool_decide (1 < length options)
            then showGolangQuickPickBox host
                   "Choose a workspace folder to package"
            else Ok (array_get options 0)) as [choice|e] eqn:Hchoice.
  2:{ unfold chooseWorkspace in Hrun. unfold_cmd. cbn beta iota in Hrun.
      rewrite Hopts in Hrun. cbn beta iota in Hrun.
      destruct (bool_decide (1 < length options)); [|discriminate].
      rewrite Hchoice in Hrun. discriminate. }
  rewrite (chooseWorkspace_chosen host options choice w Hopts Hchoice) in Hrun.
  destruct (includes options choice) eqn:Hinc; simpl in Hrun;
    [|left; congruence].
  destruct (workspaceFolders host) as [folders|]; [|discriminate].
  destruct (find _ folders) as [folder|] eqn:Hfind; [|left; congruence].
  right. exists options, folders, folder.
  apply find_some in Hfind as [Hin Hname].
  destruct choice; try discriminate. simpl in Hname.
  apply String.eqb_eq in Hname as ->.
  repeat split; try done.
  - by apply list_elem_of_In.
  - by apply includes_str.
  - congruence.
Qed.

Lemma selector_returns_an_offered_open_folder_witness :
  chooseWorkspace (MoreSamples.pickHost (VStr "other")) Samples.javascriptWorld
    = (Ok (VStr "/ws/other"),
       after Samples.javascriptWorld [Log gettingFoldersMessage]) /\
  (VStr "/ws/other" = VUndefined \/
   exists options folders folder,
     getWorkspaceFolders (MoreSamples.pickHost (VStr "other")) = Ok options /\
     workspaceFolders (MoreSamples.pickHost (VStr "other")) = Some folders /\
     folder ∈ folders /\
     folder_name folder ∈ options /\
     VStr "/ws/other" = VStr (folder_uri_path folder)).
Proof.
  split; [reflexivity|].
  exact (proj2
    (selector_returns_an_offered_open_folder
       (MoreSamples.pickHost (VStr "other")) Samples.javascriptWorld
       (after Samples.javascriptWorld [Log gettingFoldersMessage])
       (VStr "/ws/other") eq_refl)).
Defined.

(** [X3] With more than one folder on offer the quick pick decides.  A
    pick that is not one of the options, a cancelled pick included, makes
    the selector return [undefined] without showing anything; a rejected
    quick pick is thrown on as it is, without the selector's own error
    message. *)
Theorem quick_pick_outside_the_options {FS} (host : Host FS)
    (w : World FS) (options : list string) :
  getWorkspaceFolders host = Ok options ->
  1 < length options ->
  (forall pick,
     showGolangQuickPickBox host "Choose a workspace folder to package"
       = Ok pick ->
     (forall name, pick = VStr name -> name ∉ options) ->
     chooseWorkspace host w =
       (Ok VUndefined, after w [Log gettingFoldersMessage]))
  /\ (forall e,
        showGolangQuickPickBox host "Choose a workspace folder to package"
          = Throw e ->
        chooseWorkspace host w =
          (Throw e, after w [Log gettingFoldersMessage])).
Proof.
  intros Hopts Hlen. split.
  - intros pick Hpick Hout.
    assert (Hinc : includes options pick = false).
    { destruct (includes options pick) eqn:Hinc; [|done].
      unfold includes in Hinc. apply existsb_exists in Hinc as (o & Hin & Ho).
      destruct pick; try discriminate. simpl in Ho.
      apply String.eqb_eq in Ho as ->.
      destruct (Hout o eq_refl). by apply list_elem_of_In. }
    rewrite (chooseWorkspace_chosen host options pick w Hopts).
    + by rewrite Hinc.
    + by rewrite bool_decide_eq_true_2.
  - intros e Hpick. unfold chooseWorkspace. unfold_cmd. cbn beta iota.
    rewrite Hopts. cbn beta iota.
    rewrite bool_decide_eq_true_2 by done. by rewrite Hpick.
Qed.

Lemma quick_pick_outside_the_options_witness :
  getWorkspaceFolders Samples.cancelledPickHost = Ok ["contract"; "other"] /\
  1 < length ["contract"; "other"] /\
  chooseWorkspace Samples.cancelledPickHost Samples.javascriptWorld =
    (Ok VUndefined, after Samples.javascriptWorld [Log gettingFoldersMessage]).
Proof.
  split; [reflexivity|]. split; [simpl; lia|].
  refine (proj1
    (quick_pick_outside_the_options Samples.cancelledPickHost
       Samples.javascriptWorld ["contract"; "other"] eq_refl _)
    VUndefined eq_refl _).
  - simpl; lia.
  - intros name Hname. discriminate Hname.
Defined.

(** ** What a stage may log *)

Section EmitsOnly.

Context {FS : Type} (P : Event -> bool).

Lemma emits_only_ret {A} (a : A) : emits_only (FS := FS) P (ret a).
Proof. intros w r w' [= <- <-]. exists []. by rewrite app_nil_r. Qed.

Lemma emits_only_throw {A} e : emits_only (FS := FS) (A := A) P (throw e).
Proof. intros w r w' [= <- <-]. exists []. by rewrite app_nil_r. Qed.

Lemma emits_only_await {A} (res : Result A) :
  emits_only (FS := FS) P (await res).
Proof. intros w r w' [= <- <-]. exists []. by rewrite app_nil_r. Qed.

Lemma emits_only_await_fs {A} (f : FS -> Result A) :
  emits_only P (await_fs f).
Proof. intros w r w' [= <- <-]. exists []. by rewrite app_nil_r. Qed.

Lemma emits_only_emit ev : P ev = true -> emits_only (FS := FS) P (emit ev).
Proof.
  intros Hev w r w' [= <- <-]. exists [ev]. simpl. by rewrite Hev.
Qed.

Lemma emits_only_mutate ev (f : FS -> Result unit * FS) :
  P ev = true -> emits_only P (mutate ev f).
Proof.
  intros Hev w r w'. unfold mutate. destruct (f (fs w)) as [res fs'].
  intros [= <- <-]. exists [ev]. simpl. by rewrite Hev.
Qed.

Lemma emits_only_bind {A B} (m : M (World FS) A) (k : A -> M (World FS) B) :
  emits_only P m -> (forall a, emits_only P (k a)) ->
  emits_only P (bind m k).
Proof.
  intros Hm Hk w r w'. unfold bind.
  destruct (m w) as [[a|e] w1] eqn:Em; intros Hrun.
  - destruct (Hm _ _ _ Em) as (evs1 & Hev1 & Hok1).
    destruct (Hk a _ _ _ Hrun) as (evs2 & Hev2 & Hok2).
    exists (evs1 ++ evs2). rewrite Hev2, Hev1, app_assoc. split; [done|].
    rewrite forallb_app. by rewrite Hok1, Hok2.
  - injection Hrun as <- <-. exact (Hm _ _ _ Em).
Qed.

Lemma emits_only_try_catch {A} (body : M (World FS) A)
    (handler : value -> M (World FS) A) :
  emits_only P body -> (forall e, emits_only P (handler e)) ->
  emits_only P (try_catch body handler).
Proof.
  intros Hm Hk w r w'. unfold try_catch.
  destruct (body w) as [[a|e] w1] eqn:Em; intros Hrun.
  - injection Hrun as <- <-. exact (Hm _ _ _ Em).
  - destruct (Hm _ _ _ Em) as (evs1 & Hev1 & Hok1).
    destruct (Hk e _ _ _ Hrun) as (evs2 & Hev2 & Hok2).
    exists (evs1 ++ evs2). rewrite Hev2, Hev1, app_assoc. split; [done|].
    rewrite forallb_app. by rewrite Hok1, Hok2.
Qed.

End EmitsOnly.

Ltac emits_only_step :=
  lazymatch goal with
  | |- emits_only _ (bind _ _) => apply emits_only_bind; [|intros ?]
  | |- emits_only _ (try_catch _ _) => apply emits_only_try_catch; [|intros ?]
  | |- emits_only _ (ret _) => apply emits_only_ret
  | |- emits_only _ (throw _) => apply emits_only_throw
  | |- emits_only _ (await _) => apply emits_only_await
  | |- emits_only _ (await_fs _) => apply emits_only_await_fs
  | |- emits_only _ (emit _) => apply emits_only_emit; reflexivity
  | |- emits_only _ (mutate _ _) => apply emits_only_mutate; reflexivity
  | |- emits_only _ (showErrorMessage _) => apply emits_only_emit; reflexivity
  | |- emits_only _ (showInformationMessage _) =>
      apply emits_only_emit; reflexivity
  | |- emits_only _ (if ?b then _ else _) => destruct b
  | |- emits_only _ (match ?x with _ => _ end) => destruct x
  end.

Ltac solve_emits_only := cbv zeta; repeat (emits_only_step; cbv zeta).

Section StageLogs.

Context {FS : Type} (host : Host FS).

Lemma getFinalDirectory_emits P packageDir workspaceDir :
  (forall v, P (ShowErrorMessage v) = true) ->
  emits_only P (getFinalDirectory host packageDir workspaceDir).
Proof.
  intros HP.
  assert (Herr : forall v, emits_only (FS := FS) P (showErrorMessage v)).
  { intros v. apply emits_only_emit, HP. }
  unfold getFinalDirectory, getLanguage, packageJsonNameAndVersion,
    golangPackageAndVersion.
  cbv zeta.
  repeat first [apply Herr | emits_only_step; cbv zeta].
Qed.

Lemma createPackageDir_emits P packageDir :
  (forall ev, is_refresh ev = false -> P ev = true) ->
  emits_only P (createPackageDir host packageDir).
Proof.
  intros HP.
  assert (Hemit : forall ev, is_refresh ev = false ->
                             emits_only (FS := FS) P (emit ev)).
  { intros ev Hev. apply emits_only_emit, HP, Hev. }
  assert (Hmut : forall ev f, is_refresh ev = false ->
                              emits_only (FS := FS) P (mutate ev f)).
  { intros ev f Hev. apply emits_only_mutate, HP, Hev. }
  unfold createPackageDir.
  apply emits_only_bind.
  { unfold chooseWorkspace. cbv zeta. unfold showErrorMessage.
    repeat first [apply Hemit; reflexivity | emits_only_step; cbv zeta]. }
  intros workspaceDir. apply emits_only_bind.
  { apply getFinalDirectory_emits. intros v. by apply HP. }
  intros dir. unfold createAndPackage, showErrorMessage,
    showInformationMessage.
  repeat first [apply Hemit; reflexivity | apply Hmut; reflexivity
               | emits_only_step; cbv zeta].
Qed.

End StageLogs.

(** ** The command as a whole *)

(** [X4] When the configured package directory is not a string, the
    setting being absent for one, the command shows the [TypeError] of
    calling [startsWith] on it and does nothing else: no log line, no
    prompt, no change. *)
Theorem unconfigured_package_directory {FS} (host : Host FS) (w : World FS) :
  (forall s, getConfiguration host "fabric.package.directory" <> VStr s) ->
  exists e,
    packageSmartContract host w = (Ok tt, after w [ShowErrorMessage e]) /\
    (getConfiguration host "fabric.package.directory" = VUndefined ->
     e = TypeError "Cannot read property 'startsWith' of undefined").
Proof.
  intros Hcfg. unfold packageSmartContract, getBasePackageDir. unfold_cmd.
  destruct (getConfiguration host "fabric.package.directory")
    as [| | | |s| | |] eqn:Ecfg;
    try (eexists; split; [reflexivity|]; intros; (done || discriminate)).
  by destruct (Hcfg s).
Qed.

Lemma unconfigured_package_directory_witness :
  (forall s, getConfiguration CommandSamples.unsetHost
               "fabric.package.directory" <> VStr s) /\
  exists e,
    packageSmartContract CommandSamples.unsetHost Samples.javascriptWorld
      = (Ok tt, after Samples.javascriptWorld [ShowErrorMessage e]) /\
    (getConfiguration CommandSamples.unsetHost "fabric.package.directory"
       = VUndefined ->
     e = TypeError "Cannot read property 'startsWith' of undefined").
Proof.
  assert (H : forall s, getConfiguration CommandSamples.unsetHost
                          "fabric.package.directory" <> VStr s)
    by (intros s; discriminate).
  split; [exact H|].
  exact (unconfigured_package_directory CommandSamples.unsetHost
           Samples.javascriptWorld H).
Defined.

(** Only a leading tilde is expanded: a directory that does not start
    with one is used as it is, without asking for the home directory;
    for one that does, everything after the tilde is handed to
    [homeDir] and the answer is used, or its failure thrown on. *)
Lemma only_a_leading_tilde_is_expanded {FS} (host : Host FS)
    (w : World FS) :
  (forall s, String.prefix "~" s = false ->
             getBasePackageDir host (VStr s) w = (Ok (VStr s), w))
  /\ (forall rest,
        getBasePackageDir host (VStr ("~" +:+ rest)) w =
          (match homeDir host rest with
           | Ok home => Ok (VStr home)
           | Throw e => Throw e
           end, w)).
Proof.
  split.
  - intros s Hs. unfold getBasePackageDir. by rewrite Hs.
  - intros rest. unfold getBasePackageDir. unfold_cmd.
    change (String.prefix "~" ("~" +:+ rest)) with (String.prefix "" rest).
    replace (String.prefix "" rest) with true by (by destruct rest).
    change (drop_tilde ("~" +:+ rest)) with rest.
    by destruct (homeDir host rest).
Qed.

(** The default setting of the extension, on the reference host. *)
Example tilde_default_directory :
  getBasePackageDir CommandSamples.tildeHost
    (VStr "~/.fabric-vscode/packages") Samples.javascriptWorld
  = (Ok (VStr "/home/user/.fabric-vscode/packages"), Samples.javascriptWorld).
Proof. reflexivity. Qed.

(** [X5] The command never throws: whatever the pipeline throws is
    caught and shown, as the last thing the command does.  The refresh of
    the package explorer is fired exactly when the package directory was
    resolved and the pipeline completed normally. *)
Theorem command_never_throws {FS} (host : Host FS) (w : World FS) :
  exists w' evs,
    packageSmartContract host w = (Ok tt, w')
    /\ events w' = events w ++ evs
    /\ (existsb is_refresh evs = true <->
        exists packageDir result w1,
          getBasePackageDir host
            (getConfiguration host "fabric.package.directory") w
            = (Ok packageDir, w) /\
          createPackageDir host packageDir w = (Ok result, w1))
    /\ (forall packageDir e w1,
          getBasePackageDir host
            (getConfiguration host "fabric.package.directory") w
            = (Ok packageDir, w) ->
          createPackageDir host packageDir w = (Throw e, w1) ->
          w' = after w1 [ShowErrorMessage e]).
Proof.
  assert (Hquiet : forall ev, is_refresh ev = false ->
                              negb (is_refresh ev) = true)
    by (by intros ev ->).
  unfold packageSmartContract. unfold try_catch, bind at 1.
  destruct (getBasePackageDir host _ w) as [[packageDir|e] w0] eqn:Hbase;
    pose proof (getBasePackageDir_world host _ _ _ _ Hbase) as ->.
  2:{ eexists _, [ShowErrorMessage e]. split; [reflexivity|].
      split; [reflexivity|]. split.
      - split; [discriminate|]. intros (? & ? & ? & Hb & _). discriminate.
      - intros ? ? ? Hb. discriminate. }
  unfold bind at 1.
  destruct (createPackageDir host packageDir w) as [[result|e] w1] eqn:Hrun;
    destruct (createPackageDir_emits host _ packageDir Hquiet _ _ _ Hrun)
      as (evs & Hevs & Hnone).
  - unfold showErrorMessage. unfold bind, emit, await. simpl.
    destruct (executeCommand host refreshEntry) as [[]|e]; simpl.
    + eexists _, (evs ++ [ExecuteCommand refreshEntry]).
      split; [reflexivity|]. simpl. rewrite Hevs, <- app_assoc.
      split; [reflexivity|]. split.
      * rewrite existsb_app. simpl. rewrite orb_true_r.
        split; [|done]. intros _. by exists packageDir, result, w1.
      * intros p e' w2 Hb Hr. injection Hb as <-. congruence.
    + eexists _, (evs ++ [ExecuteCommand refreshEntry; ShowErrorMessage e]).
      split; [reflexivity|]. simpl. rewrite Hevs, <- !app_assoc.
      split; [reflexivity|]. split.
      * rewrite existsb_app. simpl. rewrite orb_true_r.
        split; [|done]. intros _. by exists packageDir, result, w1.
      * intros p e' w2 Hb Hr. injection Hb as <-. congruence.
  - eexists _, (evs ++ [ShowErrorMessage e]).
    unfold showErrorMessage, emit. split; [reflexivity|]. simpl.
    rewrite Hevs, <- app_assoc. split; [reflexivity|]. split.
    + rewrite existsb_app. simpl. rewrite orb_false_r. split.
      * intros Hex. apply existsb_exists in Hex as (ev & Hin & Hev).
        rewrite forallb_forall in Hnone. specialize (Hnone ev Hin).
        by rewrite Hev in Hnone.
      * intros (p & r & w2 & Hb & Hok). injection Hb as <-. congruence.
    + intros p e' w2 Hb Hr. injection Hb as <-.
      rewrite Hrun in Hr. injection Hr as <- <-.
      unfold after. by rewrite Hevs, app_assoc.
Qed.

(** ** Where the file system is changed *)

(** [X6] Nothing is written before the plan is made: when the selector or
    the planner does not return, the pipeline leaves the file system as it
    was and has called neither [mkdirp] nor [copy]. *)
Theorem nothing_is_written_before_the_plan {FS} (host : Host FS)
    (packageDir : value) (w w' : World FS) (r : Result value) :
  createPackageDir host packageDir w = (r, w') ->
  (forall workspaceDir w0 dir w1,
     chooseWorkspace host w = (Ok workspaceDir, w0) ->
     getFinalDirectory host packageDir workspaceDir w0 = (Ok dir, w1) ->
     False) ->
  fs w' = fs w /\
  exists evs, events w' = events w ++ evs /\
              forallb (fun ev => negb (is_mutation ev)) evs = true.
Proof.
  intros Hrun Hstops.
  assert (Hro : read_only
            (bind (chooseWorkspace host)
               (fun workspaceDir =>
                  getFinalDirectory host packageDir workspaceDir))).
  { apply read_only_bind; [apply chooseWorkspace_read_only|].
    intros workspaceDir. apply getFinalDirectory_read_only. }
  unfold createPackageDir, bind in Hrun.
  destruct (chooseWorkspace host w) as [[workspaceDir|e] w0] eqn:Hws.
  - destruct (getFinalDirectory host packageDir workspaceDir w0)
      as [[dir|e] w1] eqn:Hplan.
    + destruct (Hstops _ _ _ _ eq_refl Hplan).
    + injection Hrun as <- <-. apply (Hro w (Throw e)).
      unfold bind. by rewrite Hws, Hplan.
  - injection Hrun as <- <-. apply (Hro w (Throw e)).
    unfold bind. by rewrite Hws.
Qed.

(** TypeScript sources that were not compiled: nothing is written. *)
Lemma nothing_is_written_before_the_plan_witness :
  createPackageDir Samples.fooHost (VStr "/pkgs") Samples.uncompiledWorld =
    (Throw (newError (VStr uncompiledMessage)),
     after Samples.uncompiledWorld
       [Log gettingFoldersMessage;
        ShowErrorMessage (VStr uncompiledMessage)]) /\
  (forall workspaceDir w0 dir w1,
     chooseWorkspace Samples.fooHost Samples.uncompiledWorld
       = (Ok workspaceDir, w0) ->
     getFinalDirectory Samples.fooHost (VStr "/pkgs") workspaceDir w0
       = (Ok dir, w1) ->
     False) /\
  fs (after Samples.uncompiledWorld
        [Log gettingFoldersMessage;
         ShowErrorMessage (VStr uncompiledMessage)])
    = fs Samples.uncompiledWorld.
Proof.
  assert (Hstops : forall workspaceDir w0 dir w1,
     chooseWorkspace Samples.fooHost Samples.uncompiledWorld
       = (Ok workspaceDir, w0) ->
     getFinalDirectory Samples.fooHost (VStr "/pkgs") workspaceDir w0
       = (Ok dir, w1) ->
     False).
  { intros workspaceDir w0 dir w1 Hws. injection Hws as <- <-.
    intros Hplan. discriminate Hplan. }
  split; [reflexivity|]. split; [exact Hstops|].
  exact (proj1
    (nothing_is_written_before_the_plan Samples.fooHost (VStr "/pkgs")
       Samples.uncompiledWorld _ _ eq_refl Hstops)).
Defined.

(** [X7] When [mkdirp] fails, nothing is copied and no success message is
    shown: the failure is shown and thrown, wrapped in an [Error], and the
    file system stays as the failed call left it.  The command shows the
    wrapped failure and does not refresh the package explorer. *)
Theorem mkdirp_failure_stops_the_materializer {FS} (host : Host FS)
    (dir workspaceDir e : value) (w : World FS) (fs1 : FS) :
  fs_mkdirp host (fs w) dir = (Throw e, fs1) ->
  createAndPackage host dir workspaceDir w =
    (Throw (newError e),
     {| fs := fs1;
        events := events w ++ [Mkdirp dir; ShowErrorMessage e] |})
  /\ (forall (v w0 : World FS) (packageDir : value),
        getBasePackageDir host
          (getConfiguration host "fabric.package.directory") v
          = (Ok packageDir, v) ->
        chooseWorkspace host v = (Ok workspaceDir, w0) ->
        getFinalDirectory host packageDir workspaceDir w0 = (Ok dir, w) ->
        packageSmartContract host v =
          (Ok tt,
           {| fs := fs1;
              events := events w ++
                [Mkdirp dir; ShowErrorMessage e;
                 ShowErrorMessage (newError e)] |})).
Proof.
  intros Hmk.
  assert (Hrun : createAndPackage host dir workspaceDir w =
    (Throw (newError e),
     {| fs := fs1;
        events := events w ++ [Mkdirp dir; ShowErrorMessage e] |})).
  { unfold createAndPackage. unfold_cmd. rewrite Hmk. simpl.
    by rewrite <- app_assoc. }
  split; [exact Hrun|].
  intros v w0 packageDir Hbase Hws Hplan.
  unfold packageSmartContract, try_catch, bind at 1. rewrite Hbase.
  unfold createPackageDir, bind at 1 2 3. rewrite Hws.
  unfold bind at 1. rewrite Hplan, Hrun.
  unfold showErrorMessage, emit. simpl. by rewrite <- app_assoc.
Qed.

Lemma mkdirp_failure_stops_the_materializer_witness :
  fs_mkdirp Samples.fooHost (fs CommandSamples.blockedRootWorld)
    (VStr "/pkgs/javascript/foo@v1.2.3") =
    (Throw (MemHost.fs_error "EEXIST" "file already exists, mkdir" "/pkgs"),
     fs CommandSamples.blockedRootWorld) /\
  createAndPackage Samples.fooHost (VStr "/pkgs/javascript/foo@v1.2.3")
    (VStr "/ws/contract") CommandSamples.blockedRootWorld =
    (Throw (newError
              (MemHost.fs_error "EEXIST" "file already exists, mkdir"
                 "/pkgs")),
     {| fs := fs CommandSamples.blockedRootWorld;
        events :=
          [Mkdirp (VStr "/pkgs/javascript/foo@v1.2.3");
           ShowErrorMessage
             (MemHost.fs_error "EEXIST" "file already exists, mkdir"
                "/pkgs")] |}).
Proof.
  split; [reflexivity|].
  exact (proj1
    (mkdirp_failure_stops_the_materializer Samples.fooHost
       (VStr "/pkgs/javascript/foo@v1.2.3") (VStr "/ws/contract")
       (MemHost.fs_error "EEXIST" "file already exists, mkdir" "/pkgs")
       CommandSamples.blockedRootWorld
       (fs CommandSamples.blockedRootWorld) eq_refl)).
Defined.

(** [X8] When [copy] fails, the directories [mkdirp] made are not removed
    and whatever [copy] wrote stays: the file system is the one the
    failed [copy] left.  No success message is shown; the failure is
    shown and thrown, and the command shows it once more and does not
    refresh the package explorer. *)
Theorem copy_failure_is_not_rolled_back {FS} (host : Host FS)
    (dir workspaceDir e : value) (w : World FS) (fs1 fs2 : FS) :
  fs_mkdirp host (fs w) dir = (Ok tt, fs1) ->
  fs_copy host fs1 workspaceDir dir = (Throw e, fs2) ->
  createAndPackage host dir workspaceDir w =
    (Throw (newError e),
     {| fs := fs2;
        events := events w ++
          [Mkdirp dir; Copy workspaceDir dir; ShowErrorMessage e] |})
  /\ (forall (v w0 : World FS) (packageDir : value),
        getBasePackageDir host
          (getConfiguration host "fabric.package.directory") v
          = (Ok packageDir, v) ->
        chooseWorkspace host v = (Ok workspaceDir, w0) ->
        getFinalDirectory host packageDir workspaceDir w0 = (Ok dir, w) ->
        packageSmartContract host v =
          (Ok tt,
           {| fs := fs2;
              events := events w ++
                [Mkdirp dir; Copy workspaceDir dir; ShowErrorMessage e;
                 ShowErrorMessage (newError e)] |})).
Proof.
  intros Hmk Hcp.
  assert (Hrun : createAndPackage host dir workspaceDir w =
    (Throw (newError e),
     {| fs := fs2;
        events := events w ++
          [Mkdirp dir; Copy workspaceDir dir; ShowErrorMessage e] |})).
  { unfold createAndPackage. unfold_cmd. rewrite Hmk. simpl.
    rewrite Hcp. simpl. by rewrite <- !app_assoc. }
  split; [exact Hrun|].
  intros v w0 packageDir Hbase Hws Hplan.
  unfold packageSmartContract, try_catch, bind at 1. rewrite Hbase.
  unfold createPackageDir, bind at 1 2 3. rewrite Hws.
  unfold bind at 1. rewrite Hplan, Hrun.
  unfold showErrorMessage, emit. simpl. by rewrite <- app_assoc.
Qed.

(** The workspace folder is gone: the empty package directory stays. *)
Lemma copy_failure_is_not_rolled_back_witness :
  fs_mkdirp Samples.fooHost (fs Samples.javascriptWorld)
    (VStr "/pkgs/javascript/foo@v1.2.3") = (Ok tt, Samples.chainTree) /\
  fs_copy Samples.fooHost Samples.chainTree (VStr "/ws/gone")
    (VStr "/pkgs/javascript/foo@v1.2.3") =
    (Throw (MemHost.fs_error "ENOENT" "no such file or directory, lstat"
              "/ws/gone"), Samples.chainTree) /\
  createAndPackage Samples.fooHost (VStr "/pkgs/javascript/foo@v1.2.3")
    (VStr "/ws/gone") Samples.javascriptWorld =
    (Throw (newError
              (MemHost.fs_error "ENOENT" "no such file or directory, lstat"
                 "/ws/gone")),
     {| fs := Samples.chainTree;
        events :=
          [Mkdirp (VStr "/pkgs/javascript/foo@v1.2.3");
           Copy (VStr "/ws/gone") (VStr "/pkgs/javascript/foo@v1.2.3");
           ShowErrorMessage
             (MemHost.fs_error "ENOENT" "no such file or directory, lstat"
                "/ws/gone")] |}).
Proof.
  do 2 (split; [reflexivity|]).
  exact (proj1
    (copy_failure_is_not_rolled_back Samples.fooHost
       (VStr "/pkgs/javascript/foo@v1.2.3") (VStr "/ws/gone")
       (MemHost.fs_error "ENOENT" "no such file or directory, lstat"
          "/ws/gone")
       Samples.javascriptWorld Samples.chainTree Samples.chainTree
       eq_refl eq_refl)).
Defined.

(** ** What the planner and the resolvers return *)

Section ResolverFacts.

Context {FS : Type} (host : Host FS).

Lemma packageJsonNameAndVersion_ok workspaceDir properties (w w' : World FS) :
  packageJsonNameAndVersion host workspaceDir w = (Ok properties, w') ->
  w' = w.
Proof.
  unfold packageJsonNameAndVersion. unfold_cmd.
  destruct (path_join host _) as [manifestPath|]; [|discriminate].
  destruct (fs_readFile host (fs w) manifestPath) as [contents|];
    [|discriminate].
  destruct (JSON_parse host contents) as [obj|]; [|discriminate].
  destruct (getProp obj "name") as [name|]; [|discriminate].
  destruct (getProp obj "version") as [version|]; [|discriminate].
  destruct (negb (truthy name) || negb (truthy version)); [discriminate|].
  by intros [= _ <-].
Qed.

(** What the interactive resolver returns, and on which answers. *)
Lemma golangPackageAndVersion_ok properties (w w' : World FS) :
  golangPackageAndVersion host w = (Ok properties, w') ->
  w' = w /\
  exists name,
    showInputBox host namePrompt = Ok name /\
    ((truthy name = false /\ properties = VUndefined) \/
     exists version,
       showInputBox host versionPrompt = Ok version /\
       truthy name = true /\
       ((truthy version = true /\ properties = VUndefined) \/
        (truthy version = false /\ version <> VStr EmptyString /\
         properties = VObj [("workspacePackageName", name);
                            ("workspacePackageVersion", version)]))).
Proof.
  unfold golangPackageAndVersion, namePrompt, versionPrompt. unfold_cmd.
  destruct (showInputBox host "Enter a name for your go package")
    as [name|]; [|discriminate].
  destruct (truthy name) eqn:Hname; simpl.
  2:{ intros [= <- <-]. split; [done|]. exists name. split; [done|].
      by left. }
  destruct (showInputBox host "Enter a version for your go package")
    as [version|]; [|discriminate].
  destruct (truthy version) eqn:Hversion.
  { intros [= <- <-]. split; [done|]. exists name. split; [done|].
    right. exists version. split; [done|]. split; [done|]. by left. }
  destruct (strict_eq_str name "" || strict_eq_str version "") eqn:Hempty;
    [discriminate|].
  intros [= <- <-]. split; [done|]. exists name. split; [done|].
  right. exists version. split; [done|]. split; [done|]. right.
  split; [done|]. split; [|done].
  intros ->. simpl in Hempty. by rewrite orb_true_r in Hempty.
Qed.

End ResolverFacts.

(** [X9] A plan is made silently and only for a free place.  When the
    planner returns, it has shown nothing and changed nothing, and it
    returns either a path at which the probe failed with code [ENOENT],
    or [undefined], after a probe that found something other than a
    directory. *)
Theorem planned_destination_was_absent {FS} (host : Host FS)
    (packageDir workspaceDir result : value) (w w' : World FS) :
  getFinalDirectory host packageDir workspaceDir w = (Ok result, w') ->
  w' = w /\
  ((exists dir e,
      result = VStr dir /\
      fs_stat host (fs w) dir = Throw e /\
      getProp e "code" = Ok (VStr "ENOENT")) \/
   (exists dir,
      result = VUndefined /\
      fs_stat host (fs w) dir = Ok {| isDirectory := false |})).
Proof.
  unfold getFinalDirectory. unfold bind at 1.
  destruct (getLanguage host workspaceDir w) as [[language|] w0] eqn:Hl;
    [|discriminate].
  destruct (getLanguage_ok host _ _ _ _ Hl) as [-> _].
  destruct (negb (truthy language)).
  { unfold_cmd. discriminate. }
  unfold bind at 1.
  destruct ((if strict_eq_str language "/go/src/"
             then golangPackageAndVersion host
             else packageJsonNameAndVersion host workspaceDir) w)
    as [[properties|] w1] eqn:Hm; [|discriminate].
  assert (w1 = w) as ->.
  { destruct (strict_eq_str language "/go/src/").
    - by destruct (golangPackageAndVersion_ok host _ _ _ Hm).
    - by eapply packageJsonNameAndVersion_ok. }
  unfold_cmd.
  destruct (getProp properties "workspacePackageName"); [|discriminate].
  destruct (getProp properties "workspacePackageVersion"); [|discriminate].
  destruct (path_join host _) as [dir|]; [|discriminate].
  destruct (fs_stat host (fs w) dir) as [[[]]|e] eqn:Hstat; simpl.
  - discriminate.
  - intros [= <- <-]. split; [done|]. right. by exists dir.
  - destruct (getProp e "code") as [code|] eqn:Hcode; [|discriminate].
    destruct (strict_eq_str code "ENOENT") eqn:Hno; [|discriminate].
    intros [= <- <-]. split; [done|]. left. exists dir, e.
    split; [done|]. split; [done|].
    destruct code; try discriminate. simpl in Hno.
    by apply String.eqb_eq in Hno as ->.
Qed.

Lemma planned_destination_was_absent_witness :
  getFinalDirectory Samples.fooHost (VStr "/pkgs") (VStr "/ws/contract")
    Samples.javascriptWorld
    = (Ok (VStr "/pkgs/javascript/foo@v1.2.3"), Samples.javascriptWorld) /\
  ((exists dir e,
      VStr "/pkgs/javascript/foo@v1.2.3" = VStr dir /\
      fs_stat Samples.fooHost (fs Samples.javascriptWorld) dir = Throw e /\
      getProp e "code" = Ok (VStr "ENOENT")) \/
   (exists dir,
      VStr "/pkgs/javascript/foo@v1.2.3" = VUndefined /\
      fs_stat Samples.fooHost (fs Samples.javascriptWorld) dir
        = Ok {| isDirectory := false |})).
Proof.
  split; [reflexivity|].
  exact (proj2
    (planned_destination_was_absent Samples.fooHost (VStr "/pkgs")
       (VStr "/ws/contract") (VStr "/pkgs/javascript/foo@v1.2.3")
       Samples.javascriptWorld Samples.javascriptWorld eq_refl)).
Defined.

(** [X10] The interactive resolver never returns a version the user
    typed.  When it returns metadata, the name is the non-empty answer to
    the first prompt and the version is the answer to the second, which
    is then falsy and not the empty string: a cancelled prompt.  On every
    other answer it returns [undefined] or throws.  It shows nothing when
    it returns. *)
Theorem go_metadata_never_has_a_typed_version {FS} (host : Host FS)
    (properties : value) (w w' : World FS) :
  golangPackageAndVersion host w = (Ok properties, w') ->
  w' = w /\
  (properties = VUndefined \/
   exists name version,
     properties = VObj [("workspacePackageName", name);
                        ("workspacePackageVersion", version)] /\
     showInputBox host "Enter a name for your go package" = Ok name /\
     showInputBox host "Enter a version for your go package" = Ok version /\
     truthy name = true /\
     truthy version = false /\
     (forall typed, version <> VStr typed)).
Proof.
  intros Hrun.
  destruct (golangPackageAndVersion_ok host _ _ _ Hrun)
    as (-> & name & Hname & Hcases).
  split; [done|].
  destruct Hcases as [[_ ->]|(version & Hversion & Ht & Hcases)]; [by left|].
  destruct Hcases as [[_ ->]|(Hfalsy & Hne & ->)]; [by left|].
  right. exists name, version. repeat split; try done.
  intros typed ->. simpl in Hfalsy.
  destruct (String.eqb_spec typed ""); [by subst|discriminate].
Qed.

Lemma go_metadata_never_has_a_typed_version_witness :
  golangPackageAndVersion (Samples.goHost (VStr "mycc") VUndefined)
    Samples.goWorld
    = (Ok (VObj [("workspacePackageName", VStr "mycc");
                 ("workspacePackageVersion", VUndefined)]),
       Samples.goWorld) /\
  (VObj [("workspacePackageName", VStr "mycc");
         ("workspacePackageVersion", VUndefined)] = VUndefined \/
   exists name version,
     VObj [("workspacePackageName", VStr "mycc");
           ("workspacePackageVersion", VUndefined)]
       = VObj [("workspacePackageName", name);
               ("workspacePackageVersion", version)] /\
     showInputBox (Samples.goHost (VStr "mycc") VUndefined)
       "Enter a name for your go package" = Ok name /\
     showInputBox (Samples.goHost (VStr "mycc") VUndefined)
       "Enter a version for your go package" = Ok version /\
     truthy name = true /\
     truthy version = false /\
     (forall typed, version <> VStr typed)).
Proof.
  split; [reflexivity|].
  exact (proj2
    (go_metadata_never_has_a_typed_version
       (Samples.goHost (VStr "mycc") VUndefined) _
       Samples.goWorld Samples.goWorld eq_refl)).
Defined.

(** [X11] A Go project for which the user types both a name and a version
    is not packaged: the resolver takes the typed version for a cancelled
    prompt and returns [undefined], the planner throws the [TypeError] of
    reading the name from it, and the command shows that error.  Nothing
    is written. *)
Theorem go_project_with_typed_version_is_not_packaged {FS} (host : Host FS)
    (packageDir workspaceDir name version : value) (w w0 : World FS) :
  chooseWorkspace host w = (Ok workspaceDir, w0) ->
  getLanguage host workspaceDir w0 = (Ok (VStr "/go/src/"), w0) ->
  showInputBox host "Enter a name for your go package" = Ok name ->
  truthy name = true ->
  showInputBox host "Enter a version for your go package" = Ok version ->
  truthy version = true ->
  createPackageDir host packageDir w =
    (Throw noPropertiesError,
     {| fs := fs w; events := events w ++ [Log gettingFoldersMessage] |})
  /\ (getBasePackageDir host
        (getConfiguration host "fabric.package.directory") w
        = (Ok packageDir, w) ->
      packageSmartContract host w =
        (Ok tt,
         {| fs := fs w;
            events := events w ++ [Log gettingFoldersMessage;
                                   ShowErrorMessage noPropertiesError] |})).
Proof.
  intros Hws Hl Hn Htn Hv Htv.
  pose proof (chooseWorkspace_ok host _ _ _ Hws) as ->.
  pose proof (golang_truthy_version host packageDir _ _ _ _
                Hl Hn Htn Hv Htv) as Hplan.
  assert (Hrun : createPackageDir host packageDir w =
    (Throw noPropertiesError,
     {| fs := fs w; events := events w ++ [Log gettingFoldersMessage] |})).
  { unfold createPackageDir, bind at 1. rewrite Hws.
    unfold bind at 1. by rewrite Hplan. }
  split; [exact Hrun|].
  intros Hbase. unfold packageSmartContract, try_catch, bind at 1.
  rewrite Hbase. unfold bind at 1. rewrite Hrun.
  unfold showErrorMessage, emit. simpl. by rewrite <- app_assoc.
Qed.

Lemma go_project_with_typed_version_is_not_packaged_witness :
  chooseWorkspace (Samples.goHost (VStr "mycc") (VStr "0.0.1")) Samples.goWorld
    = (Ok (VStr "/ws/contract"),
       after Samples.goWorld [Log gettingFoldersMessage]) /\
  getLanguage (Samples.goHost (VStr "mycc") (VStr "0.0.1"))
    (VStr "/ws/contract") (after Samples.goWorld [Log gettingFoldersMessage])
    = (Ok (VStr "/go/src/"),
       after Samples.goWorld [Log gettingFoldersMessage]) /\
  showInputBox (Samples.goHost (VStr "mycc") (VStr "0.0.1"))
    "Enter a name for your go package" = Ok (VStr "mycc") /\
  showInputBox (Samples.goHost (VStr "mycc") (VStr "0.0.1"))
    "Enter a version for your go package" = Ok (VStr "0.0.1") /\
  createPackageDir (Samples.goHost (VStr "mycc") (VStr "0.0.1"))
    (VStr "/pkgs") Samples.goWorld =
    (Throw noPropertiesError,
     {| fs := fs Samples.goWorld; events := [Log gettingFoldersMessage] |}).
Proof.
  do 4 (split; [reflexivity|]).
  exact (proj1
    (go_project_with_typed_version_is_not_packaged
       (Samples.goHost (VStr "mycc") (VStr "0.0.1")) (VStr "/pkgs")
       (VStr "/ws/contract") (VStr "mycc") (VStr "0.0.1") Samples.goWorld
       (after Samples.goWorld [Log gettingFoldersMessage])
       eq_refl eq_refl eq_refl eq_refl eq_refl eq_refl)).
Defined.

(** [X12] A manifest that cannot be read or cannot be parsed: the resolver
    shows nothing of its own and throws the failure on as it is; the
    pipeline stops there, with nothing written, and the command shows the
    failure. *)
Theorem unreadable_manifest_is_thrown_on {FS} (host : Host FS)
    (packageDir workspaceDir language e : value) (w w0 : World FS)
    (manifestPath : string) :
  chooseWorkspace host w = (Ok workspaceDir, w0) ->
  getLanguage host workspaceDir w0 = (Ok language, w0) ->
  language = VStr "/javascript/" \/ language = VStr "/typescript/" ->
  path_join host [workspaceDir; VStr "/package.json"] = Ok manifestPath ->
  fs_readFile host (fs w) manifestPath = Throw e \/
  (exists contents,
     fs_readFile host (fs w) manifestPath = Ok contents /\
     JSON_parse host contents = Throw e) ->
  createPackageDir host packageDir w =
    (Throw e,
     {| fs := fs w; events := events w ++ [Log gettingFoldersMessage] |})
  /\ (getBasePackageDir host
        (getConfiguration host "fabric.package.directory") w
        = (Ok packageDir, w) ->
      packageSmartContract host w =
        (Ok tt,
         {| fs := fs w;
            events := events w ++ [Log gettingFoldersMessage;
                                   ShowErrorMessage e] |})).
Proof.
  intros Hws Hl Hjsts Hjoin Hfail.
  pose proof (chooseWorkspace_ok host _ _ _ Hws) as ->.
  assert (Hmeta :
    packageJsonNameAndVersion host workspaceDir
      (after w [Log gettingFoldersMessage]) =
    (Throw e, after w [Log gettingFoldersMessage])).
  { unfold packageJsonNameAndVersion. unfold_cmd. rewrite Hjoin. simpl.
    destruct Hfail as [Hread|(contents & Hread & Hparse)].
    - by rewrite Hread.
    - by rewrite Hread, Hparse. }
  assert (Hrun : createPackageDir host packageDir w =
    (Throw e,
     {| fs := fs w; events := events w ++ [Log gettingFoldersMessage] |})).
  { unfold createPackageDir, getFinalDirectory, bind at 1 2 3.
    rewrite Hws. unfold bind at 1. rewrite Hl.
    assert (Hgo : strict_eq_str language "/go/src/" = false)
      by (destruct Hjsts as [-> | ->]; reflexivity).
    assert (Ht : truthy language = true)
      by (destruct Hjsts as [-> | ->]; reflexivity).
    rewrite Ht, Hgo. cbn [negb]. cbn beta iota. unfold bind at 1.
    by rewrite Hmeta. }
  split; [exact Hrun|].
  intros Hbase. unfold packageSmartContract, try_catch, bind at 1.
  rewrite Hbase. unfold bind at 1. rewrite Hrun.
  unfold showErrorMessage, emit. simpl. by rewrite <- app_assoc.
Qed.

(** An empty [package.json]. *)
Lemma unreadable_manifest_is_thrown_on_witness :
  chooseWorkspace CommandSamples.emptyManifestHost Samples.javascriptWorld
    = (Ok (VStr "/ws/contract"),
       after Samples.javascriptWorld [Log gettingFoldersMessage]) /\
  getLanguage CommandSamples.emptyManifestHost (VStr "/ws/contract")
    (after Samples.javascriptWorld [Log gettingFoldersMessage])
    = (Ok (VStr "/javascript/"),
       after Samples.javascriptWorld [Log gettingFoldersMessage]) /\
  path_join CommandSamples.emptyManifestHost
    [VStr "/ws/contract"; VStr "/package.json"]
    = Ok "/ws/contract/package.json" /\
  fs_readFile CommandSamples.emptyManifestHost (fs Samples.javascriptWorld)
    "/ws/contract/package.json" = Ok "foo 1.2.3" /\
  JSON_parse CommandSamples.emptyManifestHost "foo 1.2.3"
    = Throw (VError "SyntaxError" "Unexpected end of JSON input" None) /\
  packageSmartContract CommandSamples.emptyManifestHost
    Samples.javascriptWorld =
    (Ok tt,
     {| fs := fs Samples.javascriptWorld;
        events :=
          [Log gettingFoldersMessage;
           ShowErrorMessage
             (VError "SyntaxError" "Unexpected end of JSON input" None)] |}).
Proof.
  do 5 (split; [reflexivity|]).
  exact (proj2
    (unreadable_manifest_is_thrown_on CommandSamples.emptyManifestHost
       (VStr "/pkgs") (VStr "/ws/contract") (VStr "/javascript/")
       (VError "SyntaxError" "Unexpected end of JSON input" None)
       Samples.javascriptWorld
       (after Samples.javascriptWorld [Log gettingFoldersMessage])
       "/ws/contract/package.json" eq_refl eq_refl (or_introl eq_refl)
       eq_refl
       (or_intror (ex_intro _ "foo 1.2.3" (conj eq_refl eq_refl))))
    eq_refl).
Defined.

(** ** Development-mode toggle, further *)

Section ToggleFacts.

Context {R : Type} `{FabricRuntimeOps R}.
Variable showRuntimeQuickPickBox : string -> Result value.

(** The command, once the runtime is found. *)
Lemma toggle_resolved (runtimeTreeItem : option RuntimeTreeItem)
    (st : Runtimes R) (runtimeName : string) (runtime : R) :
  toggledName showRuntimeQuickPickBox runtimeTreeItem
    = Ok (VStr runtimeName) ->
  runtimes st !! runtimeName = Some runtime ->
  toggleFabricRuntimeDevMode showRuntimeQuickPickBox runtimeTreeItem st =
    let mode := negb (isDevelopmentMode runtime) in
    let '(set, runtime1) := setDevelopmentMode mode runtime in
    let set_calls := calls st ++ [SetDevelopmentMode runtimeName mode] in
    match set with
    | Throw e =>
        (Throw e, {| runtimes := <[runtimeName := runtime1]> (runtimes st);
                     calls := set_calls |})
    | Ok _ =>
        match isRunning runtime1 with
        | Ok true =>
            ((restart runtime1).1,
             {| runtimes :=
                  <[runtimeName := (restart runtime1).2]> (runtimes st);
                calls := set_calls ++
                  [IsRunning runtimeName;
                   ReportProgress
                     ("Restarting Fabric runtime " +:+ runtimeName);
                   Restart runtimeName] |})
        | Ok false =>
            (Ok tt, {| runtimes := <[runtimeName := runtime1]> (runtimes st);
                       calls := set_calls ++ [IsRunning runtimeName] |})
        | Throw e =>
            (Throw e,
             {| runtimes := <[runtimeName := runtime1]> (runtimes st);
                calls := set_calls ++ [IsRunning runtimeName] |})
        end
    end.
Proof.
  intros Hname Hget.
  assert (Hpick :
    match runtimeTreeItem with
    | Some item => ret (S := Runtimes R) (VStr (getName item))
    | None => await (showRuntimeQuickPickBox toggleDevModePrompt)
    end st = (Ok (VStr runtimeName), st)).
  { unfold toggledName in Hname. destruct runtimeTreeItem as [item|].
    - injection Hname as <-. reflexivity.
    - unfold await. by rewrite Hname. }
  unfold toggleFabricRuntimeDevMode, toggleDevModePrompt in *.
  unfold bind at 1. rewrite Hpick.
  unfold bind at 1, runtimeManager_get. rewrite Hget.
  unfold bind at 1, read_runtime. simpl. rewrite Hget.
  unfold bind at 1, call_runtime at 1. simpl. rewrite Hget. simpl.
  destruct (setDevelopmentMode (negb (isDevelopmentMode runtime)) runtime)
    as [[[]|e] runtime1]; [|done].
  unfold bind at 1, call_runtime at 1. simpl.
  rewrite lookup_insert_eq. simpl. rewrite insert_insert_eq.
  destruct (isRunning runtime1) as [[|]|e]; simpl.
  - unfold bind, report, call_runtime. simpl.
    rewrite lookup_insert_eq. simpl.
    destruct (restart runtime1) as [res runtime2]. simpl.
    rewrite insert_insert_eq, <- !app_assoc. reflexivity.
  - reflexivity.
  - reflexivity.
Qed.

(** The command, when there is no runtime to toggle. *)
Lemma toggle_unresolved (runtimeTreeItem : option RuntimeTreeItem)
    (st : Runtimes R) :
  match toggledName showRuntimeQuickPickBox runtimeTreeItem with
  | Ok (VStr runtimeName) => runtimes st !! runtimeName = None
  | _ => True
  end ->
  toggleFabricRuntimeDevMode showRuntimeQuickPickBox runtimeTreeItem st =
    (match toggledName showRuntimeQuickPickBox runtimeTreeItem with
     | Ok _ => Throw noRuntimeError
     | Throw e => Throw e
     end, st).
Proof.
  intros Hnone.
  unfold toggleFabricRuntimeDevMode, toggledName, toggleDevModePrompt in *.
  destruct runtimeTreeItem as [item|]; simpl in *.
  - unfold bind, ret, runtimeManager_get, read_runtime. simpl.
    by rewrite Hnone.
  - unfold bind, await, runtimeManager_get, read_runtime. simpl.
    destruct (showRuntimeQuickPickBox _) as [picked|e]; [|done].
    destruct picked; try reflexivity. by rewrite Hnone.
Qed.

End ToggleFacts.

(** [X13] With no runtime to toggle, because the quick pick was cancelled
    or because no runtime is registered under the name, the command throws
    the [TypeError] of calling a method of [undefined]; a rejected quick
    pick is thrown on.  No call is made on any runtime and the registry
    is left as it was. *)
Theorem toggle_without_runtime_calls_nothing
    {R : Type} `{FabricRuntimeOps R}
    (showRuntimeQuickPickBox : string -> Result value)
    (runtimeTreeItem : option RuntimeTreeItem) (st : Runtimes R) :
  match toggledName showRuntimeQuickPickBox runtimeTreeItem with
  | Ok (VStr runtimeName) => runtimes st !! runtimeName = None
  | _ => True
  end ->
  exists e,
    toggleFabricRuntimeDevMode showRuntimeQuickPickBox runtimeTreeItem st
      = (Throw e, st)
    /\ (forall picked,
          toggledName showRuntimeQuickPickBox runtimeTreeItem = Ok picked ->
          e = TypeError
                "Cannot read property 'isDevelopmentMode' of undefined")
    /\ (forall rejection,
          toggledName showRuntimeQuickPickBox runtimeTreeItem
            = Throw rejection ->
          e = rejection).
Proof.
  intros Hnone.
  rewrite (toggle_unresolved showRuntimeQuickPickBox _ _ Hnone).
  destruct (toggledName showRuntimeQuickPickBox runtimeTreeItem)
    as [picked|rejection]; eexists; (split; [reflexivity|]);
    split; intros ? Heq;
    (discriminate Heq || (injection Heq as Heq; by subst)).
Qed.

(** The quick pick is cancelled. *)
Lemma toggle_without_runtime_calls_nothing_witness :
  toggledName (fun _ => Ok VUndefined) None = Ok VUndefined /\
  exists e,
    toggleFabricRuntimeDevMode (fun _ => Ok VUndefined) None
      (localFabric true) = (Throw e, localFabric true)
    /\ (forall picked,
          toggledName (fun _ => Ok VUndefined) None = Ok picked ->
          e = TypeError
                "Cannot read property 'isDevelopmentMode' of undefined")
    /\ (forall rejection,
          toggledName (fun _ => Ok VUndefined) None = Throw rejection ->
          e = rejection).
Proof.
  split; [reflexivity|].
  exact (toggle_without_runtime_calls_nothing (fun _ => Ok VUndefined) None
           (localFabric true) I).
Defined.

(** [X14] When setting the flag fails, the command stops there: it does
    not ask whether the runtime is running and restarts nothing.  The
    failure is thrown on, and the runtime stays as the failed call left
    it. *)
Theorem toggle_stops_when_the_flag_cannot_be_set
    {R : Type} `{FabricRuntimeOps R}
    (showRuntimeQuickPickBox : string -> Result value)
    (runtimeTreeItem : option RuntimeTreeItem) (st : Runtimes R)
    (runtimeName : string) (runtime runtime1 : R) (e : value) :
  toggledName showRuntimeQuickPickBox runtimeTreeItem
    = Ok (VStr runtimeName) ->
  runtimes st !! runtimeName = Some runtime ->
  setDevelopmentMode (negb (isDevelopmentMode runtime)) runtime
    = (Throw e, runtime1) ->
  toggleFabricRuntimeDevMode showRuntimeQuickPickBox runtimeTreeItem st =
    (Throw e,
     {| runtimes := <[runtimeName := runtime1]> (runtimes st);
        calls := calls st ++
          [SetDevelopmentMode runtimeName
             (negb (isDevelopmentMode runtime))] |}).
Proof.
  intros Hname Hget Hset.
  rewrite (toggle_resolved showRuntimeQuickPickBox _ _ _ _ Hname Hget).
  cbv zeta. by rewrite Hset.
Qed.

Lemma toggle_stops_when_the_flag_cannot_be_set_witness :
  toggledName (fun _ => Ok VUndefined) (Some {| getName := "local_fabric" |})
    = Ok (VStr "local_fabric") /\
  runtimes frozenFabric !! "local_fabric" = Some {| frozenMode := false |} /\
  toggleFabricRuntimeDevMode (fun _ => Ok VUndefined)
    (Some {| getName := "local_fabric" |}) frozenFabric =
    (Throw settingsError,
     {| runtimes :=
          <["local_fabric" := {| frozenMode := false |}]>
            (runtimes frozenFabric);
        calls := [SetDevelopmentMode "local_fabric" true] |}).
Proof.
  do 2 (split; [reflexivity|]).
  exact (toggle_stops_when_the_flag_cannot_be_set (fun _ => Ok VUndefined)
           (Some {| getName := "local_fabric" |}) frozenFabric
           "local_fabric" {| frozenMode := false |} {| frozenMode := false |}
           settingsError eq_refl eq_refl eq_refl).
Defined.

(** [X15] The command touches one runtime at most.  However it ends, the
    registry holds the same names as before, every runtime other than the
    one named by the tree item or the quick pick is as it was, and the
    log of calls is only added to. *)
Theorem toggle_touches_one_runtime {R : Type} `{FabricRuntimeOps R}
    (showRuntimeQuickPickBox : string -> Result value)
    (runtimeTreeItem : option RuntimeTreeItem) (st st' : Runtimes R)
    (r : Result unit) :
  toggleFabricRuntimeDevMode showRuntimeQuickPickBox runtimeTreeItem st
    = (r, st') ->
  dom (runtimes st') = dom (runtimes st)
  /\ (forall other,
        toggledName showRuntimeQuickPickBox runtimeTreeItem
          <> Ok (VStr other) ->
        runtimes st' !! other = runtimes st !! other)
  /\ exists added, calls st' = calls st ++ added.
Proof.
  intros Hrun.
  assert (Hunresolved :
    match toggledName showRuntimeQuickPickBox runtimeTreeItem with
    | Ok (VStr runtimeName) => runtimes st !! runtimeName = None
    | _ => True
    end -> st' = st).
  { intros Hnone.
    rewrite (toggle_unresolved showRuntimeQuickPickBox _ _ Hnone) in Hrun.
    by injection Hrun as _ <-. }
  assert (Hsame : st' = st ->
    dom (runtimes st') = dom (runtimes st)
    /\ (forall other,
          toggledName showRuntimeQuickPickBox runtimeTreeItem
            <> Ok (VStr other) ->
          runtimes st' !! other = runtimes st !! other)
    /\ exists added, calls st' = calls st ++ added).
  { intros ->. split; [done|]. split; [done|].
    exists []. by rewrite app_nil_r. }
  destruct (toggledName showRuntimeQuickPickBox runtimeTreeItem)
    as [[| | | |runtimeName| | |]|e] eqn:Hname;
    try (apply Hsame, Hunresolved; exact I).
  destruct (runtimes st !! runtimeName) as [runtime|] eqn:Hget;
    [|by apply Hsame, Hunresolved].
  rewrite (toggle_resolved showRuntimeQuickPickBox _ _ _ _ Hname Hget)
    in Hrun.
  cbv zeta in Hrun.
  assert (Hinsert : forall s x added,
    s = {| runtimes := <[runtimeName := x]> (runtimes st);
           calls := calls st ++ added |} ->
    dom (runtimes s) = dom (runtimes st)
    /\ (forall other,
          Ok (VStr runtimeName) <> Ok (VStr other) ->
          runtimes s !! other = runtimes st !! other)
    /\ exists added, calls s = calls st ++ added).
  { intros s x added ->. simpl. split; [|split].
    - apply dom_insert_lookup_L. by rewrite Hget.
    - intros other Hne. apply lookup_insert_ne. congruence.
    - by exists added. }
  destruct (setDevelopmentMode _ runtime) as [[[]|e] runtime1].
  - destruct (isRunning runtime1) as [[|]|e];
      injection Hrun as _ <-; eapply Hinsert;
      rewrite <- ?app_assoc; reflexivity.
  - injection Hrun as _ <-. eapply Hinsert; reflexivity.
Qed.

(** Toggling [local_fabric] leaves [remote_fabric] alone. *)
Lemma toggle_touches_one_runtime_witness :
  toggleFabricRuntimeDevMode (fun _ => Ok (VStr "local_fabric")) None
    twoRuntimes =
    (Ok tt,
     {| runtimes :=
          <["local_fabric" :=
              {| developmentMode := true; running := true; restarts := 1 |}]>
            (runtimes twoRuntimes);
        calls := [SetDevelopmentMode "local_fabric" true;
                  IsRunning "local_fabric";
                  ReportProgress "Restarting Fabric runtime local_fabric";
                  Restart "local_fabric"] |}) /\
  (<["local_fabric" :=
       {| developmentMode := true; running := true; restarts := 1 |}]>
     (runtimes twoRuntimes)) !! "remote_fabric"
    = runtimes twoRuntimes !! "remote_fabric".
Proof.
  split; [reflexivity|].
  refine (proj1 (proj2
    (toggle_touches_one_runtime (fun _ => Ok (VStr "local_fabric")) None
       twoRuntimes _ (Ok tt) eq_refl)) "remote_fabric" _).
  discriminate.
Defined.

(** [X16] Toggling twice gives the flag back.  For a runtime that is not
    running, two runs of the command leave the development mode as it
    was before the first, having set it to its negation in between, and
    restart nothing. *)
Theorem toggling_twice_restores_the_flag {R : Type} `{FabricRuntimeLaws R}
    (showRuntimeQuickPickBox : string -> Result value)
    (runtimeTreeItem : option RuntimeTreeItem) (st : Runtimes R)
    (runtimeName : string) (runtime runtime1 runtime2 : R) :
  toggledName showRuntimeQuickPickBox runtimeTreeItem
    = Ok (VStr runtimeName) ->
  runtimes st !! runtimeName = Some runtime ->
  setDevelopmentMode (negb (isDevelopmentMode runtime)) runtime
    = (Ok tt, runtime1) ->
  isRunning runtime1 = Ok false ->
  setDevelopmentMode (negb (isDevelopmentMode runtime1)) runtime1
    = (Ok tt, runtime2) ->
  isRunning runtime2 = Ok false ->
  isDevelopmentMode runtime1 = negb (isDevelopmentMode runtime)
  /\ isDevelopmentMode runtime2 = isDevelopmentMode runtime
  /\ bind (toggleFabricRuntimeDevMode showRuntimeQuickPickBox runtimeTreeItem)
          (fun _ => toggleFabricRuntimeDevMode showRuntimeQuickPickBox
                      runtimeTreeItem) st =
     (Ok tt,
      {| runtimes := <[runtimeName := runtime2]> (runtimes st);
         calls := calls st ++
           [SetDevelopmentMode runtimeName (negb (isDevelopmentMode runtime));
            IsRunning runtimeName;
            SetDevelopmentMode runtimeName (isDevelopmentMode runtime);
            IsRunning runtimeName] |}).
Proof.
  intros Hname Hget Hset1 Hrun1 Hset2 Hrun2.
  pose proof (get_set_developmentMode _ _ _ Hset1) as Hflag1.
  pose proof (get_set_developmentMode _ _ _ Hset2) as Hflag2.
  split; [exact Hflag1|]. split.
  { by rewrite Hflag2, Hflag1, negb_involutive. }
  unfold bind.
  rewrite (toggle_resolved showRuntimeQuickPickBox _ _ _ _ Hname Hget).
  cbv zeta. rewrite Hset1, Hrun1.
  rewrite (toggle_resolved showRuntimeQuickPickBox _ _ runtimeName runtime1
             Hname) by (simpl; apply lookup_insert_eq).
  cbv zeta. simpl. rewrite Hset2, Hrun2. rewrite insert_insert_eq.
  rewrite Hflag1, negb_involutive, <- !app_assoc. reflexivity.
Qed.

Lemma toggling_twice_restores_the_flag_witness :
  runtimes (localFabric false) !! "local_fabric" =
    Some {| developmentMode := false; running := false; restarts := 0 |} /\
  bind (toggleFabricRuntimeDevMode (fun _ => Ok VUndefined)
          (Some {| getName := "local_fabric" |}))
       (fun _ => toggleFabricRuntimeDevMode (fun _ => Ok VUndefined)
                   (Some {| getName := "local_fabric" |}))
       (localFabric false) =
    (Ok tt,
     {| runtimes :=
          <["local_fabric" :=
              {| developmentMode := false; running := false;
                 restarts := 0 |}]> (runtimes (localFabric false));
        calls := [SetDevelopmentMode "local_fabric" true;
                  IsRunning "local_fabric";
                  SetDevelopmentMode "local_fabric" false;
                  IsRunning "local_fabric"] |}).
Proof.
  split; [reflexivity|].
  exact (proj2 (proj2
    (toggling_twice_restores_the_flag (fun _ => Ok VUndefined)
       (Some {| getName := "local_fabric" |}) (localFabric false)
       "local_fabric"
       {| developmentMode := false; running := false; restarts := 0 |}
       {| developmentMode := true; running := false; restarts := 0 |}
       {| developmentMode := false; running := false; restarts := 0 |}
       eq_refl eq_refl eq_refl eq_refl eq_refl eq_refl))).
Defined.

(** ** Package explorer *)

Ltac unfold_provider :=
  unfold getPackageDir, set_packageDir, get_packageDir,
    set_packageLanguageArray, get_packageLanguageArray, set_tree,
    console_log, on_world in *;
  unfold_cmd.

Section ExplorerFacts.

Context {FS : Type} (host : Host FS).
Variable fs_readdir : FS -> string -> Result (list string).

(** The first loop of [createPackageTree]: what it collects, what it
    shows, and that it leaves everything else alone. *)
Lemma listPackages_run (languages : list string) :
  forall (titles : list string) (st : Provider FS),
    Forall (listable host fs_readdir (fs (world st)) (packageDir st))
           languages ->
    exists st',
      listPackages host fs_readdir languages titles st =
        (Ok (titles ++
             concat (map (packagesOf host fs_readdir (fs (world st))
                            (packageDir st)) languages)), st')
      /\ world st' =
         after (world st)
           (concat (map (listingIssue host fs_readdir (fs (world st))
                           (packageDir st)) languages))
      /\ tree st' = tree st
      /\ packageLanguageArray st' = packageLanguageArray st
      /\ packageDir st' = packageDir st
      /\ changesFired st' = changesFired st.
Proof.
  induction languages as [|language rest IH]; intros titles st Hall.
  - exists st. simpl. rewrite app_nil_r.
    repeat split; try done. unfold after. simpl. rewrite app_nil_r.
    by destruct (world st).
  - apply Forall_cons in Hall as [Hlang Hrest].
    simpl listPackages. unfold bind at 1, console_log at 1.
    unfold listable, packagesOf, listingIssue, visible in *.
    simpl concat.
    destruct (String.prefix "." language) eqn:Hdot; simpl negb in *;
      cbn iota.
    { match goal with
      | |- context [listPackages _ _ rest titles ?s] =>
          destruct (IH titles s Hrest)
            as (st' & Hrun & Hw & Ht & Hl & Hd & Hc)
      end.
      exists st'. by rewrite Hrun. }
    destruct (Hlang eq_refl) as (sub & Hjoin & Hmessage).
    unfold bind at 1, get_packageDir at 1. cbn [packageDir].
    unfold bind at 1.
    replace ((if String.eqb language "go"
              then await (S := Provider FS)
                     (path_join host
                        [packageDir st; VStr language; VStr "/src"])
              else await (path_join host [packageDir st; VStr language])))
      with (await (S := Provider FS) (Ok sub)).
    2:{ unfold subDirectoryArguments in Hjoin.
        by destruct (String.eqb language "go"); rewrite Hjoin. }
    unfold await at 1. rewrite Hjoin.
    unfold bind at 1, try_catch at 1, bind at 1, on_world at 1, await_fs.
    cbn [world fs].
    destruct (fs_readdir (fs (world st)) sub) as [names|e] eqn:Hread.
    + unfold ret at 1. cbn iota beta.
      match goal with
      | |- context [listPackages _ _ rest _ ?s] =>
          destruct (IH (titles ++ names) s Hrest)
            as (st' & Hrun & Hw & Ht & Hl & Hd & Hc)
      end.
      exists st'. rewrite Hrun. simpl in *.
      rewrite <- app_assoc. repeat split; done.
    + destruct (Hmessage e eq_refl) as (message & Hmsg).
      cbn iota beta.
      unfold bind at 1, await at 1. rewrite Hmsg.
      unfold bind at 1, console_log at 1.
      unfold bind at 1, on_world at 1, showInformationMessage, emit.
      unfold ret at 1. cbn iota beta. cbn [world].
      match goal with
      | |- context [listPackages _ _ rest titles ?s] =>
          destruct (IH titles s Hrest)
            as (st' & Hrun & Hw & Ht & Hl & Hd & Hc)
      end.
      exists st'. rewrite Hrun. simpl in *.
      split; [done|]. split; [|done].
      rewrite Hw. unfold after. simpl. by rewrite <- app_assoc.
Qed.

End ExplorerFacts.

(** [X17] The explorer never shows a hidden package: whatever the tree
    builder returns, no item in it has a title that starts with a dot. *)
Theorem explorer_shows_no_hidden_package {FS} (host : Host FS)
    (fs_readdir : FS -> string -> Result (list string))
    (packageLanguageArrayArg : list string) (st st' : Provider FS)
    (items : list PackageTreeItem) :
  createPackageTree host fs_readdir packageLanguageArrayArg st
    = (Ok items, st') ->
  Forall (fun item => visible (packageTitle item) = true) items.
Proof.
  unfold createPackageTree. unfold_provider.
  destruct (listPackages host fs_readdir _ [] _) as [[titles|e] st1];
    [|discriminate].
  intros [= <- _]. apply Forall_forall. intros item Hin.
  apply list_elem_of_fmap in Hin as (title & -> & Hin).
  apply list_elem_of_filter in Hin as [Hvisible _].
  unfold visible. simpl. by rewrite Hvisible.
Qed.

Lemma explorer_shows_no_hidden_package_witness :
  (createPackageTree Samples.fooHost ExplorerSamples.readdir []
     ExplorerSamples.listedProvider).1 =
    Ok [{| packageTitle := "foo@v1.2.3" |};
        {| packageTitle := "mycc@vundefined" |}] /\
  Forall (fun item => visible (packageTitle item) = true)
    [{| packageTitle := "foo@v1.2.3" |};
     {| packageTitle := "mycc@vundefined" |}].
Proof.
  assert (Hresult :
    (createPackageTree Samples.fooHost ExplorerSamples.readdir []
       ExplorerSamples.listedProvider).1 =
    Ok [{| packageTitle := "foo@v1.2.3" |};
        {| packageTitle := "mycc@vundefined" |}])
    by (vm_compute; reflexivity).
  split; [exact Hresult|].
  destruct (createPackageTree Samples.fooHost ExplorerSamples.readdir []
              ExplorerSamples.listedProvider) as [result st'] eqn:Hrun.
  cbn [fst] in Hresult.
  rewrite Hresult in Hrun.
  exact (explorer_shows_no_hidden_package Samples.fooHost
           ExplorerSamples.readdir [] ExplorerSamples.listedProvider st' _
           Hrun).
Defined.

(** [X18] The tree is built from the provider's own list of language
    directories, whatever list it is handed.  Hidden directories are
    skipped, the packages of [go] are read from [go/src], and the titles
    come out in the order of the listings, hidden ones dropped.  A
    directory that cannot be listed contributes nothing and is reported in
    an information message; the others are listed all the same.  The
    builder changes no field of the provider and nothing on disk. *)
Theorem explorer_tree_follows_the_listings {FS} (host : Host FS)
    (fs_readdir : FS -> string -> Result (list string))
    (packageLanguageArrayArg : list string) (st : Provider FS) :
  Forall (listable host fs_readdir (fs (world st)) (packageDir st))
         (packageLanguageArray st) ->
  exists st',
    createPackageTree host fs_readdir packageLanguageArrayArg st =
      (Ok (treeOf host fs_readdir (fs (world st)) (packageDir st)
             (packageLanguageArray st)), st')
    /\ world st' =
       after (world st)
         (concat (map (listingIssue host fs_readdir (fs (world st))
                         (packageDir st)) (packageLanguageArray st)))
    /\ tree st' = tree st
    /\ packageLanguageArray st' = packageLanguageArray st
    /\ packageDir st' = packageDir st
    /\ changesFired st' = changesFired st.
Proof.
  intros Hall. unfold createPackageTree, treeOf.
  unfold bind at 1, console_log at 1.
  unfold bind at 1, get_packageLanguageArray at 1. cbn [packageLanguageArray].
  unfold bind at 1.
  match goal with
  | |- context [listPackages _ _ _ [] ?s] =>
      destruct (listPackages_run host fs_readdir (packageLanguageArray st)
                  [] s Hall) as (st' & Hrun & Hrest)
  end.
  exists st'. rewrite Hrun. simpl in *. split; [reflexivity|]. exact Hrest.
Qed.

Lemma explorer_tree_follows_the_listings_witness :
  Forall (listable Samples.fooHost ExplorerSamples.readdir
            ExplorerSamples.packagesTree (VStr "/pkgs"))
         [".DS_Store"; "javascript"; "typescript"; "go"] /\
  exists st',
    createPackageTree Samples.fooHost ExplorerSamples.readdir []
      ExplorerSamples.listedProvider =
      (Ok [{| packageTitle := "foo@v1.2.3" |};
           {| packageTitle := "mycc@vundefined" |}], st')
    /\ world st' =
       {| fs := ExplorerSamples.packagesTree;
          events :=
            [ShowInformationMessage
               (VStr "Issue listing smart contract packages in:/pkgs/typescript")]
       |}.
Proof.
  assert (Hall :
    Forall (listable Samples.fooHost ExplorerSamples.readdir
              ExplorerSamples.packagesTree (VStr "/pkgs"))
           [".DS_Store"; "javascript"; "typescript"; "go"]).
  { repeat constructor; intros Hvisible; try discriminate Hvisible;
      (eexists; split; [reflexivity|]); intros e He;
      first [discriminate He | injection He as <-; by eexists]. }
  split; [exact Hall|].
  destruct (explorer_tree_follows_the_listings Samples.fooHost
              ExplorerSamples.readdir [] ExplorerSamples.listedProvider Hall)
    as (st' & Hrun & Hworld & _).
  exists st'. split; [exact Hrun|exact Hworld].
Defined.

Section ChildrenFacts.

Context {FS : Type} (host : Host FS).
Variable fs_readdir : FS -> string -> Result (list string).

(** [getChildren] up to the listing of the package directory. *)
Lemma getChildren_begin (st : Provider FS) (configured dir : string) :
  getConfiguration host "fabric.package.directory" = VStr configured ->
  expandedDir host configured = Ok dir ->
  exists st0,
    getChildren host fs_readdir st =
      bind (readPackageDir host fs_readdir dir)
        (fun proceed : bool =>
           if proceed then
             bind get_packageLanguageArray (fun languages =>
             bind (createPackageTree host fs_readdir languages) (fun items =>
             bind (set_tree items) (fun _ => ret (Some items))))
           else ret None) st0
    /\ world st0 = world st /\ tree st0 = tree st
    /\ packageLanguageArray st0 = packageLanguageArray st
    /\ packageDir st0 = VStr dir.
Proof.
  intros Hconfigured Hexpanded.
  unfold getChildren, getPackageDir.
  unfold bind at 1, bind at 1, console_log at 1, ret at 1.
  rewrite Hconfigured.
  unfold bind at 1, set_packageDir at 1.
  unfold bind at 1, console_log at 1.
  unfold bind at 1, console_log at 1.
  unfold bind at 1. unfold expandPackageDir. unfold expandedDir in Hexpanded.
  cbn [world console tree packageLanguageArray packageDir changesFired].
  destruct (String.prefix "~" configured).
  - unfold bind at 1, await at 1. rewrite Hexpanded.
    unfold bind at 1, set_packageDir at 1, ret at 1.
    cbn [world console tree packageLanguageArray packageDir changesFired].
    eexists. split; [reflexivity|]. by repeat split.
  - injection Hexpanded as ->. unfold ret at 1.
    eexists. split; [reflexivity|]. by repeat split.
Qed.

Lemma createMissingDir_created (st : Provider FS) (dir : string) fs1 :
  fs_mkdirp host (fs (world st)) (VStr dir) = (Ok tt, fs1) ->
  exists st',
    createMissingDir host dir st = (Ok true, st')
    /\ world st' =
       {| fs := fs1; events := events (world st) ++ [Mkdirp (VStr dir)] |}
    /\ tree st' = tree st
    /\ packageLanguageArray st' = packageLanguageArray st
    /\ packageDir st' = packageDir st.
Proof.
  intros Hmk. unfold createMissingDir, try_catch, bind, console_log,
    on_world, mutate, ret.
  cbn [world console tree packageLanguageArray packageDir changesFired].
  rewrite Hmk. eexists. split; [reflexivity|]. by repeat split.
Qed.

Lemma createMissingDir_failed (st : Provider FS) (dir : string)
    e message fs1 :
  fs_mkdirp host (fs (world st)) (VStr dir) = (Throw e, fs1) ->
  getProp e "message" = Ok message ->
  exists st',
    createMissingDir host dir st = (Ok false, st')
    /\ world st' =
       {| fs := fs1;
          events := events (world st) ++
            [Mkdirp (VStr dir);
             ShowErrorMessage
               (VStr ("Issue creating smart contract package folder:"
                      +:+ dir))] |}
    /\ tree st' = tree st
    /\ packageLanguageArray st' = packageLanguageArray st
    /\ packageDir st' = packageDir st.
Proof.
  intros Hmk Hmessage.
  unfold createMissingDir, try_catch, showErrorMessage.
  unfold bind, console_log, on_world, mutate, emit, await, ret.
  cbn [world console tree packageLanguageArray packageDir changesFired].
  rewrite Hmk. cbn beta iota. rewrite Hmessage. cbn beta iota.
  cbn [world console tree packageLanguageArray packageDir changesFired
       fs events].
  eexists. split; [reflexivity|].
  cbn [world tree packageLanguageArray packageDir].
  rewrite <- app_assoc. by repeat split.
Qed.

(** The listing failed with [e]: what the [catch] block does. *)
Lemma readPackageDir_catch (st : Provider FS) (dir : string) e message
    (missing : bool) :
  fs_readdir (fs (world st)) dir = Throw e ->
  getProp e "message" = Ok message ->
  js_includes "error.message" message "no such file or directory"
    = Ok missing ->
  readPackageDir host fs_readdir dir st =
    if missing then
      bind (set_packageLanguageArray []) (fun _ => createMissingDir host dir)
        st
    else
      bind (console_log
              [LogText "Error reading smart contract package folder:";
               LogValue message])
        (fun _ =>
           bind (on_world (showErrorMessage
                   (VStr ("Issue reading smart contract package folder:"
                          +:+ dir))))
                (fun _ => ret false)) st.
Proof.
  intros Hread Hmessage Hmissing.
  unfold readPackageDir, try_catch.
  unfold bind at 1, on_world at 1, await_fs. rewrite Hread.
  assert (Hst : {| world := world st; console := console st;
                   tree := tree st;
                   packageLanguageArray := packageLanguageArray st;
                   packageDir := packageDir st;
                   changesFired := changesFired st |} = st)
    by (by destruct st).
  rewrite Hst.
  unfold bind at 1, await at 1. rewrite Hmessage.
  unfold bind at 1, await at 1. rewrite Hmissing.
  by destruct missing.
Qed.

Variables (st : Provider FS) (configured dir : string).

Hypothesis Hconfigured :
  getConfiguration host "fabric.package.directory" = VStr configured.
Hypothesis Hexpanded : expandedDir host configured = Ok dir.

(** [X19] A package directory that cannot be read, for another reason
    than being absent: [getChildren] reports it in an error message and
    returns [undefined].  It does not try to create the directory, and
    the provider keeps the tree and the language list it had. *)
Theorem explorer_reports_unreadable_directory e message :
  fs_readdir (fs (world st)) dir = Throw e ->
  getProp e "message" = Ok message ->
  js_includes "error.message" message "no such file or directory"
    = Ok false ->
  exists st',
    getChildren host fs_readdir st = (Ok None, st')
    /\ world st' =
       after (world st)
         [ShowErrorMessage
            (VStr ("Issue reading smart contract package folder:" +:+ dir))]
    /\ tree st' = tree st
    /\ packageLanguageArray st' = packageLanguageArray st
    /\ packageDir st' = VStr dir.
Proof.
  intros Hread Hmessage Hmissing.
  destruct (getChildren_begin st configured dir Hconfigured Hexpanded)
    as (st0 & -> & Hw & Ht & Hl & Hd).
  rewrite <- Hw in Hread. unfold bind at 1.
  rewrite (readPackageDir_catch st0 dir e message false
             Hread Hmessage Hmissing).
  unfold showErrorMessage.
  unfold bind, console_log, on_world, emit, ret.
  cbn [world console tree packageLanguageArray packageDir changesFired].
  eexists. split; [reflexivity|].
  cbn [world tree packageLanguageArray packageDir]. rewrite Hw.
  by repeat split.
Qed.

(** [X20] A package directory that does not exist yet is created: when
    the listing fails with a message that says [no such file or
    directory], [getChildren] calls [mkdirp] on the directory, shows
    nothing, and returns the empty tree, which it also stores. *)
Theorem explorer_creates_missing_directory e message fs1 :
  fs_readdir (fs (world st)) dir = Throw e ->
  getProp e "message" = Ok message ->
  js_includes "error.message" message "no such file or directory"
    = Ok true ->
  fs_mkdirp host (fs (world st)) (VStr dir) = (Ok tt, fs1) ->
  exists st',
    getChildren host fs_readdir st = (Ok (Some []), st')
    /\ world st' =
       {| fs := fs1; events := events (world st) ++ [Mkdirp (VStr dir)] |}
    /\ tree st' = []
    /\ packageLanguageArray st' = []
    /\ packageDir st' = VStr dir.
Proof.
  intros Hread Hmessage Hmissing Hmk.
  destruct (getChildren_begin st configured dir Hconfigured Hexpanded)
    as (st0 & -> & Hw & Ht & Hl & Hd).
  rewrite <- Hw in Hread, Hmk. unfold bind at 1.
  rewrite (readPackageDir_catch st0 dir e message true
             Hread Hmessage Hmissing).
  unfold bind at 1, set_packageLanguageArray at 1.
  match goal with
  | |- context [createMissingDir host dir ?s] =>
      destruct (createMissingDir_created s dir fs1 Hmk)
        as (st1 & Hrun & Hw1 & Ht1 & Hl1 & Hd1)
  end.
  cbn [world tree packageLanguageArray packageDir] in Hw1, Ht1, Hl1, Hd1.
  rewrite Hrun. cbn beta iota.
  unfold createPackageTree.
  unfold bind, console_log, get_packageLanguageArray, set_tree.
  cbn [world console tree packageLanguageArray packageDir changesFired].
  rewrite Hl1. cbn [listPackages]. unfold ret.
  eexists. split; [reflexivity|].
  cbn [world tree packageLanguageArray packageDir].
  rewrite ?Hw1, ?Hl1, ?Hd1, ?Hd, ?Hw. by repeat split.
Qed.

(** [X21] When the missing package directory cannot be created,
    [getChildren] reports it in an error message and returns [undefined].
    The provider keeps the tree it had, but its language list has been
    emptied. *)
Theorem explorer_reports_directory_not_created e message e' message' fs1 :
  fs_readdir (fs (world st)) dir = Throw e ->
  getProp e "message" = Ok message ->
  js_includes "error.message" message "no such file or directory"
    = Ok true ->
  fs_mkdirp host (fs (world st)) (VStr dir) = (Throw e', fs1) ->
  getProp e' "message" = Ok message' ->
  exists st',
    getChildren host fs_readdir st = (Ok None, st')
    /\ world st' =
       {| fs := fs1;
          events := events (world st) ++
            [Mkdirp (VStr dir);
             ShowErrorMessage
               (VStr ("Issue creating smart contract package folder:"
                      +:+ dir))] |}
    /\ tree st' = tree st
    /\ packageLanguageArray st' = []
    /\ packageDir st' = VStr dir.
Proof.
  intros Hread Hmessage Hmissing Hmk Hmessage'.
  destruct (getChildren_begin st configured dir Hconfigured Hexpanded)
    as (st0 & -> & Hw & Ht & Hl & Hd).
  rewrite <- Hw in Hread, Hmk. unfold bind at 1.
  rewrite (readPackageDir_catch st0 dir e message true
             Hread Hmessage Hmissing).
  unfold bind at 1, set_packageLanguageArray at 1.
  match goal with
  | |- context [createMissingDir host dir ?s] =>
      destruct (createMissingDir_failed s dir e' message' fs1 Hmk Hmessage')
        as (st1 & Hrun & Hw1 & Ht1 & Hl1 & Hd1)
  end.
  cbn [world tree packageLanguageArray packageDir] in Hw1, Ht1, Hl1, Hd1.
  rewrite Hrun. cbn beta iota. unfold ret.
  exists st1. split; [reflexivity|].
  rewrite ?Hw1, ?Ht1, ?Hl1, ?Hd1, ?Hd, ?Ht, ?Hw. by repeat split.
Qed.

(** [X22] An existing package directory: [getChildren] stores its
    entries as the language list, builds the tree from them, stores the
    tree and returns it.  The only things shown are the information
    messages for the language directories that cannot be listed. *)
Theorem explorer_lists_the_package_directory names :
  fs_readdir (fs (world st)) dir = Ok names ->
  Forall (listable host fs_readdir (fs (world st)) (VStr dir)) names ->
  exists st',
    getChildren host fs_readdir st =
      (Ok (Some (treeOf host fs_readdir (fs (world st)) (VStr dir) names)),
       st')
    /\ world st' =
       after (world st)
         (concat (map (listingIssue host fs_readdir (fs (world st))
                         (VStr dir)) names))
    /\ tree st' = treeOf host fs_readdir (fs (world st)) (VStr dir) names
    /\ packageLanguageArray st' = names
    /\ packageDir st' = VStr dir.
Proof.
  intros Hread Hall.
  destruct (getChildren_begin st configured dir Hconfigured Hexpanded)
    as (st0 & -> & Hw & Ht & Hl & Hd).
  rewrite <- Hw in Hread. unfold bind at 1.
  unfold readPackageDir, try_catch.
  unfold bind at 1, on_world at 1, await_fs. rewrite Hread.
  unfold bind at 1, set_packageLanguageArray at 1. unfold ret at 1.
  unfold bind at 1, get_packageLanguageArray at 1.
  cbn [world console tree packageLanguageArray packageDir changesFired].
  unfold createPackageTree.
  unfold bind at 1, bind at 1, console_log at 1.
  unfold bind at 1, get_packageLanguageArray at 1.
  cbn [world console tree packageLanguageArray packageDir changesFired].
  unfold bind at 1.
  match goal with
  | |- context [listPackages _ _ names [] ?s] =>
      destruct (listPackages_run host fs_readdir names [] s)
        as (st1 & Hrun & Hw1 & Ht1 & Hl1 & Hd1 & Hc1)
  end.
  { cbn [world packageDir]. by rewrite Hw, Hd. }
  rewrite Hrun. cbn [world packageDir] in *.
  unfold ret at 1. unfold bind, set_tree, ret.
  eexists. split.
  { unfold treeOf. rewrite Hw, Hd. reflexivity. }
  cbn [world tree packageLanguageArray packageDir].
  rewrite ?Hw1, ?Hl1, ?Hd1, ?Hw, ?Hd. by repeat split.
Qed.

End ChildrenFacts.

(** The default directory, under the home directory, on an empty disk. *)
Lemma explorer_creates_missing_directory_witness :
  getConfiguration CommandSamples.tildeHost "fabric.package.directory"
    = VStr "~/.fabric-vscode/packages" /\
  expandedDir CommandSamples.tildeHost "~/.fabric-vscode/packages"
    = Ok "/home/user/.fabric-vscode/packages" /\
  ExplorerSamples.readdir [] "/home/user/.fabric-vscode/packages"
    = Throw (MemHost.fs_error "ENOENT" "no such file or directory, scandir"
               "/home/user/.fabric-vscode/packages") /\
  exists st',
    getChildren CommandSamples.tildeHost ExplorerSamples.readdir
      (ExplorerSamples.provider []) = (Ok (Some []), st')
    /\ world st' =
       {| fs := [(["home"], MemHost.Dir);
                 (["home"; "user"], MemHost.Dir);
                 (["home"; "user"; ".fabric-vscode"], MemHost.Dir);
                 (["home"; "user"; ".fabric-vscode"; "packages"],
                  MemHost.Dir)];
          events := [Mkdirp (VStr "/home/user/.fabric-vscode/packages")] |}.
Proof.
  do 3 (split; [reflexivity|]).
  destruct (explorer_creates_missing_directory CommandSamples.tildeHost
              ExplorerSamples.readdir (ExplorerSamples.provider [])
              "~/.fabric-vscode/packages"
              "/home/user/.fabric-vscode/packages" eq_refl eq_refl
              (MemHost.fs_error "ENOENT" "no such file or directory, scandir"
                 "/home/user/.fabric-vscode/packages")
              _ _ eq_refl eq_refl eq_refl eq_refl)
    as (st' & Hrun & Hworld & _).
  exists st'. split; [exact Hrun|exact Hworld].
Defined.

(** A regular file where the package directory should be. *)
Lemma explorer_reports_unreadable_directory_witness :
  getConfiguration Samples.fooHost "fabric.package.directory"
    = VStr "/pkgs" /\
  ExplorerSamples.readdir ExplorerSamples.blockedTree "/pkgs"
    = Throw (MemHost.fs_error "ENOTDIR" "not a directory, scandir" "/pkgs") /\
  exists st',
    getChildren Samples.fooHost ExplorerSamples.readdir
      (ExplorerSamples.provider ExplorerSamples.blockedTree) = (Ok None, st')
    /\ world st' =
       {| fs := ExplorerSamples.blockedTree;
          events :=
            [ShowErrorMessage
               (VStr "Issue reading smart contract package folder:/pkgs")] |}.
Proof.
  do 2 (split; [reflexivity|]).
  destruct (explorer_reports_unreadable_directory Samples.fooHost
              ExplorerSamples.readdir
              (ExplorerSamples.provider ExplorerSamples.blockedTree)
              "/pkgs" "/pkgs" eq_refl eq_refl
              (MemHost.fs_error "ENOTDIR" "not a directory, scandir" "/pkgs")
              _ eq_refl eq_refl eq_refl)
    as (st' & Hrun & Hworld & _).
  exists st'. split; [exact Hrun|exact Hworld].
Defined.

(** The package directory is missing and the disk cannot be written. *)
Lemma explorer_reports_directory_not_created_witness :
  ExplorerSamples.readdir [] "/pkgs"
    = Throw (MemHost.fs_error "ENOENT" "no such file or directory, scandir"
               "/pkgs") /\
  fs_mkdirp ExplorerSamples.readOnlyDiskHost [] (VStr "/pkgs")
    = (Throw ExplorerSamples.readOnlyError, []) /\
  exists st',
    getChildren ExplorerSamples.readOnlyDiskHost ExplorerSamples.readdir
      (ExplorerSamples.provider []) = (Ok None, st')
    /\ world st' =
       {| fs := [];
          events :=
            [Mkdirp (VStr "/pkgs");
             ShowErrorMessage
               (VStr "Issue creating smart contract package folder:/pkgs")]
       |}.
Proof.
  do 2 (split; [reflexivity|]).
  destruct (explorer_reports_directory_not_created
              ExplorerSamples.readOnlyDiskHost ExplorerSamples.readdir
              (ExplorerSamples.provider []) "/pkgs" "/pkgs" eq_refl eq_refl
              (MemHost.fs_error "ENOENT" "no such file or directory, scandir"
                 "/pkgs")
              _ ExplorerSamples.readOnlyError _ [] eq_refl eq_refl eq_refl
              eq_refl eq_refl)
    as (st' & Hrun & Hworld & _).
  exists st'. split; [exact Hrun|exact Hworld].
Defined.

(** A package directory with JavaScript and Go packages. *)
Lemma explorer_lists_the_package_directory_witness :
  ExplorerSamples.readdir ExplorerSamples.packagesTree "/pkgs"
    = Ok [".DS_Store"; "javascript"; "typescript"; "go"] /\
  exists st',
    getChildren Samples.fooHost ExplorerSamples.readdir
      (ExplorerSamples.provider ExplorerSamples.packagesTree) =
      (Ok (Some [{| packageTitle := "foo@v1.2.3" |};
                 {| packageTitle := "mycc@vundefined" |}]), st')
    /\ tree st' = [{| packageTitle := "foo@v1.2.3" |};
                   {| packageTitle := "mycc@vundefined" |}].
Proof.
  split; [reflexivity|].
  assert (Hall :
    Forall (listable Samples.fooHost ExplorerSamples.readdir
              ExplorerSamples.packagesTree (VStr "/pkgs"))
           [".DS_Store"; "javascript"; "typescript"; "go"]).
  { repeat constructor; intros Hvisible; try discriminate Hvisible;
      (eexists; split; [reflexivity|]); intros e He;
      first [discriminate He | injection He as <-; by eexists]. }
  destruct (explorer_lists_the_package_directory Samples.fooHost
              ExplorerSamples.readdir
              (ExplorerSamples.provider ExplorerSamples.packagesTree)
              "/pkgs" "/pkgs" eq_refl eq_refl
              [".DS_Store"; "javascript"; "typescript"; "go"] eq_refl Hall)
    as (st' & Hrun & _ & Htree & _).
  exists st'. split; [exact Hrun|exact Htree].
Defined.

(** The package written by the command is the one the explorer lists. *)
Example explorer_after_packaging :
  (getChildren Samples.fooHost ExplorerSamples.readdir
     (ExplorerSamples.provider Samples.packagedTree)).1
  = Ok (Some [{| packageTitle := "foo@v1.2.3" |}]).
Proof. reflexivity. Qed.
